(** * Stock-bidding application: order book, reducer, placement,
      cancellation, timer and invoice delivery

    A shallow embedding of the TypeScript sources:

    - [components/auction/OrderBook.tsx], [components/auction/TopBids.tsx],
      [components/auction/BidHistory.tsx], [components/auction/BidForm.tsx],
      [components/auction/Timer.tsx];
    - [context/AuctionContext.tsx] (reducer, [isAuctionActive], [placeBid],
      [cancelBid]) and [types/index.ts];
    - [services/firebase.ts] ([addBid], [cancelBid], [subscribeToBids]);
    - [services/whatsapp.ts] ([sendInvoice] and its three transports).

    Conventions.  A JavaScript [number] is a binary64 value.  A record
    carries a price or a sum of money as the rational that the number
    denotes ([Q]), so that comparing two of them is comparing rationals; sums,
    differences and products of them are computed in binary64 ([Double]).
    Timestamps (milliseconds) and share counts are integers ([Z]).  An
    optional field [f?: T] is [option T].  Asynchronous functions that
    talk to Firestore are functions on an explicit [Store]; the outcome of a
    network call that the code cannot decide is an input of the model. *)

From Stdlib Require Import ZArith QArith Lqa List String Ascii Sorted Permutation Lia Bool.
From Stdlib Require Import SpecFloat.
From stdpp Require Import gmap strings pretty.

Local Open Scope string_scope.
Local Open Scope list_scope.
Local Open Scope Z_scope.

(** ** JavaScript runtime *)

Module Js.

(** [a || b] on strings: the empty string is falsy. *)
Definition or_str (a b : string) : string :=
  match a with
  | EmptyString => b
  | _ => a
  end.

(** [a || b] on an optional number: [undefined] and [0] are falsy. *)
Definition or_num (a : option Z) (b : Z) : Z :=
  match a with
  | Some v => if v =? 0 then b else v
  | None => b
  end.

(** Truthiness of an optional string ([undefined] and [''] are falsy). *)
Definition truthy_str (a : option string) : bool :=
  match a with
  | Some (String _ _) => true
  | _ => false
  end.

(** [hay.includes(needle)]. *)
Fixpoint includes (needle hay : string) : bool :=
  match hay with
  | EmptyString => String.prefix needle EmptyString
  | String _ rest => String.prefix needle hay || includes needle rest
  end.

(** [arr.slice(0, n)]. *)
Definition slice0 {A} (n : nat) (l : list A) : list A := firstn n l.

(** [Array.prototype.sort(cmp)].  ECMAScript 2019 requires the sort to be
    stable: [b] is moved before [a] only when [cmp(a, b) > 0].  For a
    consistent comparator the result of a stable sort is unique, so the
    stable insertion sort below is the result of any conforming engine. *)
Section Sort.
Context {A : Type}.
Variable cmp : A -> A -> Q.

Definition after (x y : A) : bool :=
  match (cmp x y ?= 0)%Q with
  | Gt => true
  | _ => false
  end.

Fixpoint insert (x : A) (l : list A) : list A :=
  match l with
  | [] => [x]
  | y :: l' => if after x y then y :: insert x l' else x :: y :: l'
  end.

Definition sort (l : list A) : list A := fold_right insert [] l.

(** [x] may stay before [y]: the comparator does not ask for a swap. *)
Definition keeps (x y : A) : Prop := after x y = false.
End Sort.

End Js.

(** ** JavaScript numbers

    Binary64 as the Standard Library specifies it: [SpecFloat] at
    precision 53 with exponent bound 1024, rounding to nearest, ties to
    even. *)

Module Double.

Definition prec : Z := 53.
Definition emax : Z := 1024.

Definition t : Type := spec_float.

(** [2 ^ e] for an exponent of either sign. *)
Definition pow2 (e : Z) : Q :=
  match e with
  | Zneg p => 1 # Pos.pow 2 p
  | _ => inject_Z (2 ^ e)
  end.

(** Neither an infinity nor [NaN]. *)
Definition isFinite (f : t) : bool :=
  match f with
  | S754_zero _ | S754_finite _ _ _ => true
  | S754_infinity _ | S754_nan => false
  end.

(** The rational that a finite number denotes, in lowest terms.  No
    rational stands for an infinity or for [NaN]: [value] reads 0 there,
    and a statement about a computed figure asks for [isFinite]. *)
Definition value (f : t) : Q :=
  match f with
  | S754_finite s m e => Qred ((if s then -1 else 1) * inject_Z (Zpos m) * pow2 e)
  | _ => 0
  end.

(** The number nearest to a rational: the number that a decimal literal
    or [parseFloat] denotes, and the number itself when the rational is
    one. *)
Definition ofQ (x : Q) : t :=
  let r := Qred x in
  match Qnum r with
  | Z0 => S754_zero false
  | Zpos n =>
      let '(m, e, l) := SFdiv_core_binary prec emax (Zpos n) 0 (Zpos (Qden r)) 0 in
      binary_round_aux prec emax false m e l
  | Zneg n =>
      let '(m, e, l) := SFdiv_core_binary prec emax (Zpos n) 0 (Zpos (Qden r)) 0 in
      binary_round_aux prec emax true m e l
  end.

(** [x + y], [x - y] and [x * y]. *)
Definition add (x y : t) : t := SFadd prec emax x y.
Definition sub (x y : t) : t := SFsub prec emax x y.
Definition mul (x y : t) : t := SFmul prec emax x y.

(** The rational denoted by a decimal literal. *)
Definition number (x : Q) : Q := value (ofQ x).

(** Sum and product on the rationals that two numbers denote. *)
Definition plus (x y : Q) : Q := value (add (ofQ x) (ofQ y)).
Definition times (x y : Q) : Q := value (mul (ofQ x) (ofQ y)).

End Double.

(** ** Data model ([types/index.ts], [services/firebase.ts]) *)

Inductive BidType := buy | sell.

Inductive BidStatus := active | cancelled | executed.

Definition BidType_eqb (a b : BidType) : bool :=
  match a, b with
  | buy, buy | sell, sell => true
  | _, _ => false
  end.

Definition BidStatus_eqb (a b : BidStatus) : bool :=
  match a, b with
  | active, active | cancelled, cancelled | executed, executed => true
  | _, _ => false
  end.

Module Bid.
(** [interface Bid].  [quantity] is a field of the [Bid] of
    [services/firebase.ts] and of the components; the [Bid] of
    [types/index.ts] has no such field, so objects built in the context
    carry [None]. *)
Record t := mk {
  id : string;
  userId : string;
  userName : string;
  amount : Q;
  quantity : option Z;
  type : BidType;
  timestamp : Z;
  stockSymbol : string;
  status : option BidStatus;
  profitLoss : option Q
}.

(** [{ ...bid, ...updates }] for the one [updates] the code ever sends,
    [{ status }]. *)
Definition with_status (b : t) (s : option BidStatus) : t :=
  mk (id b) (userId b) (userName b) (amount b) (quantity b) (type b)
     (timestamp b) (stockSymbol b) s (profitLoss b).
End Bid.

Module User.
Record t := mk {
  uid : string;
  email : string;
  displayName : string;
  phoneNumber : option string
}.
End User.

Module Stock.
Record t := mk {
  symbol : string;
  name : string;
  currentPrice : Q
}.
End Stock.

Module Auction.
Record t := mk {
  id : string;
  stockSymbol : string;
  startPrice : Q;
  currentPrice : Q;
  startTime : Z;
  endTime : Z;
  duration : Z;
  isActive : bool;
  totalBids : Z;
  participants : list string
}.

Definition with_isActive (a : t) (v : bool) : t :=
  mk (id a) (stockSymbol a) (startPrice a) (currentPrice a) (startTime a)
     (endTime a) (duration a) v (totalBids a) (participants a).
End Auction.

Module Invoice.
Record t := mk {
  item : string;
  quantity : Z;
  price : Q;
  profitLoss : Q;
  timestamp : Z;
  user : string;
  bidType : BidType;
  stockSymbol : string;
  bidId : option string
}.
End Invoice.

(** ** Order book ([components/auction/OrderBook.tsx]) *)

Module OrderBook.

(** [bid => !bid.status || bid.status === 'active'] *)
Definition isActiveBid (b : Bid.t) : bool :=
  match Bid.status b with
  | None => true
  | Some s => BidStatus_eqb s active
  end.

Definition activeBids (bids : list Bid.t) : list Bid.t :=
  List.filter isActiveBid bids.

(** [(a, b) => b.amount - a.amount].  The sort reads only the sign of the
    result, and the binary64 difference of two numbers has the sign of
    their exact difference, which is what the comparators return. *)
Definition byAmountDesc (a b : Bid.t) : Q := (Bid.amount b - Bid.amount a)%Q.

(** [(a, b) => a.amount - b.amount] *)
Definition byAmountAsc (a b : Bid.t) : Q := (Bid.amount a - Bid.amount b)%Q.

Definition isType (t : BidType) (b : Bid.t) : bool := BidType_eqb (Bid.type b) t.

(** The bids quoted at one price. *)
Definition hasAmount (price : Q) (b : Bid.t) : bool := Qeq_bool (Bid.amount b) price.

(** The sorted side before [.slice(0, 5)]. *)
Definition sortedBuy (bids : list Bid.t) : list Bid.t :=
  Js.sort byAmountDesc (List.filter (isType buy) (activeBids bids)).

Definition sortedSell (bids : list Bid.t) : list Bid.t :=
  Js.sort byAmountAsc (List.filter (isType sell) (activeBids bids)).

Definition buyBids (bids : list Bid.t) : list Bid.t :=
  Js.slice0 5 (sortedBuy bids).

Definition sellBids (bids : list Bid.t) : list Bid.t :=
  Js.slice0 5 (sortedSell bids).

Definition topBids (bids : list Bid.t) : list Bid.t :=
  Js.slice0 5 (Js.sort byAmountDesc (activeBids bids)).

End OrderBook.

(** ** Leaderboard ([components/auction/TopBids.tsx]) *)

Module TopBids.

(** [bid => bid.status !== 'cancelled'] *)
Definition notCancelled (b : Bid.t) : bool :=
  match Bid.status b with
  | Some cancelled => false
  | _ => true
  end.

(** Primary key amount (highest first), secondary key timestamp
    (earliest first). *)
Definition compare (a b : Bid.t) : Q :=
  if negb (Qeq_bool (Bid.amount b) (Bid.amount a))
  then (Bid.amount b - Bid.amount a)%Q
  else inject_Z (Bid.timestamp a - Bid.timestamp b).

Definition activeBids (bids : list Bid.t) : list Bid.t :=
  List.filter notCancelled bids.

Definition topBids (bids : list Bid.t) : list Bid.t :=
  Js.slice0 15 (Js.sort compare (activeBids bids)).

(** Price first (highest first), then time (earliest first): the order
    the comparator describes. *)
Definition priceTimePriority (a b : Bid.t) : Prop :=
  (Bid.amount b < Bid.amount a)%Q
  \/ ((Bid.amount a == Bid.amount b)%Q /\ Bid.timestamp a <= Bid.timestamp b).

End TopBids.

(** ** Full history ([components/auction/BidHistory.tsx]) *)

Module BidHistory.

Inductive FilterType := all | onlyBuy | onlySell | onlyUser.

Definition keep (showUserOnly : bool) (currentUserId : option string)
    (f : FilterType) (b : Bid.t) : bool :=
  let mine :=
    match currentUserId with
    | Some u => String.eqb (Bid.userId b) u
    | None => false
    end in
  if showUserOnly && negb mine then false
  else match f with
       | onlyBuy => BidType_eqb (Bid.type b) buy
       | onlySell => BidType_eqb (Bid.type b) sell
       | onlyUser => mine
       | all => true
       end.

(** [(a, b) => b.timestamp - a.timestamp] *)
Definition byTimeDesc (a b : Bid.t) : Q :=
  inject_Z (Bid.timestamp b - Bid.timestamp a).

Definition filteredBids (showUserOnly : bool) (currentUserId : option string)
    (f : FilterType) (bids : list Bid.t) : list Bid.t :=
  Js.slice0 20 (Js.sort byTimeDesc (List.filter (keep showUserOnly currentUserId f) bids)).

Inductive StatusText := Executed | Cancelled | Active | Pending.

Definition getStatusText (s : option BidStatus) : StatusText :=
  match s with
  | Some executed => Executed
  | Some cancelled => Cancelled
  | Some active => Active
  | None => Pending
  end.

End BidHistory.

(** ** Results of fallible calls *)

Inductive Result (A : Type) :=
  | Ok (a : A)
  | Throw (message : string).
Arguments Ok {A} a.
Arguments Throw {A} message.

Definition succeeded {A} (r : Result A) : bool :=
  match r with
  | Ok _ => true
  | Throw _ => false
  end.

(** ** Firestore collections and [services/firebase.ts] *)

Module Firestore.

(** A document of [bids/{id}].  The fields are those that [addBid] writes
    ([...bid], [status], [timestamp]); [createdAt], [cancelledAt] and
    [updatedAt] are written but never read and are left out. *)
Record BidDoc := mkBidDoc {
  userId : string;
  userName : string;
  amount : Q;
  quantity : option Z;
  type : BidType;
  timestamp : option Z;
  stockSymbol : string;
  status : option BidStatus
}.

(** A document of [users/{uid}]: the counters the bid paths touch. *)
Record UserDoc := mkUserDoc {
  profitLoss : option Q;
  totalBids : option Z;
  activeBids : option Z
}.

(** A document of [auctions/{symbol}]. *)
Record AuctionDoc := mkAuctionDoc {
  auctionTotalBids : option Z;
  currentPrice : Q;
  highestBidAmount : option Q
}.

Record Store := mkStore {
  bids : gmap string BidDoc;
  users : gmap string UserDoc;
  auctions : gmap string AuctionDoc
}.

(** [increment(v)] on a numeric field: a missing field counts as [0]. *)
Definition incrementZ (field : option Z) (v : Z) : option Z :=
  Some (default 0 field + v).

(** [increment(v)] on a field that holds a sum of money: the store adds
    the two numbers in binary64, and sets a field that does not exist to
    [v]. *)
Definition incrementQ (field : option Q) (v : Q) : option Q :=
  match field with
  | Some x => Some (Double.plus x v)
  | None => Some v
  end.

Definition set_status (d : BidDoc) (s : BidStatus) : BidDoc :=
  mkBidDoc (userId d) (userName d) (amount d) (quantity d) (type d)
           (timestamp d) (stockSymbol d) (Some s).

(** What the environment decides during one call. *)
Record Backend := mkBackend {
  now : Z;                    (* [Date.now()] *)
  serverTime : Z;             (* the value [serverTimestamp()] resolves to *)
  addDoc : string + string;   (* [inl id]: id issued by the store;
                                 [inr msg]: the insert is refused with [msg] *)
  profitWrite : option string (* [Some msg]: the profile write of
                                 [updateUserProfitLoss] fails with [msg] *)
}.

(** [updateUserBidCount]: only when the document exists; errors are
    logged, never thrown. *)
Definition updateUserBidCount (s : Store) (uid : string) : Store :=
  match users s !! uid with
  | Some u =>
      mkStore (bids s)
              (<[uid := mkUserDoc (profitLoss u) (incrementZ (totalBids u) 1) (activeBids u)]> (users s))
              (auctions s)
  | None => s
  end.

(** [updateUserStats(userId, 'activeBids', value)]: [updateDoc] fails on a
    missing document; the failure is caught and logged. *)
Definition updateUserStats_activeBids (s : Store) (uid : string) (value : Z) : Store :=
  match users s !! uid with
  | Some u =>
      mkStore (bids s)
              (<[uid := mkUserDoc (profitLoss u) (totalBids u) (incrementZ (activeBids u) value)]> (users s))
              (auctions s)
  | None => s
  end.

Definition updateAuctionStats (s : Store) (symbol : string) (bidAmount : Q) : Store :=
  match auctions s !! symbol with
  | Some a =>
      let price :=
        match highestBidAmount a with
        | None => bidAmount
        | Some h => if Qlt_le_dec h bidAmount then bidAmount else currentPrice a
        end in
      mkStore (bids s) (users s)
              (<[symbol := mkAuctionDoc (incrementZ (auctionTotalBids a) 1) price (highestBidAmount a)]> (auctions s))
  | None => s
  end.

(** [addBid(bid: Omit<Bid, 'id'>)]; the [id] of the argument is not read. *)
Definition addBid (be : Backend) (s : Store) (bid : Bid.t) : Store * Result Bid.t :=
  match addDoc be with
  | inr msg => (s, Throw ("Failed to place bid: " +:+ msg))
  | inl docId =>
      let bidData :=
        mkBidDoc (Bid.userId bid) (Bid.userName bid) (Bid.amount bid) (Bid.quantity bid)
                 (Bid.type bid) (Some (serverTime be)) (Bid.stockSymbol bid) (Some active) in
      let s1 := mkStore (<[docId := bidData]> (bids s)) (users s) (auctions s) in
      let s2 :=
        if negb (String.eqb (Bid.userId bid) "") && negb (String.eqb (Bid.userId bid) "bot")
        then updateUserStats_activeBids (updateUserBidCount s1 (Bid.userId bid)) (Bid.userId bid) 1
        else s1 in
      let s3 := updateAuctionStats s2 (Bid.stockSymbol bid) (Bid.amount bid) in
      (s3, Ok (Bid.mk docId (Bid.userId bid) (Bid.userName bid) (Bid.amount bid)
                      (Bid.quantity bid) (Bid.type bid) (now be) (Bid.stockSymbol bid)
                      (Some active) (Bid.profitLoss bid)))
  end.

(** [cancelBid(bidId, userId)]. *)
Definition cancelBid (s : Store) (bidId requester : string) : Store * Result unit :=
  match bids s !! bidId with
  | None => (s, Throw "Bid not found")
  | Some bidData =>
      if negb (String.eqb (userId bidData) requester)
      then (s, Throw "You can only cancel your own bids")
      else
        match status bidData with
        | Some active =>
            let s1 := mkStore (<[bidId := set_status bidData cancelled]> (bids s))
                              (users s) (auctions s) in
            (updateUserStats_activeBids s1 requester (-1), Ok tt)
        | _ => (s, Throw "Bid cannot be cancelled")
        end
  end.

(** The owner's active-bid counter as a reader of [users/{uid}] sees it
    ([None]: no profile document; a missing field reads as [0]). *)
Definition activeBidsCounter (s : Store) (uid : string) : option Z :=
  match users s !! uid with
  | Some u => Some (default 0 (activeBids u))
  | None => None
  end.

(** The cumulative profit/loss of a profile as a reader sees it (no
    document or no field: [0]). *)
Definition profitLossOf (s : Store) (uid : string) : Q :=
  match users s !! uid with
  | Some u => default 0%Q (profitLoss u)
  | None => 0%Q
  end.

(** The field itself ([None]: no document, or a document without the
    field). *)
Definition profitLossField (s : Store) (uid : string) : option Q :=
  match users s !! uid with
  | Some u => profitLoss u
  | None => None
  end.

(** [updateUserProfitLoss(userId, amount)]. *)
Definition updateUserProfitLoss (be : Backend) (s : Store) (uid : string) (delta : Q)
    : Store * Result unit :=
  match profitWrite be with
  | Some msg => (s, Throw ("Failed to update profit/loss: " +:+ msg))
  | None =>
      match users s !! uid with
      | None =>
          (mkStore (bids s) (<[uid := mkUserDoc (Some delta) (Some 1) None]> (users s)) (auctions s),
           Ok tt)
      | Some u =>
          (mkStore (bids s)
                   (<[uid := mkUserDoc (incrementQ (profitLoss u) delta) (totalBids u) (activeBids u)]> (users s))
                   (auctions s),
           Ok tt)
      end
  end.

(** The query of [getBids] and [subscribeToBids]:
    [where('stockSymbol', '==', s), orderBy('timestamp', 'desc'),
    limit(n)], evaluated by the store.  A query ordered by a field
    leaves out the documents that do not have the field. *)
Definition byServerTimeDesc (a b : string * BidDoc) : Q :=
  inject_Z (default 0 (timestamp (snd b)) - default 0 (timestamp (snd a))).

Definition matchesQuery (symbol : string) (kd : string * BidDoc) : bool :=
  String.eqb (stockSymbol (snd kd)) symbol
  && match timestamp (snd kd) with
     | Some _ => true
     | None => false
     end.

Definition bidsQuery (s : Store) (symbol : string) (limitCount : nat)
    : list (string * BidDoc) :=
  firstn limitCount
    (Js.sort byServerTimeDesc
       (List.filter (matchesQuery symbol) (map_to_list (bids s)))).

(** The snapshot listener of [subscribeToBids]: one [Bid] per document,
    built from the fields [userId], [userName], [amount], [quantity],
    [type], [timestamp] and [stockSymbol]. *)
Definition bidOfDoc (be : Backend) (symbol : string) (kd : string * BidDoc) : Bid.t :=
  let data := snd kd in
  Bid.mk (fst kd) (userId data) (userName data) (amount data)
         (Some (Js.or_num (quantity data) 1)) (type data)
         (Js.or_num (timestamp data) (now be))
         (Js.or_str (stockSymbol data) symbol)
         None None.

Definition onSnapshot (be : Backend) (symbol : string) (snapshot : list (string * BidDoc))
    : list Bid.t :=
  List.map (bidOfDoc be symbol) snapshot.

(** What the callback of [subscribeToBids(callback, symbol, limit)]
    receives for the current content of the store. *)
Definition subscribeToBids (be : Backend) (s : Store) (symbol : string) (limitCount : nat)
    : list Bid.t :=
  onSnapshot be symbol (bidsQuery s symbol limitCount).

End Firestore.

(** ** Invoice delivery ([services/whatsapp.ts]) *)

Module WhatsApp.

Record Response := mkResponse {
  success : bool;
  messageId : option string;
  error : option string
}.

(** [import.meta.env] as read by the constructor ([None]: not set). *)
Record Env := mkEnv {
  VITE_TWILIO_ACCOUNT_SID : option string;
  VITE_TWILIO_AUTH_TOKEN : option string;
  VITE_TWILIO_WHATSAPP_NUMBER : option string;
  VITE_BACKEND_API_URL : option string;
  VITE_USE_BACKEND_API : option string
}.

Record Service := mkService {
  accountSid : string;
  authToken : string;
  whatsappNumber : string;
  backendApiUrl : string;
  useBackendApi : bool;
  isConfigured : bool
}.

Definition nonEmpty (s : string) : bool := negb (String.eqb s "").

Definition constructor (env : Env) : Service :=
  let sid := Js.or_str (default "" (VITE_TWILIO_ACCOUNT_SID env)) "" in
  let token := Js.or_str (default "" (VITE_TWILIO_AUTH_TOKEN env)) "" in
  let number := Js.or_str (default "" (VITE_TWILIO_WHATSAPP_NUMBER env)) "whatsapp:+14155238886" in
  let url := Js.or_str (default "" (VITE_BACKEND_API_URL env)) "http://localhost:3001" in
  let useBackend :=
    match VITE_USE_BACKEND_API env with
    | Some v => String.eqb v "true"
    | None => false
    end in
  mkService sid token number url useBackend
    ((useBackend && nonEmpty url)
     || (nonEmpty sid && nonEmpty token
         && negb (String.eqb sid "your_twilio_account_sid")
         && negb (String.eqb token "your_twilio_auth_token"))).

(** The three transports. *)
Inductive Strategy := BackendAPI | DirectTwilio | Simulation.

(** What a delivery does, in order: the transports it tries and the
    timer it waits on ([setTimeout(resolve, ms)]). *)
Inductive Event :=
  | Attempt (s : Strategy) (to : string)
  | Wait (ms : Z).

(** What the network answers to a [fetch]: [inl id] is an [ok] response
    carrying a message id, [inr msg] a rejected promise or a response
    that is not [ok]. *)
Record Network := mkNetwork {
  relay : string + string;
  twilio : string + string
}.

Definition isDigit (c : ascii) : bool :=
  let n := nat_of_ascii c in (48 <=? n)%nat && (n <=? 57)%nat.

(** [phone.replace(/\D/g, '')] *)
Fixpoint digitsOnly (s : string) : string :=
  match s with
  | EmptyString => EmptyString
  | String c rest => if isDigit c then String c (digitsOnly rest) else digitsOnly rest
  end.

Definition formatPhoneNumber (phone : string) : option string :=
  let cleaned := digitsOnly phone in
  let formatted :=
    if (String.length cleaned =? 10)%nat then "1" +:+ cleaned else cleaned in
  if (String.length formatted <? 10)%nat || (15 <? String.length formatted)%nat
  then None
  else Some ("whatsapp:+" +:+ formatted).

Definition simulateMessage (nowMs : Z) (to : string) : list Event * Response :=
  ([Attempt Simulation to; Wait 800],
   mkResponse true (Some ("simulated_" +:+ pretty nowMs)) None).

Definition sendViaBackendAPI (net : Network) (nowMs : Z) (to : string)
    : list Event * Response :=
  match relay net with
  | inl mid => ([Attempt BackendAPI to], mkResponse true (Some mid) None)
  | inr _ =>
      let '(evs, r) := simulateMessage nowMs to in
      (Attempt BackendAPI to :: evs, r)
  end.

Definition sendTwilioMessage (net : Network) (nowMs : Z) (to : string)
    : list Event * Response :=
  match twilio net with
  | inl sid => ([Attempt DirectTwilio to], mkResponse true (Some sid) None)
  | inr _ =>
      let '(evs, r) := simulateMessage nowMs to in
      (Attempt DirectTwilio to :: evs, r)
  end.

(** [sendInvoice(phoneNumber, invoice)].  The message text is a function
    of the invoice alone and does not influence the control flow. *)
Definition sendInvoice (svc : Service) (net : Network) (nowMs : Z)
    (phoneNumber : string) (invoice : Invoice.t) : list Event * Response :=
  match formatPhoneNumber phoneNumber with
  | None => ([], mkResponse false None (Some "Invalid phone number format"))
  | Some formattedPhone =>
      if useBackendApi svc then sendViaBackendAPI net nowMs formattedPhone
      else if isConfigured svc then sendTwilioMessage net nowMs formattedPhone
      else simulateMessage nowMs formattedPhone
  end.

(** The transports tried by a delivery, in order. *)
Fixpoint attempts (evs : list Event) : list Strategy :=
  match evs with
  | [] => []
  | Attempt s _ :: rest => s :: attempts rest
  | Wait _ :: rest => attempts rest
  end.

(** Follows the wording of the delivery contract, for comparison with
    [sendInvoice]: the relay first, on failure the provider API, on
    failure the simulation. *)
Definition attempts_in_priority_order (net : Network) : list Strategy :=
  match relay net with
  | inl _ => [BackendAPI]
  | inr _ =>
      match twilio net with
      | inl _ => [BackendAPI; DirectTwilio]
      | inr _ => [BackendAPI; DirectTwilio; Simulation]
      end
  end.

End WhatsApp.

(** ** Application state and reducer ([context/AuctionContext.tsx]) *)

Module Context.

Record InvoiceModal := mkInvoiceModal {
  isOpen : bool;
  invoice : option Invoice.t
}.

Record AppState := mkAppState {
  user : option User.t;
  authInitialized : bool;
  firebaseConnected : bool;
  auction : option Auction.t;
  stock : Stock.t;
  bids : list Bid.t;
  highestBid : option Bid.t;
  loading : bool;
  error : option string;
  userProfitLoss : Q;
  userBids : list Bid.t;
  botBiddingEnabled : bool;
  whatsappConnected : bool;
  invoiceModal : InvoiceModal
}.

Definition set_user (s : AppState) (v : option User.t) : AppState :=
  mkAppState v (authInitialized s) (firebaseConnected s) (auction s) (stock s)
    (bids s) (highestBid s) (loading s) (error s) (userProfitLoss s) (userBids s)
    (botBiddingEnabled s) (whatsappConnected s) (invoiceModal s).

Definition set_authInitialized (s : AppState) (v : bool) : AppState :=
  mkAppState (user s) v (firebaseConnected s) (auction s) (stock s) (bids s)
    (highestBid s) (loading s) (error s) (userProfitLoss s) (userBids s)
    (botBiddingEnabled s) (whatsappConnected s) (invoiceModal s).

Definition set_firebaseConnected (s : AppState) (v : bool) : AppState :=
  mkAppState (user s) (authInitialized s) v (auction s) (stock s) (bids s)
    (highestBid s) (loading s) (error s) (userProfitLoss s) (userBids s)
    (botBiddingEnabled s) (whatsappConnected s) (invoiceModal s).

Definition set_auction (s : AppState) (v : option Auction.t) : AppState :=
  mkAppState (user s) (authInitialized s) (firebaseConnected s) v (stock s) (bids
    s) (highestBid s) (loading s) (error s) (userProfitLoss s) (userBids s)
    (botBiddingEnabled s) (whatsappConnected s) (invoiceModal s).

Definition set_stock (s : AppState) (v : Stock.t) : AppState :=
  mkAppState (user s) (authInitialized s) (firebaseConnected s) (auction s) v
    (bids s) (highestBid s) (loading s) (error s) (userProfitLoss s) (userBids s)
    (botBiddingEnabled s) (whatsappConnected s) (invoiceModal s).

Definition set_bids (s : AppState) (v : list Bid.t) : AppState :=
  mkAppState (user s) (authInitialized s) (firebaseConnected s) (auction s) (stock
    s) v (highestBid s) (loading s) (error s) (userProfitLoss s) (userBids s)
    (botBiddingEnabled s) (whatsappConnected s) (invoiceModal s).

Definition set_highestBid (s : AppState) (v : option Bid.t) : AppState :=
  mkAppState (user s) (authInitialized s) (firebaseConnected s) (auction s) (stock
    s) (bids s) v (loading s) (error s) (userProfitLoss s) (userBids s)
    (botBiddingEnabled s) (whatsappConnected s) (invoiceModal s).

Definition set_loading (s : AppState) (v : bool) : AppState :=
  mkAppState (user s) (authInitialized s) (firebaseConnected s) (auction s) (stock
    s) (bids s) (highestBid s) v (error s) (userProfitLoss s) (userBids s)
    (botBiddingEnabled s) (whatsappConnected s) (invoiceModal s).

Definition set_error (s : AppState) (v : option string) : AppState :=
  mkAppState (user s) (authInitialized s) (firebaseConnected s) (auction s) (stock
    s) (bids s) (highestBid s) (loading s) v (userProfitLoss s) (userBids s)
    (botBiddingEnabled s) (whatsappConnected s) (invoiceModal s).

Definition set_userProfitLoss (s : AppState) (v : Q) : AppState :=
  mkAppState (user s) (authInitialized s) (firebaseConnected s) (auction s) (stock
    s) (bids s) (highestBid s) (loading s) (error s) v (userBids s)
    (botBiddingEnabled s) (whatsappConnected s) (invoiceModal s).

Definition set_userBids (s : AppState) (v : list Bid.t) : AppState :=
  mkAppState (user s) (authInitialized s) (firebaseConnected s) (auction s) (stock
    s) (bids s) (highestBid s) (loading s) (error s) (userProfitLoss s) v
    (botBiddingEnabled s) (whatsappConnected s) (invoiceModal s).

Definition set_botBiddingEnabled (s : AppState) (v : bool) : AppState :=
  mkAppState (user s) (authInitialized s) (firebaseConnected s) (auction s) (stock
    s) (bids s) (highestBid s) (loading s) (error s) (userProfitLoss s) (userBids s)
    v (whatsappConnected s) (invoiceModal s).

Definition set_whatsappConnected (s : AppState) (v : bool) : AppState :=
  mkAppState (user s) (authInitialized s) (firebaseConnected s) (auction s) (stock
    s) (bids s) (highestBid s) (loading s) (error s) (userProfitLoss s) (userBids s)
    (botBiddingEnabled s) v (invoiceModal s).

Definition set_invoiceModal (s : AppState) (v : InvoiceModal) : AppState :=
  mkAppState (user s) (authInitialized s) (firebaseConnected s) (auction s) (stock
    s) (bids s) (highestBid s) (loading s) (error s) (userProfitLoss s) (userBids s)
    (botBiddingEnabled s) (whatsappConnected s) v.

(** [import.meta.env.VITE_BOT_BIDDING_ENABLED === 'true'] is the
    parameter [botEnv]. *)
Definition initialState (botEnv : bool) : AppState :=
  mkAppState None false false None
    (Stock.mk "AAPL" "Apple Inc." 150%Q) [] None false None 0%Q []
    botEnv false (mkInvoiceModal false None).

(** [Partial<Bid>] as the code uses it: the only key ever sent is
    [status]. *)
Record BidUpdates := mkBidUpdates { updStatus : option BidStatus }.

Definition applyUpdates (b : Bid.t) (u : BidUpdates) : Bid.t :=
  match updStatus u with
  | Some s => Bid.with_status b (Some s)
  | None => b
  end.

Inductive AppAction :=
  | SET_USER (payload : option User.t)
  | SET_AUTH_INITIALIZED (payload : bool)
  | SET_FIREBASE_CONNECTED (payload : bool)
  | SET_AUCTION (payload : option Auction.t)
  | SET_STOCK (payload : Stock.t)
  | SET_BIDS (payload : list Bid.t)
  | ADD_BID (payload : Bid.t)
  | UPDATE_BID (id : string) (updates : BidUpdates)
  | SET_HIGHEST_BID (payload : option Bid.t)
  | SET_LOADING (payload : bool)
  | SET_ERROR (payload : option string)
  | UPDATE_PROFIT_LOSS (payload : Q)
  | SET_USER_BIDS (payload : list Bid.t)
  | SET_BOT_BIDDING (payload : bool)
  | SET_WHATSAPP_CONNECTED (payload : bool)
  | SET_INVOICE_MODAL (isOpen : bool) (invoice : option Invoice.t)
  | RESET_STATE.

(** [(a, b) => b.timestamp - a.timestamp] *)
Definition byTimestampDesc (a b : Bid.t) : Q :=
  inject_Z (Bid.timestamp b - Bid.timestamp a).

Definition auctionReducer (botEnv : bool) (state : AppState) (action : AppAction)
    : AppState :=
  match action with
  | SET_USER p => set_user state p
  | SET_AUTH_INITIALIZED p => set_authInitialized state p
  | SET_FIREBASE_CONNECTED p => set_firebaseConnected state p
  | SET_AUCTION p => set_auction state p
  | SET_STOCK p => set_stock state p
  | SET_BIDS p => set_bids state p
  | ADD_BID p => set_bids state (Js.sort byTimestampDesc (p :: bids state))
  | UPDATE_BID bidId updates =>
      set_bids state
        (List.map (fun bid => if String.eqb (Bid.id bid) bidId
                              then applyUpdates bid updates else bid)
                  (bids state))
  | SET_HIGHEST_BID p => set_highestBid state p
  | SET_LOADING p => set_loading state p
  | SET_ERROR p => set_error state p
  | UPDATE_PROFIT_LOSS p => set_userProfitLoss state p
  | SET_USER_BIDS p => set_userBids state p
  | SET_BOT_BIDDING p => set_botBiddingEnabled state p
  | SET_WHATSAPP_CONNECTED p => set_whatsappConnected state p
  | SET_INVOICE_MODAL open inv =>
      set_invoiceModal state
        (mkInvoiceModal open
           (match inv with
            | Some i => Some i
            | None => invoice (invoiceModal state)
            end))
  | RESET_STATE => set_authInitialized (initialState botEnv) (authInitialized state)
  end.

(** [dispatch] of a sequence of actions, oldest first. *)
Definition dispatchAll (botEnv : bool) (state : AppState) (actions : list AppAction)
    : AppState :=
  fold_left (auctionReducer botEnv) actions state.

Definition getTimeRemaining (state : AppState) (nowMs : Z) : Z :=
  match auction state with
  | None => 0
  | Some a =>
      if negb (Auction.isActive a) then 0
      else Z.max 0 ((Auction.endTime a - nowMs) / 1000)
  end.

Definition isAuctionActive (state : AppState) (nowMs : Z) : bool :=
  match auction state with
  | None => false
  | Some a => Auction.isActive a && (0 <? getTimeRemaining state nowMs)
  end.

(** *** Placement and cancellation *)

(** Everything outside the provider that one call depends on.  A call
    reads the clock once: [Date.now()] has one value during a call. *)
Record World := mkWorld {
  backend : Firestore.Backend;
  whatsappService : WhatsApp.Service;
  network : WhatsApp.Network;
  botEnv : bool
}.

(** What a call shows or sends, oldest first. *)
Inductive Effect :=
  | ToastError (message : string)
  | ToastSuccess (message : string)
  | InvoiceCreated (invoice : Invoice.t)
  | Delivery (event : WhatsApp.Event).

Record Outcome := mkOutcome {
  state' : AppState;
  store' : Firestore.Store;
  effects : list Effect;
  result : Result unit
}.

Definition toUpperCase (t : BidType) : string :=
  match t with
  | buy => "BUY"
  | sell => "SELL"
  end.

Definition traderName (u : User.t) : string :=
  Js.or_str (User.displayName u) (Js.or_str (User.email u) "Anonymous").

(** The expression computed after the insert and again on the local
    path:
    [type === 'buy' ? (currentPrice - amount) * quantity
                    : (amount - currentPrice) * quantity]. *)
Definition profitLossNumber (type : BidType) (currentPrice amount : Q) (quantity : Z)
    : Double.t :=
  match type with
  | buy =>
      Double.mul (Double.sub (Double.ofQ currentPrice) (Double.ofQ amount))
                 (Double.ofQ (inject_Z quantity))
  | sell =>
      Double.mul (Double.sub (Double.ofQ amount) (Double.ofQ currentPrice))
                 (Double.ofQ (inject_Z quantity))
  end.

Definition profitLoss (type : BidType) (currentPrice amount : Q) (quantity : Z) : Q :=
  Double.value (profitLossNumber type currentPrice amount quantity).

(** [state.userProfitLoss + profitLoss] *)
Definition newProfitLoss (state : AppState) (pl : Double.t) : Q :=
  Double.value (Double.add (Double.ofQ (userProfitLoss state)) pl).

(** The [invoice] that [sendWhatsAppInvoice] builds. *)
Definition invoiceFor (w : World) (state : AppState) (savedBid : Bid.t)
    (amount : Q) (type : BidType) (pl : Q) (quantity : Z) : Invoice.t :=
  Invoice.mk (Stock.name (stock state)) quantity amount pl (Firestore.now (backend w))
             (match user state with
              | Some u => traderName u
              | None => "Anonymous"
              end)
             type (Stock.symbol (stock state)) (Some (Bid.id savedBid)).

(** [sendWhatsAppInvoice(savedBid, amount, type, profitLoss, quantity)]:
    the actions it dispatches and what it shows or sends. *)
Definition sendWhatsAppInvoice (w : World) (state : AppState) (savedBid : Bid.t)
    (amount : Q) (type : BidType) (pl : Q) (quantity : Z)
    : list AppAction * list Effect :=
  let inv := invoiceFor w state savedBid amount type pl quantity in
  if match user state with
     | Some u => Js.truthy_str (User.phoneNumber u)
     | None => false
     end
  then
    let phone :=
      match user state with
      | Some u => default "" (User.phoneNumber u)
      | None => ""
      end in
    let '(events, response) :=
      WhatsApp.sendInvoice (whatsappService w) (network w) (Firestore.now (backend w))
                           phone inv in
    ([],
     InvoiceCreated inv :: List.map Delivery events
       ++ [ToastSuccess (if WhatsApp.success response
                         then "📱 Invoice sent to WhatsApp!"
                         else "📱 Invoice simulated (check console)")])
  else
    ([SET_INVOICE_MODAL true (Some inv)],
     [InvoiceCreated inv;
      ToastSuccess "📱 Invoice created (add phone number for WhatsApp)"]).

(** [placeBid(amount, type, quantity = 10)]. *)
Definition placeBid (w : World) (state : AppState) (store : Firestore.Store)
    (amount : Q) (type : BidType) (quantityArg : option Z) : Outcome :=
  let quantity := default 10 quantityArg in
  let nowMs := Firestore.now (backend w) in
  let reduce := auctionReducer (botEnv w) in
  match user state with
  | None =>
      mkOutcome state store [ToastError "User not authenticated"]
                (Throw "User not authenticated")
  | Some u =>
      if negb (isAuctionActive state nowMs)
      then mkOutcome state store [ToastError "Auction is not active"]
                     (Throw "Auction is not active")
      else
        let st1 := dispatchAll (botEnv w) state [SET_LOADING true; SET_ERROR None] in
        let bid :=
          Bid.mk "" (User.uid u) (traderName u) amount None type nowMs
                 (Stock.symbol (stock state)) None None in
        match Firestore.addBid (backend w) store bid with
        | (store1, Ok savedBid) =>
            let st2 := reduce st1 (ADD_BID savedBid) in
            let figure :=
              profitLossNumber type (Stock.currentPrice (stock state)) amount quantity in
            let pl := Double.value figure in
            let '(store2, st3) :=
              match Firestore.updateUserProfitLoss (backend w) store1 (User.uid u) pl with
              | (s, Ok _) =>
                  (s, reduce st2 (UPDATE_PROFIT_LOSS (newProfitLoss state figure)))
              | (s, Throw _) => (s, st2)
              end in
            let '(actions, shown) :=
              sendWhatsAppInvoice w state savedBid amount type pl quantity in
            let st4 := dispatchAll (botEnv w) st3 actions in
            mkOutcome (reduce st4 (SET_LOADING false)) store2
                      (shown ++ [ToastSuccess (toUpperCase type +:+ " bid placed successfully!")])
                      (Ok tt)
        | (store1, Throw message) =>
            if Js.includes "permissions" message
            then
              let localBid :=
                Bid.mk ("local-" +:+ pretty nowMs) (User.uid u) (traderName u) amount None
                       type nowMs (Stock.symbol (stock state)) (Some active) None in
              let st2 := reduce st1 (ADD_BID localBid) in
              let figure :=
                profitLossNumber type (Stock.currentPrice (stock state)) amount quantity in
              let pl := Double.value figure in
              let st3 := reduce st2 (UPDATE_PROFIT_LOSS (newProfitLoss state figure)) in
              let '(actions, shown) :=
                sendWhatsAppInvoice w state localBid amount type pl quantity in
              let st4 := dispatchAll (botEnv w) st3 actions in
              mkOutcome (reduce st4 (SET_LOADING false)) store1
                        (shown ++ [ToastSuccess (toUpperCase type +:+ " bid placed (demo mode)!")])
                        (Ok tt)
            else
              let st2 := reduce st1 (SET_ERROR (Some message)) in
              mkOutcome (reduce st2 (SET_LOADING false)) store1
                        [ToastError ("Failed to place bid: " +:+ message)]
                        (Throw message)
        end
  end.

(** The invoices a call has built, oldest first. *)
Fixpoint invoices (shown : list Effect) : list Invoice.t :=
  match shown with
  | [] => []
  | InvoiceCreated inv :: rest => inv :: invoices rest
  | _ :: rest => invoices rest
  end.

(** What a call has handed to the delivery service, oldest first. *)
Fixpoint deliveries (shown : list Effect) : list WhatsApp.Event :=
  match shown with
  | [] => []
  | Delivery event :: rest => event :: deliveries rest
  | _ :: rest => deliveries rest
  end.

(** [cancelBid(bidId)] of the provider. *)
Definition cancelBid (w : World) (state : AppState) (store : Firestore.Store)
    (bidId : string) : Outcome :=
  match user state with
  | None => mkOutcome state store [] (Throw "User not authenticated")
  | Some u =>
      match Firestore.cancelBid store bidId (User.uid u) with
      | (store1, Ok _) =>
          mkOutcome
            (auctionReducer (botEnv w) state
               (UPDATE_BID bidId (mkBidUpdates (Some cancelled))))
            store1 [ToastSuccess "Bid cancelled successfully"] (Ok tt)
      | (store1, Throw message) =>
          mkOutcome state store1 [ToastError message] (Throw message)
      end
  end.

End Context.

(** ** Bid form ([components/auction/BidForm.tsx]) *)

Module BidForm.

(** The text of a form field as [parseFloat]/[parseInt] read it: the
    empty string, a text that parses to [NaN], or a number. *)
Inductive Field (A : Type) :=
  | Blank
  | NotANumber
  | Parsed (v : A).
Arguments Blank {A}.
Arguments NotANumber {A}.
Arguments Parsed {A} v.

(** [isValidBid] together with the reason shown ([validationMessage]). *)
Inductive Validation :=
  | Incomplete
  | InvalidPrice
  | InvalidQuantity
  | QuantityTooLarge
  | BelowMinimum (minBid : Q)
  | AboveMaximum
  | TotalTooLarge
  | Valid (type : BidType) (amount : Q).


(** [highestBid ? highestBid.amount + minIncrement
               : currentPrice + minIncrement] *)
Definition minBidNumber (highestBid : option Bid.t) (currentPrice minIncrement : Q)
    : Double.t :=
  match highestBid with
  | Some h => Double.add (Double.ofQ (Bid.amount h)) (Double.ofQ minIncrement)
  | None => Double.add (Double.ofQ currentPrice) (Double.ofQ minIncrement)
  end.

Definition minBid (highestBid : option Bid.t) (currentPrice minIncrement : Q) : Q :=
  Double.value (minBidNumber highestBid currentPrice minIncrement).

Definition lt (a b : Q) : bool :=
  match (a ?= b)%Q with
  | Lt => true
  | _ => false
  end.

Definition validateBid (bidAmount : Field Q) (quantity : Field Z) (bidType : BidType)
    (minimum : Q) : Validation :=
  match bidAmount, quantity with
  | Blank, _ => Incomplete
  | _, Blank => Incomplete
  | NotANumber, _ => InvalidPrice
  | Parsed amount, q =>
      if negb (lt 0 amount) then InvalidPrice
      else match q with
           | Parsed qty =>
               if qty <=? 0 then InvalidQuantity
               else if 10000 <? qty then QuantityTooLarge
               else if lt amount minimum then BelowMinimum minimum
               else if lt 1000000 amount then AboveMaximum
               else if lt 50000000 (Double.times amount (inject_Z qty)) then TotalTooLarge
               else Valid bidType amount
           | _ => InvalidQuantity
           end
  end.

(** [handleSubmit]: the call of [onPlaceBid] it makes, if any. *)
Definition handleSubmit (bidAmount : Field Q) (quantity : Field Z) (bidType : BidType)
    (minimum : Q) (isActive : bool) : option (Q * BidType * Z) :=
  match validateBid bidAmount quantity bidType minimum, bidAmount, quantity with
  | Valid _ _, Parsed amount, Parsed qty =>
      if isActive then Some (amount, bidType, qty) else None
  | _, _, _ => None
  end.

(** The validation of the form as [App] mounts it:
    [<BidForm highestBid={state.highestBid}
              currentPrice={state.stock.currentPrice} minIncrement={1.0} />]. *)
Definition ofApp (st : Context.AppState) (bidAmount : Field Q) (quantity : Field Z)
    (bidType : BidType) : Validation :=
  validateBid bidAmount quantity bidType
    (minBid (Context.highestBid st) (Stock.currentPrice (Context.stock st)) 1).

End BidForm.

(** ** Countdown ([components/auction/Timer.tsx]) *)

Module Timer.

Definition remaining (nowMs endTime : Z) : Z :=
  Z.max 0 ((endTime - nowMs) / 1000).

Definition isWarning (r : Z) : bool := (r <=? 300) && (60 <? r).

Definition isCritical (r : Z) : bool := r <=? 60.

(** The four displays of [getStatusText]: 'Active Auction', 'Ending
    Soon', 'Final Minute!' and 'Auction Ended'. *)
Inductive State := Normal | Warning | Critical | Ended.

Definition state (isActive : bool) (nowMs endTime : Z) : State :=
  let r := remaining nowMs endTime in
  if negb isActive then Ended
  else if isCritical r then Critical
  else if isWarning r then Warning
  else Normal.

(** [onTimeUp] is called by a tick exactly when [remaining === 0]. *)
Definition firesTimeUp (nowMs endTime : Z) : bool := remaining nowMs endTime =? 0.

(** The timer as [App.tsx] mounts it:
    [<Timer endTime={state.auction.endTime} isActive={isAuctionActive()} />]. *)
Definition ofApp (st : Context.AppState) (nowMs : Z) : option State :=
  match Context.auction st with
  | Some a => Some (state (Context.isAuctionActive st nowMs) nowMs (Auction.endTime a))
  | None => None
  end.

End Timer.

(** ** Sample data *)

Module Sample.

(** Two buy bids at the same price, the later one first in the list. *)
Definition tieLate : Bid.t :=
  Bid.mk "b2" "u2" "Bea" 151%Q None buy 2000 "AAPL" (Some active) None.

Definition tieEarly : Bid.t :=
  Bid.mk "b1" "u1" "Avi" 151%Q None buy 1000 "AAPL" (Some active) None.

(** A store with one active buy bid [b1] of user [u1]. *)
Definition bidDoc : Firestore.BidDoc :=
  Firestore.mkBidDoc "u1" "Avi" 151%Q None buy (Some 1000) "AAPL" (Some active).

Definition store : Firestore.Store :=
  Firestore.mkStore {[ "b1" := bidDoc ]}
                    {[ "u1" := Firestore.mkUserDoc (Some 0%Q) (Some 1) (Some 1) ]}
                    ∅.

(** The store accepts the insert and issues the id [b2]. *)
Definition backend : Firestore.Backend :=
  Firestore.mkBackend 5000 5000 (inl "b2") None.

(** The store after the owner has cancelled [b1]. *)
Definition storeAfterCancel : Firestore.Store :=
  fst (Firestore.cancelBid store "b1" "u1").

(** A signed-in user without a phone number, and an auction that ended a
    second before the clock of [backend] reads 5000. *)
Definition user : User.t := User.mk "u1" "avi@example.com" "Avi" None.

Definition endedAuction : Auction.t :=
  Auction.mk "demo-auction-1" "AAPL" 150%Q 150%Q 0 4000 300 true 0 [].

Definition liveAuction : Auction.t :=
  Auction.mk "demo-auction-1" "AAPL" 150%Q 150%Q 0 300000 300 true 0 [].

Definition stateWith (a : Auction.t) : Context.AppState :=
  Context.set_auction (Context.set_user (Context.initialState false) (Some user)) (Some a).

(** Nothing configured for delivery, no network. *)
Definition service : WhatsApp.Service :=
  WhatsApp.constructor (WhatsApp.mkEnv None None None None None).

Definition offline : WhatsApp.Network :=
  WhatsApp.mkNetwork (inr "Failed to fetch") (inr "Failed to fetch").

Definition world : Context.World :=
  Context.mkWorld backend service offline false.

(** The store refuses the insert for lack of permissions. *)
Definition deniedBackend : Firestore.Backend :=
  Firestore.mkBackend 5000 5000 (inr "Missing or insufficient permissions.") None.

Definition deniedWorld : Context.World :=
  Context.mkWorld deniedBackend service offline false.

(** Relay enabled and provider credentials set. *)
Definition bothConfigured : WhatsApp.Service :=
  WhatsApp.constructor
    (WhatsApp.mkEnv (Some "AC0123456789abcdef") (Some "0123456789abcdef") None None
                    (Some "true")).

Definition invoice : Invoice.t :=
  Invoice.mk "Apple Inc." 10 151%Q (-10)%Q 5000 "Avi" buy "AAPL" (Some "b2").


End Sample.

(** ** Market depth ([components/auction/OrderBook.tsx], the revision
    with ten levels, volumes and the spread) *)

Module OrderBookDepth.

Definition buyBids (bids : list Bid.t) : list Bid.t :=
  Js.slice0 10 (OrderBook.sortedBuy bids).

Definition sellBids (bids : list Bid.t) : list Bid.t :=
  Js.slice0 10 (OrderBook.sortedSell bids).

(** [bid.quantity || 1] *)
Definition bidQuantity (b : Bid.t) : Z := Js.or_num (Bid.quantity b) 1.

(** [l.reduce((sum, bid) => sum + (bid.quantity || 1), 0)] *)
Definition volume (l : list Bid.t) : Z :=
  fold_left (fun sum bid => sum + bidQuantity bid) l 0.

Definition totalBuyVolume (bids : list Bid.t) : Z := volume (buyBids bids).

Definition totalSellVolume (bids : list Bid.t) : Z := volume (sellBids bids).

(** [buyBids.length > 0 && sellBids.length > 0
       ? sellBids[0].amount - buyBids[0].amount : 0] *)
Definition spread (bids : list Bid.t) : Double.t :=
  match buyBids bids, sellBids bids with
  | b :: _, s :: _ => Double.sub (Double.ofQ (Bid.amount s)) (Double.ofQ (Bid.amount b))
  | _, _ => S754_zero false
  end.

End OrderBookDepth.

(** ** Leaderboard statistics ([components/auction/TopBids.tsx]) *)

Module TopBidsStats.

Definition totalVolume (bids : list Bid.t) : Z :=
  OrderBookDepth.volume (TopBids.topBids bids).

(** [new Set(topBids.map(bid => bid.userId)).size] *)
Definition uniqueBidders (bids : list Bid.t) : nat :=
  size (list_to_set (List.map Bid.userId (TopBids.topBids bids)) : gset string).

End TopBidsStats.

(** ** Age of a bid ([getTimeAgo] of the bid lists) *)

Module TimeAgo.

Inductive Unit := Seconds | Minutes | Hours | Days.

Definition suffix (u : Unit) : string :=
  match u with
  | Seconds => "s ago"
  | Minutes => "m ago"
  | Hours => "h ago"
  | Days => "d ago"
  end.

(** Milliseconds in one unit. *)
Definition millis (u : Unit) : Z :=
  match u with
  | Seconds => 1000
  | Minutes => 60000
  | Hours => 3600000
  | Days => 86400000
  end.

(** The number and the unit that [getTimeAgo] of [OrderBook.tsx] and
    [TopBids.tsx] prints. *)
Definition parts (nowMs timestamp : Z) : Z * Unit :=
  let diff := nowMs - timestamp in
  let seconds := diff / 1000 in
  let minutes := seconds / 60 in
  let hours := minutes / 60 in
  if 0 <? hours then (hours, Hours)
  else if 0 <? minutes then (minutes, Minutes)
  else (seconds, Seconds).

(** The same with days, as [BidHistory.tsx] has it. *)
Definition partsWithDays (nowMs timestamp : Z) : Z * Unit :=
  let diff := nowMs - timestamp in
  let seconds := diff / 1000 in
  let minutes := seconds / 60 in
  let hours := minutes / 60 in
  let days := hours / 24 in
  if 0 <? days then (days, Days)
  else if 0 <? hours then (hours, Hours)
  else if 0 <? minutes then (minutes, Minutes)
  else (seconds, Seconds).

Definition render (p : Z * Unit) : string := pretty (fst p) +:+ suffix (snd p).

Definition getTimeAgo (nowMs timestamp : Z) : string := render (parts nowMs timestamp).

End TimeAgo.

(** ** Clock face ([components/auction/Timer.tsx],
    [components/auction/AuctionCard.tsx]) *)

Module TimerDisplay.

(** [s.padStart(2, '0')] *)
Definition padStart2 (s : string) : string :=
  match s with
  | EmptyString => "00"
  | String c EmptyString => String "0" s
  | _ => s
  end.

(** The three numbers of [formatTime]; [%] is the remainder of
    JavaScript, which takes the sign of the dividend. *)
Definition timeParts (seconds : Z) : Z * Z * Z :=
  (seconds / 3600, Z.rem seconds 3600 / 60, Z.rem seconds 60).

Record Time := mkTime { hours : string; minutes : string; secs : string }.

Definition formatTime (seconds : Z) : Time :=
  let '(h, m, s) := timeParts seconds in
  mkTime (padStart2 (pretty h)) (padStart2 (pretty m)) (padStart2 (pretty s)).

(** [formatTime] of the auction card: minutes and seconds. *)
Definition cardTimeParts (seconds : Z) : Z * Z := (seconds / 60, Z.rem seconds 60).

(** The colour of the card's status badge ([getStatusColor] of
    [AuctionCard.tsx]). *)
Inductive Badge := Gray | Red | Yellow | Green.

Definition cardStatus (isActive : bool) (timeRemaining : Z) : Badge :=
  if negb isActive then Gray
  else if timeRemaining <=? 60 then Red
  else if timeRemaining <=? 300 then Yellow
  else Green.

(** The colour of the timer ([getStatusColor] of [Timer.tsx]) for each of
    its states. *)
Definition timerColor (s : Timer.State) : Badge :=
  match s with
  | Timer.Ended => Gray
  | Timer.Critical => Red
  | Timer.Warning => Yellow
  | Timer.Normal => Green
  end.

(** How far the countdown has advanced: the states in the order in which
    a running timer passes through them. *)
Definition urgency (s : Timer.State) : nat :=
  match s with
  | Timer.Normal => 0
  | Timer.Warning => 1
  | Timer.Critical => 2
  | Timer.Ended => 3
  end.

End TimerDisplay.

(** ** Starting and ending an auction ([services/firebase.ts],
    [context/AuctionContext.tsx]) *)

Module AuctionAdmin.

(** [createAuction(stock, duration = 300)]: [setDoc] replaces the document
    [auctions/{symbol}]; [writeError] is the message with which the store
    refuses the write, if it does. *)
Definition createAuction (nowMs : Z) (writeError : option string) (s : Firestore.Store)
    (stock : Stock.t) (durationArg : option Z) : Firestore.Store * Result Auction.t :=
  let duration := default 300 durationArg in
  let startTime := nowMs in
  let endTime := startTime + duration * 1000 in
  match writeError with
  | Some msg => (s, Throw ("Failed to create auction: " +:+ msg))
  | None =>
      (Firestore.mkStore (Firestore.bids s) (Firestore.users s)
         (<[Stock.symbol stock :=
              Firestore.mkAuctionDoc (Some 0) (Stock.currentPrice stock) None]>
            (Firestore.auctions s)),
       Ok (Auction.mk (Stock.symbol stock) (Stock.symbol stock) (Stock.currentPrice stock)
                      (Stock.currentPrice stock) startTime endTime duration true 0 []))
  end.

(** [startAuction(stock, duration = 300)] of the provider. *)
Definition startAuction (w : Context.World) (writeError : option string)
    (state : Context.AppState) (store : Firestore.Store) (stock : Stock.t)
    (durationArg : option Z) : Context.Outcome :=
  match createAuction (Firestore.now (Context.backend w)) writeError store stock
          (Some (default 300 durationArg)) with
  | (store1, Ok auction) =>
      Context.mkOutcome
        (Context.dispatchAll (Context.botEnv w) state
           [Context.SET_AUCTION (Some auction); Context.SET_STOCK stock])
        store1 [Context.ToastSuccess "Auction started!"] (Ok tt)
  | (store1, Throw message) =>
      Context.mkOutcome state store1 [Context.ToastError message] (Throw message)
  end.

(** [endAuction()] of the provider; [endError] is the message with which
    the store refuses the update of [auctions/{id}], if it does. *)
Definition endAuction (w : Context.World) (endError : option string)
    (state : Context.AppState) (store : Firestore.Store) : Context.Outcome :=
  match Context.auction state with
  | None => Context.mkOutcome state store [] (Ok tt)
  | Some a =>
      match endError with
      | None =>
          Context.mkOutcome
            (Context.auctionReducer (Context.botEnv w) state
               (Context.SET_AUCTION (Some (Auction.with_isActive a false))))
            store [Context.ToastSuccess "Auction ended!"] (Ok tt)
      | Some message =>
          Context.mkOutcome state store [Context.ToastError message] (Throw message)
      end
  end.

(** The auction that the provider installs by itself once a user is
    signed in ([initializeAuction]). *)
Definition demoAuction (nowMs : Z) : Auction.t :=
  Auction.mk ("demo-auction-" +:+ pretty nowMs) "AAPL" 150%Q 150%Q nowMs
             (nowMs + 300 * 1000) 300 true 0 [].

Definition defaultStock : Stock.t := Stock.mk "AAPL" "Apple Inc." 150%Q.

Definition initializeAuction (botEnv : bool) (state : Context.AppState) (nowMs : Z)
    : Context.AppState :=
  if Context.firebaseConnected state && Context.authInitialized state
     && match Context.user state with Some _ => true | None => false end
     && match Context.auction state with Some _ => false | None => true end
  then Context.dispatchAll botEnv state
         [Context.SET_AUCTION (Some (demoAuction nowMs)); Context.SET_STOCK defaultStock]
  else state.

End AuctionAdmin.

(** ** The relay server ([whatsapp-server.js]) *)

Module Relay.

(** The two fields of the JSON body that [POST /api/send-whatsapp] reads,
    strings when present ([None]: absent). *)
Record Request := mkRequest {
  to : option string;
  body : option string
}.

(** The error with which [client.messages.create] rejects. *)
Record TwilioError := mkTwilioError {
  code : option Z;
  message : string
}.

(** The response: HTTP status and the fields of its JSON body; an
    [errorCode] of [None] in an error response stands for ['UNKNOWN']. *)
Record Reply := mkReply {
  status : Z;
  success : bool;
  messageId : option string;
  error : option string;
  errorCode : option Z;
  sentTo : option string
}.

(** [to.startsWith('whatsapp:')] *)
Definition startsWith (s pre : string) : bool := String.prefix pre s.

Definition formatTo (to : string) : string :=
  if startsWith to "whatsapp:" then to
  else "whatsapp:+" +:+ WhatsApp.digitsOnly to.

Definition errorMessage (e : TwilioError) : string :=
  match code e with
  | Some c =>
      if c =? 21211 then "Invalid phone number format"
      else if c =? 21408 then "WhatsApp not enabled for this number"
      else if c =? 20003 then "Authentication failed - check credentials"
      else message e
  | None => message e
  end.

(** The handler of [POST /api/send-whatsapp].  [provider to body] is what
    [client.messages.create] answers; the first component of the result
    lists the destinations of the calls made to it. *)
Definition sendWhatsapp (provider : string -> string -> string + TwilioError)
    (req : Request) : list string * Reply :=
  if negb (Js.truthy_str (to req)) || negb (Js.truthy_str (body req))
  then ([], mkReply 400 false None (Some "Missing required fields: to, body") None None)
  else
    let formattedTo := formatTo (default "" (to req)) in
    match provider formattedTo (default "" (body req)) with
    | inl sid => ([formattedTo], mkReply 200 true (Some sid) None None (Some formattedTo))
    | inr e =>
        ([formattedTo],
         mkReply 500 false None (Some (errorMessage e))
                 (match code e with
                  | Some c => if c =? 0 then None else Some c
                  | None => None
                  end)
                 None)
    end.

End Relay.

(** ** Sequences of store calls *)

Module Replay.

(** A sequence of [addBid] calls, oldest first, each with what the
    environment decided for it. *)
Definition addBids (s : Firestore.Store) (calls : list (Firestore.Backend * Bid.t))
    : Firestore.Store :=
  fold_left (fun st call => fst (Firestore.addBid (fst call) st (snd call))) calls s.

(** A sequence of [updateUserProfitLoss] calls for one user. *)
Definition updateProfits (be : Firestore.Backend) (s : Firestore.Store) (uid : string)
    (deltas : list Q) : Firestore.Store :=
  fold_left (fun st delta => fst (Firestore.updateUserProfitLoss be st uid delta)) deltas s.

Definition total (deltas : list Q) : Q := fold_right Qplus 0%Q deltas.

(** No sum on the way is rounded: adding the next update to the exact
    sum so far gives that sum. *)
Fixpoint exactSums (start : Q) (deltas : list Q) : bool :=
  match deltas with
  | [] => true
  | d :: rest =>
      Qeq_bool (Double.plus start d) (start + d) && exactSums (start + d)%Q rest
  end.

End Replay.

(** ** More sample data *)

Module Scenario.

Definition buyLow : Bid.t :=
  Bid.mk "b1" "u1" "Avi" 151%Q (Some 10) buy 1000 "AAPL" (Some active) None.

Definition buyHigh : Bid.t :=
  Bid.mk "b2" "u2" "Bea" 153%Q (Some 5) buy 2000 "AAPL" None None.

Definition sellLow : Bid.t :=
  Bid.mk "b3" "u3" "Cy" 155%Q (Some 2) sell 3000 "AAPL" (Some active) None.

Definition sellHigh : Bid.t :=
  Bid.mk "b4" "u1" "Avi" 158%Q None sell 4000 "AAPL" (Some active) None.

Definition withdrawn : Bid.t :=
  Bid.mk "b5" "u2" "Bea" 160%Q (Some 1) buy 5000 "AAPL" (Some cancelled) None.

Definition book : list Bid.t := [buyLow; sellHigh; withdrawn; buyHigh; sellLow].

(** An ask at 1560.46 and a bid at 154.89. *)
Definition askHigh : Bid.t :=
  Bid.mk "b6" "u3" "Cy" (Double.number (156046 # 100)) (Some 1) sell 6000 "AAPL"
         (Some active) None.

Definition bidLow : Bid.t :=
  Bid.mk "b7" "u2" "Bea" (Double.number (15489 # 100)) (Some 1) buy 7000 "AAPL"
         (Some active) None.

(** The signed-in sample user looking at two buy bids, the first his own
    and stored as [b1] in the sample store. *)
Definition stateWithBids : Context.AppState :=
  Context.set_bids (Sample.stateWith Sample.liveAuction) [buyHigh; buyLow].

(** Two accepted bids for the sample symbol, the second one lower. *)
Definition calls : list (Firestore.Backend * Bid.t) :=
  [(Firestore.mkBackend 6000 6000 (inl "c1") None, buyHigh);
   (Firestore.mkBackend 7000 7000 (inl "c2") None, buyLow)].

(** The sample store right after an auction for the default stock has been
    created at time 5000. *)
Definition storeWithAuction : Firestore.Store :=
  fst (AuctionAdmin.createAuction 5000 None Sample.store AuctionAdmin.defaultStock None).

(** A provider that accepts every message. *)
Definition accepting (to body : string) : string + Relay.TwilioError := inl "SM1".

(** Connected and signed in, before any auction exists. *)
Definition signedIn : Context.AppState :=
  Context.dispatchAll false (Context.initialState false)
    [Context.SET_FIREBASE_CONNECTED true; Context.SET_AUTH_INITIALIZED true;
     Context.SET_USER (Some Sample.user)].

(** An auction of ten minutes that started at time 0. *)
Definition longAuction : Auction.t :=
  Auction.mk "demo-auction-2" "AAPL" 150%Q 150%Q 0 600000 600 true 0 [].

(** A store in which the profile of [u1] stands at 0.1. *)
Definition storeAtTenth : Firestore.Store :=
  Firestore.mkStore ∅
    {[ "u1" := Firestore.mkUserDoc (Some (Double.number (1 # 10))) (Some 1) (Some 0) ]} ∅.

(** The store refuses the insert because it cannot be reached. *)
Definition unreachableWorld : Context.World :=
  Context.mkWorld (Firestore.mkBackend 5000 5000 (inr "The service is unavailable.") None)
                  Sample.service Sample.offline false.

End Scenario.

(** * Properties *)

(** ** Binary64 arithmetic *)

(** The operations give the numbers that any JavaScript engine prints:
    [0.1] is 7205759403792794 / 2^56, [0.1 + 0.2] is 0.30000000000000004,
    [2^53 + 1] is [2^53], the largest number is finite and twice it is
    not, and the smallest one is 2^-1074, half of which is 0. *)
Lemma binary64_samples :
  Double.ofQ (1 # 10) = S754_finite false 7205759403792794 (-56)
  /\ Double.plus (Double.number (1 # 10)) (Double.number (2 # 10))
     = Double.number (30000000000000004 # 100000000000000000)
  /\ ~ (Double.plus (Double.number (1 # 10)) (Double.number (2 # 10))
        == Double.number (3 # 10))%Q
  /\ Double.number (inject_Z (2 ^ 53 + 1)) = inject_Z (2 ^ 53)
  /\ Double.isFinite (Double.ofQ (inject_Z (2 ^ 1024 - 2 ^ 971))) = true
  /\ Double.isFinite
       (Double.add (Double.ofQ (inject_Z (2 ^ 1024 - 2 ^ 971)))
                   (Double.ofQ (inject_Z (2 ^ 1024 - 2 ^ 971)))) = false
  /\ Double.ofQ (1 # Pos.pow 2 1074) = S754_finite false 1 (-1074)
  /\ Double.ofQ (1 # Pos.pow 2 1075) = S754_zero false.
Proof.
  repeat split; try (vm_compute; reflexivity). vm_compute. discriminate.
Qed.

(** ** Facts about lists and the stable sort *)

Lemma StronglySorted_impl {A} (R S : A -> A -> Prop) (l : list A) :
  (forall x y, R x y -> S x y) -> StronglySorted R l -> StronglySorted S l.
Proof.
  intros HRS H. induction H as [|x l Hl IH Hx]; constructor; auto.
  rewrite List.Forall_forall in *. intros y Hy. apply HRS, Hx, Hy.
Qed.

Lemma Forall_slice0 {A} (P : A -> Prop) (n : nat) (l : list A) :
  Forall P l -> Forall P (Js.slice0 n l).
Proof.
  intros H. revert n. unfold Js.slice0.
  induction H as [|x l Hx Hl IH]; intros [|n]; simpl; constructor; auto.
Qed.

Lemma StronglySorted_slice0 {A} (R : A -> A -> Prop) (n : nat) (l : list A) :
  StronglySorted R l -> StronglySorted R (Js.slice0 n l).
Proof.
  intros H. revert n. unfold Js.slice0.
  induction H as [|x l Hl IH Hx]; intros [|n]; simpl; constructor; auto.
  apply (Forall_slice0 _ n), Hx.
Qed.

Lemma filter_slice0_prefix {A} (p : A -> bool) (n : nat) (l : list A) :
  exists rest, List.filter p l = List.filter p (Js.slice0 n l) ++ rest.
Proof.
  exists (List.filter p (skipn n l)). unfold Js.slice0.
  rewrite <- List.filter_app, firstn_skipn. reflexivity.
Qed.

Section SortFacts.
Context {A : Type}.
Variable cmp : A -> A -> Q.

Local Abbreviation keeps := (Js.keeps cmp).

Hypothesis total : forall x y, Js.after cmp x y = true -> keeps y x.
Hypothesis trans : forall x y z, keeps x y -> keeps y z -> keeps x z.

Lemma insert_perm (x : A) (l : list A) : Permutation (Js.insert cmp x l) (x :: l).
Proof using Type.
  induction l as [|y l IH]; simpl; [reflexivity|].
  destruct (Js.after cmp x y); [|reflexivity].
  rewrite IH. apply perm_swap.
Qed.

Lemma sort_perm (l : list A) : Permutation (Js.sort cmp l) l.
Proof using Type.
  induction l as [|x l IH]; simpl; [reflexivity|].
  unfold Js.sort in *. simpl. rewrite insert_perm. constructor. exact IH.
Qed.

Lemma insert_sorted (x : A) (l : list A) :
  StronglySorted keeps l -> StronglySorted keeps (Js.insert cmp x l).
Proof using total trans.
  intros H. induction H as [|y l Hl IH Hy]; simpl.
  - repeat constructor.
  - destruct (Js.after cmp x y) eqn:E.
    + constructor; [exact IH|].
      rewrite List.Forall_forall in *. intros z Hz.
      apply (Permutation_in _ (insert_perm x l)) in Hz.
      destruct Hz as [<-|Hz]; [apply total; exact E|apply Hy; exact Hz].
    + constructor; [constructor; assumption|].
      constructor; [exact E|].
      rewrite List.Forall_forall in *. intros z Hz.
      apply trans with y; [exact E|apply Hy; exact Hz].
Qed.

Lemma sort_sorted (l : list A) : StronglySorted keeps (Js.sort cmp l).
Proof using total trans.
  induction l as [|x l IH]; simpl; [constructor|].
  apply insert_sorted. exact IH.
Qed.

(** Stability: the elements of one class of equal keys come out in the
    order they went in. *)
Lemma insert_filter (p : A -> bool) (x : A) (l : list A) :
  (forall y, p x = true -> p y = true -> keeps x y) ->
  List.filter p (Js.insert cmp x l) = List.filter p (x :: l).
Proof using Type.
  intros Hp. induction l as [|y l IH]; simpl; [reflexivity|].
  destruct (Js.after cmp x y) eqn:E; [|reflexivity].
  simpl in *. rewrite IH.
  destruct (p x) eqn:Ex; [|reflexivity].
  destruct (p y) eqn:Ey; [|reflexivity].
  specialize (Hp y eq_refl Ey). unfold Js.keeps in Hp. congruence.
Qed.

Lemma sort_stable (p : A -> bool) (l : list A) :
  (forall x y, p x = true -> p y = true -> keeps x y) ->
  List.filter p (Js.sort cmp l) = List.filter p l.
Proof using Type.
  intros Hp. induction l as [|x l IH]; simpl; [reflexivity|].
  unfold Js.sort in *. simpl fold_right.
  rewrite insert_filter by (intros y; apply Hp).
  simpl. rewrite IH. reflexivity.
Qed.

End SortFacts.

(** ** The comparators *)

Lemma after_true {A} (cmp : A -> A -> Q) (x y : A) :
  Js.after cmp x y = true <-> (0 < cmp x y)%Q.
Proof.
  unfold Js.after. rewrite Qgt_alt.
  destruct (cmp x y ?= 0)%Q; split; congruence.
Qed.

Lemma keeps_le {A} (cmp : A -> A -> Q) (x y : A) :
  Js.keeps cmp x y <-> (cmp x y <= 0)%Q.
Proof.
  unfold Js.keeps. rewrite <- not_true_iff_false, after_true. split.
  - apply Qnot_lt_le.
  - apply Qle_not_lt.
Qed.

Lemma inject_Z_sub_le (a b : Z) : (inject_Z (a - b) <= 0)%Q <-> a <= b.
Proof.
  unfold Qle. simpl. lia.
Qed.

Lemma byAmountDesc_keeps (a b : Bid.t) :
  Js.keeps OrderBook.byAmountDesc a b <-> (Bid.amount b <= Bid.amount a)%Q.
Proof.
  rewrite keeps_le. unfold OrderBook.byAmountDesc. split; intros; lra.
Qed.

Lemma byAmountAsc_keeps (a b : Bid.t) :
  Js.keeps OrderBook.byAmountAsc a b <-> (Bid.amount a <= Bid.amount b)%Q.
Proof.
  rewrite keeps_le. unfold OrderBook.byAmountAsc. split; intros; lra.
Qed.

Lemma byTimestampDesc_keeps (a b : Bid.t) :
  Js.keeps Context.byTimestampDesc a b <-> Bid.timestamp b <= Bid.timestamp a.
Proof.
  rewrite keeps_le. unfold Context.byTimestampDesc. apply inject_Z_sub_le.
Qed.

Lemma compare_keeps (a b : Bid.t) :
  Js.keeps TopBids.compare a b <-> TopBids.priceTimePriority a b.
Proof.
  rewrite keeps_le. unfold TopBids.compare, TopBids.priceTimePriority.
  destruct (Qeq_bool (Bid.amount b) (Bid.amount a)) eqn:E; simpl.
  - apply Qeq_bool_iff in E. rewrite inject_Z_sub_le. split.
    + intros H. right. split; [symmetry; exact E|exact H].
    + intros [H|[_ H]]; [lra|exact H].
  - apply Qeq_bool_neq in E. split.
    + intros H. left. apply Qle_lteq in H. destruct H as [H|H]; [lra|].
      exfalso. apply E. lra.
    + intros [H|[H _]]; [lra|]. exfalso. apply E. symmetry. exact H.
Qed.

Lemma sorted_by {A} (cmp : A -> A -> Q) (R : A -> A -> Prop) (l : list A) :
  (forall x y, Js.keeps cmp x y <-> R x y) ->
  (forall x y, R x y \/ R y x) ->
  (forall x y z, R x y -> R y z -> R x z) ->
  StronglySorted R (Js.sort cmp l).
Proof.
  intros HR Htot Htrans.
  apply StronglySorted_impl with (R := Js.keeps cmp); [intros x y; apply HR|].
  apply sort_sorted.
  - intros x y E. apply HR. destruct (Htot y x) as [H|H]; [exact H|].
    apply HR in H. unfold Js.keeps in H. congruence.
  - intros x y z Hxy Hyz. apply HR. apply Htrans with y; apply HR; assumption.
Qed.

Lemma priceTimePriority_total (a b : Bid.t) :
  TopBids.priceTimePriority a b \/ TopBids.priceTimePriority b a.
Proof.
  unfold TopBids.priceTimePriority.
  destruct (Q_dec (Bid.amount a) (Bid.amount b)) as [[H|H]|H].
  - right. left. exact H.
  - left. left. exact H.
  - destruct (Z_le_gt_dec (Bid.timestamp a) (Bid.timestamp b)).
    + left. right. split; [exact H|assumption].
    + right. right. split; [symmetry; exact H|lia].
Qed.

Lemma priceTimePriority_trans (a b c : Bid.t) :
  TopBids.priceTimePriority a b -> TopBids.priceTimePriority b c -> TopBids.priceTimePriority a c.
Proof.
  unfold TopBids.priceTimePriority. intros [H1|[H1 T1]] [H2|[H2 T2]].
  - left. lra.
  - left. lra.
  - left. lra.
  - right. split; [lra|lia].
Qed.

(** ** Rankings *)

Lemma sortedBuy_sorted (bids : list Bid.t) :
  StronglySorted (fun a b => (Bid.amount b <= Bid.amount a)%Q) (OrderBook.sortedBuy bids).
Proof.
  apply sorted_by.
  - apply byAmountDesc_keeps.
  - intros x y. destruct (Qlt_le_dec (Bid.amount x) (Bid.amount y)); [right|left]; lra.
  - intros x y z H1 H2. lra.
Qed.

Lemma sortedSell_sorted (bids : list Bid.t) :
  StronglySorted (fun a b => (Bid.amount a <= Bid.amount b)%Q) (OrderBook.sortedSell bids).
Proof.
  apply sorted_by.
  - apply byAmountAsc_keeps.
  - intros x y. destruct (Qlt_le_dec (Bid.amount x) (Bid.amount y)); [left|right]; lra.
  - intros x y z H1 H2. lra.
Qed.

Lemma hasAmount_keeps_desc (price : Q) (x y : Bid.t) :
  OrderBook.hasAmount price x = true -> OrderBook.hasAmount price y = true ->
  Js.keeps OrderBook.byAmountDesc x y.
Proof.
  unfold OrderBook.hasAmount. intros Hx Hy.
  apply Qeq_bool_iff in Hx, Hy. apply byAmountDesc_keeps. lra.
Qed.

Lemma hasAmount_keeps_asc (price : Q) (x y : Bid.t) :
  OrderBook.hasAmount price x = true -> OrderBook.hasAmount price y = true ->
  Js.keeps OrderBook.byAmountAsc x y.
Proof.
  unfold OrderBook.hasAmount. intros Hx Hy.
  apply Qeq_bool_iff in Hx, Hy. apply byAmountAsc_keeps. lra.
Qed.

Lemma topBids_sorted (bids : list Bid.t) :
  StronglySorted TopBids.priceTimePriority (TopBids.topBids bids).
Proof.
  apply StronglySorted_slice0, sorted_by.
  - apply compare_keeps.
  - apply priceTimePriority_total.
  - apply priceTimePriority_trans.
Qed.

(** C1 (as amended).  For every list of bids the buy side of the order
    book is sorted by amount, highest first, and the sell side by amount,
    lowest first.  The order book applies no time priority: on either side
    the bids quoted at one price follow each other in the order in which
    they stand in the input list.  The leaderboard is the ranking that
    breaks ties by time: it is sorted by amount, highest first, and among
    equal amounts the bid with the earlier timestamp comes first. *)
Theorem order_book_ranking (bids : list Bid.t) :
  StronglySorted (fun a b => (Bid.amount b <= Bid.amount a)%Q) (OrderBook.buyBids bids)
  /\ StronglySorted (fun a b => (Bid.amount a <= Bid.amount b)%Q) (OrderBook.sellBids bids)
  /\ (forall price,
        List.filter (OrderBook.hasAmount price) (OrderBook.sortedBuy bids)
        = List.filter (OrderBook.hasAmount price)
            (List.filter (OrderBook.isType buy) (OrderBook.activeBids bids)))
  /\ (forall price,
        List.filter (OrderBook.hasAmount price) (OrderBook.sortedSell bids)
        = List.filter (OrderBook.hasAmount price)
            (List.filter (OrderBook.isType sell) (OrderBook.activeBids bids)))
  /\ (forall price,
        exists rest,
          List.filter (OrderBook.hasAmount price)
            (List.filter (OrderBook.isType buy) (OrderBook.activeBids bids))
          = List.filter (OrderBook.hasAmount price) (OrderBook.buyBids bids) ++ rest)
  /\ (forall price,
        exists rest,
          List.filter (OrderBook.hasAmount price)
            (List.filter (OrderBook.isType sell) (OrderBook.activeBids bids))
          = List.filter (OrderBook.hasAmount price) (OrderBook.sellBids bids) ++ rest)
  /\ StronglySorted TopBids.priceTimePriority (TopBids.topBids bids).
Proof.
  assert (Hbuy : forall price,
             List.filter (OrderBook.hasAmount price) (OrderBook.sortedBuy bids)
             = List.filter (OrderBook.hasAmount price)
                 (List.filter (OrderBook.isType buy) (OrderBook.activeBids bids))).
  { intros price. apply sort_stable. apply hasAmount_keeps_desc. }
  assert (Hsell : forall price,
             List.filter (OrderBook.hasAmount price) (OrderBook.sortedSell bids)
             = List.filter (OrderBook.hasAmount price)
                 (List.filter (OrderBook.isType sell) (OrderBook.activeBids bids))).
  { intros price. apply sort_stable. apply hasAmount_keeps_asc. }
  repeat split.
  - apply StronglySorted_slice0, sortedBuy_sorted.
  - apply StronglySorted_slice0, sortedSell_sorted.
  - exact Hbuy.
  - exact Hsell.
  - intros price. rewrite <- Hbuy. apply filter_slice0_prefix.
  - intros price. rewrite <- Hsell. apply filter_slice0_prefix.
  - apply topBids_sorted.
Qed.

(** C1 (as stated) fails: with equal amounts the order book keeps the
    input order, so the bid with the later timestamp is ranked first. *)
Lemma order_book_ties_not_by_time :
  OrderBook.buyBids [Sample.tieLate; Sample.tieEarly] = [Sample.tieLate; Sample.tieEarly]
  /\ (Bid.amount Sample.tieLate == Bid.amount Sample.tieEarly)%Q
  /\ Bid.timestamp Sample.tieEarly < Bid.timestamp Sample.tieLate
  /\ ~ StronglySorted TopBids.priceTimePriority (OrderBook.buyBids [Sample.tieLate; Sample.tieEarly]).
Proof.
  split; [reflexivity|]. split; [reflexivity|]. split; [reflexivity|].
  intros H. change (OrderBook.buyBids [Sample.tieLate; Sample.tieEarly]) with [Sample.tieLate; Sample.tieEarly] in H.
  inversion H as [|? ? _ Hall]; subst. inversion Hall as [|? ? Hp _]; subst.
  unfold TopBids.priceTimePriority, Sample.tieLate, Sample.tieEarly in Hp; simpl in Hp.
  destruct Hp as [Hp|[_ Hp]]; [|lia].
  revert Hp. unfold Qlt. simpl. lia.
Qed.

(** C10.  After every [ADD_BID] the list of bids of the resulting state is
    sorted by timestamp, latest first (non-increasing), whatever the
    timestamp of the added bid and the order of the previous list. *)
Theorem add_bid_sorts_by_timestamp (botEnv : bool) (state : Context.AppState) (bid : Bid.t) :
  StronglySorted (fun a b => Bid.timestamp b <= Bid.timestamp a)
    (Context.bids (Context.auctionReducer botEnv state (Context.ADD_BID bid))).
Proof.
  cbn [Context.auctionReducer Context.set_bids Context.bids]. apply sorted_by.
  - apply byTimestampDesc_keeps.
  - intros x y. lia.
  - intros x y z. lia.
Qed.

Lemma add_bid_keeps_all (botEnv : bool) (state : Context.AppState) (bid : Bid.t) :
  Permutation (Context.bids (Context.auctionReducer botEnv state (Context.ADD_BID bid)))
              (bid :: Context.bids state).
Proof.
  cbn [Context.auctionReducer Context.set_bids Context.bids]. apply sort_perm.
Qed.

(** ** Cancellation *)

Lemma cancelBid_inv (s : Firestore.Store) (bidId requester : string) :
  (exists d, Firestore.bids s !! bidId = Some d
             /\ Firestore.userId d = requester
             /\ Firestore.status d = Some active
             /\ Firestore.cancelBid s bidId requester
                = (Firestore.updateUserStats_activeBids
                     (Firestore.mkStore
                        (<[bidId := Firestore.set_status d cancelled]> (Firestore.bids s))
                        (Firestore.users s) (Firestore.auctions s))
                     requester (-1), Ok tt))
  \/ (exists msg, Firestore.cancelBid s bidId requester = (s, Throw msg)
                  /\ ~ (exists d, Firestore.bids s !! bidId = Some d
                                  /\ Firestore.userId d = requester
                                  /\ Firestore.status d = Some active)).
Proof.
  unfold Firestore.cancelBid.
  destruct (Firestore.bids s !! bidId) as [d|] eqn:Hd.
  - destruct (String.eqb (Firestore.userId d) requester) eqn:Ho; simpl.
    + apply String.eqb_eq in Ho.
      destruct (Firestore.status d) as [[| |]|] eqn:Hs.
      * left. exists d. auto.
      * right. eexists. split; [reflexivity|]. intros (d' & H1 & _ & H3). congruence.
      * right. eexists. split; [reflexivity|]. intros (d' & H1 & _ & H3). congruence.
      * right. eexists. split; [reflexivity|]. intros (d' & H1 & _ & H3). congruence.
    + apply String.eqb_neq in Ho.
      right. eexists. split; [reflexivity|]. intros (d' & H1 & H2 & _). congruence.
  - right. eexists. split; [reflexivity|]. intros (d' & H1 & _). congruence.
Qed.

Lemma updateUserStats_bids (s : Firestore.Store) (uid : string) (v : Z) :
  Firestore.bids (Firestore.updateUserStats_activeBids s uid v) = Firestore.bids s.
Proof.
  unfold Firestore.updateUserStats_activeBids.
  destruct (Firestore.users s !! uid); reflexivity.
Qed.

Lemma updateUserStats_counter (s : Firestore.Store) (uid : string) (v n : Z) :
  Firestore.activeBidsCounter s uid = Some n ->
  Firestore.activeBidsCounter (Firestore.updateUserStats_activeBids s uid v) uid = Some (n + v).
Proof.
  unfold Firestore.activeBidsCounter, Firestore.updateUserStats_activeBids.
  destruct (Firestore.users s !! uid) as [u|] eqn:Hu; [|discriminate].
  intros [= <-]. simpl. rewrite lookup_insert_eq. reflexivity.
Qed.

(** C5.  Cancellation succeeds only when the bid exists, the requester is
    its owner and its status is 'active'; a request by anyone but the
    owner is rejected whatever the status, and a rejected request changes
    nothing.  On success the status of the bid is 'cancelled' and the
    owner's active-bid counter is one less than before. *)
Theorem cancelBid_owner_and_active (s : Firestore.Store) (bidId requester : string) :
  (succeeded (snd (Firestore.cancelBid s bidId requester)) = true ->
   exists d, Firestore.bids s !! bidId = Some d
             /\ Firestore.userId d = requester
             /\ Firestore.status d = Some active)
  /\ (forall d, Firestore.bids s !! bidId = Some d ->
                Firestore.userId d <> requester ->
                Firestore.cancelBid s bidId requester
                = (s, Throw "You can only cancel your own bids"))
  /\ (succeeded (snd (Firestore.cancelBid s bidId requester)) = false ->
      fst (Firestore.cancelBid s bidId requester) = s)
  /\ (succeeded (snd (Firestore.cancelBid s bidId requester)) = true ->
      (exists d, Firestore.bids (fst (Firestore.cancelBid s bidId requester)) !! bidId = Some d
                 /\ Firestore.status d = Some cancelled
                 /\ Firestore.userId d = requester)
      /\ (forall n, Firestore.activeBidsCounter s requester = Some n ->
                    Firestore.activeBidsCounter (fst (Firestore.cancelBid s bidId requester)) requester
                    = Some (n - 1))).
Proof.
  split; [|split; [|split]].
  - destruct (cancelBid_inv s bidId requester) as [(d & H1 & H2 & H3 & _)|(msg & E & _)].
    + intros _. exists d. auto.
    + rewrite E. discriminate.
  - intros d Hd Ho. unfold Firestore.cancelBid. rewrite Hd.
    apply String.eqb_neq in Ho. rewrite Ho. reflexivity.
  - destruct (cancelBid_inv s bidId requester) as [(d & _ & _ & _ & E)|(msg & E & _)];
      rewrite E; [discriminate|reflexivity].
  - destruct (cancelBid_inv s bidId requester) as [(d & H1 & H2 & H3 & E)|(msg & E & _)];
      rewrite E; [|discriminate].
    intros _. cbn [fst]. split.
    + exists (Firestore.set_status d cancelled).
      rewrite updateUserStats_bids. cbn [Firestore.bids].
      rewrite lookup_insert_eq. auto.
    + intros n Hn. apply (updateUserStats_counter _ _ (-1)). exact Hn.
Qed.

(** The owner cancels the active bid of the sample store, and a stranger is
    turned away. *)
Lemma cancelBid_owner_and_active_witness :
  succeeded (snd (Firestore.cancelBid Sample.store "b1" "u1")) = true
  /\ Firestore.activeBidsCounter Sample.store "u1" = Some 1
  /\ Firestore.activeBidsCounter (fst (Firestore.cancelBid Sample.store "b1" "u1")) "u1" = Some 0
  /\ Firestore.cancelBid Sample.store "b1" "u2"
     = (Sample.store, Throw "You can only cancel your own bids").
Proof.
  destruct (cancelBid_owner_and_active Sample.store "b1" "u1") as (_ & _ & _ & H4).
  destruct (cancelBid_owner_and_active Sample.store "b1" "u2") as (_ & H2 & _ & _).
  assert (Hs : succeeded (snd (Firestore.cancelBid Sample.store "b1" "u1")) = true)
    by (vm_compute; reflexivity).
  assert (Hc : Firestore.activeBidsCounter Sample.store "u1" = Some 1)
    by (vm_compute; reflexivity).
  split; [exact Hs|]. split; [exact Hc|]. split.
  - exact (proj2 (H4 Hs) 1 Hc).
  - apply (H2 Sample.bidDoc); [vm_compute; reflexivity|]. discriminate.
Defined.

(** ** Cancelled bids and the views *)

(** The snapshot listener builds every bid without a status. *)
Lemma onSnapshot_status (be : Firestore.Backend) (symbol : string)
    (snapshot : list (string * Firestore.BidDoc)) :
  Forall (fun b => Bid.status b = None /\ OrderBook.isActiveBid b = true)
         (Firestore.onSnapshot be symbol snapshot).
Proof.
  unfold Firestore.onSnapshot.
  induction snapshot as [|kd rest IH]; simpl; constructor; auto.
Qed.

(** Through the reducer the status survives: after [UPDATE_BID] with
    [{ status: 'cancelled' }] the bid is on neither side of the order book
    and is still in the list of all bids, as cancelled. *)
Lemma update_bid_cancelled (botEnv : bool) (state : Context.AppState) (bidId : string) :
  let state1 :=
    Context.auctionReducer botEnv state
      (Context.UPDATE_BID bidId (Context.mkBidUpdates (Some cancelled))) in
  (forall b, In b (OrderBook.activeBids (Context.bids state1)) -> Bid.id b <> bidId)
  /\ (forall b, In b (Context.bids state) -> Bid.id b = bidId ->
                In (Bid.with_status b (Some cancelled)) (Context.bids state1)).
Proof.
  cbn [Context.auctionReducer Context.set_bids Context.bids]. split.
  - intros b Hb. unfold OrderBook.activeBids in Hb.
    apply List.filter_In in Hb. destruct Hb as [Hin Hact].
    apply List.in_map_iff in Hin. destruct Hin as (b0 & Hb0 & _).
    destruct (String.eqb (Bid.id b0) bidId) eqn:E.
    + subst b. discriminate.
    + subst b. apply String.eqb_neq. exact E.
  - intros b Hb Hid. apply List.in_map_iff. exists b. split; [|exact Hb].
    apply String.eqb_eq in Hid. rewrite Hid. reflexivity.
Qed.

(** The provider's [cancelBid] takes that path: once it succeeds the bid
    is no longer among the active bids of the state. *)
Lemma provider_cancel_hides_bid (w : Context.World) (state : Context.AppState)
    (store : Firestore.Store) (bidId : string) (b : Bid.t) :
  Context.result (Context.cancelBid w state store bidId) = Ok tt ->
  In b (OrderBook.activeBids
          (Context.bids (Context.state' (Context.cancelBid w state store bidId)))) ->
  Bid.id b <> bidId.
Proof.
  unfold Context.cancelBid.
  destruct (Context.user state) as [u|]; [|discriminate].
  destruct (Firestore.cancelBid store bidId (User.uid u)) as [store1 [[]|msg]];
    [|discriminate].
  intros _. cbn [Context.state'].
  apply (proj1 (update_bid_cancelled (Context.botEnv w) state bidId)).
Qed.

(** C2 at the failing input.  The owner cancels the one bid of the store;
    the document is then 'cancelled', yet the bid delivered by the live
    subscription has no status, is ranked on the buy side of the order
    book, and the history lists it as 'Pending'. *)
Theorem cancelled_bid_ranked_from_live_stream :
  (exists d, Firestore.bids Sample.storeAfterCancel !! "b1" = Some d
             /\ Firestore.status d = Some cancelled)
  /\ List.map Bid.id
       (OrderBook.buyBids
          (Firestore.subscribeToBids Sample.backend Sample.storeAfterCancel "AAPL" 50))
     = ["b1"]
  /\ List.map (fun b => (Bid.id b, BidHistory.getStatusText (Bid.status b)))
       (BidHistory.filteredBids false None BidHistory.all
          (Firestore.subscribeToBids Sample.backend Sample.storeAfterCancel "AAPL" 50))
     = [("b1", BidHistory.Pending)].
Proof.
  split; [|split].
  - exists (Firestore.set_status Sample.bidDoc cancelled). split; vm_compute; reflexivity.
  - vm_compute. reflexivity.
  - vm_compute. reflexivity.
Qed.

(** ** The countdown and the gate of [placeBid] *)

Lemma remaining_past (nowMs endTime : Z) :
  endTime < nowMs -> Timer.remaining nowMs endTime = 0.
Proof.
  intros H. unfold Timer.remaining.
  assert ((endTime - nowMs) / 1000 < 0) by (apply Z.div_lt_upper_bound; lia).
  lia.
Qed.

Lemma isAuctionActive_past (state : Context.AppState) (a : Auction.t) (nowMs : Z) :
  Context.auction state = Some a -> Auction.endTime a < nowMs ->
  Context.isAuctionActive state nowMs = false.
Proof.
  intros Ha Hpast. unfold Context.isAuctionActive, Context.getTimeRemaining. rewrite Ha.
  destruct (Auction.isActive a); simpl; [|reflexivity].
  fold (Timer.remaining nowMs (Auction.endTime a)).
  rewrite remaining_past by assumption. reflexivity.
Qed.

(** C8.  When the end time of the auction is in the past, the timer shows
    'Auction Ended' (rendered with [isAuctionActive()] it stays so at every
    later tick; no time remains and the time-up notification fires), and a
    placement attempt is rejected without any effect on the state or the
    store: for a signed-in user the reason is 'Auction is not active'. *)
Theorem ended_auction_rejects_placement (w : Context.World) (state : Context.AppState)
    (store : Firestore.Store) (a : Auction.t) (amount : Q) (type : BidType)
    (quantity : option Z) :
  Context.auction state = Some a ->
  Auction.endTime a < Firestore.now (Context.backend w) ->
  let nowMs := Firestore.now (Context.backend w) in
  let o := Context.placeBid w state store amount type quantity in
  Timer.ofApp state nowMs = Some Timer.Ended
  /\ (forall tick,
        Timer.state (Context.isAuctionActive state nowMs) tick (Auction.endTime a)
        = Timer.Ended)
  /\ Timer.remaining nowMs (Auction.endTime a) = 0
  /\ Timer.firesTimeUp nowMs (Auction.endTime a) = true
  /\ Context.result o
     = Throw (match Context.user state with
              | Some _ => "Auction is not active"
              | None => "User not authenticated"
              end)
  /\ Context.state' o = state
  /\ Context.store' o = store
  /\ Context.effects o
     = [Context.ToastError (match Context.user state with
                            | Some _ => "Auction is not active"
                            | None => "User not authenticated"
                            end)].
Proof.
  intros Ha Hpast nowMs o.
  pose proof (isAuctionActive_past state a nowMs Ha Hpast) as Hinactive.
  pose proof (remaining_past nowMs (Auction.endTime a) Hpast) as Hrem.
  split; [|split; [|split; [|split]]].
  - unfold Timer.ofApp. rewrite Ha, Hinactive. reflexivity.
  - intros tick. rewrite Hinactive. reflexivity.
  - exact Hrem.
  - unfold Timer.firesTimeUp. rewrite Hrem. reflexivity.
  - subst o. unfold Context.placeBid. fold nowMs.
    destruct (Context.user state); [rewrite Hinactive|]; simpl; auto.
Qed.

(** An auction that ended one second ago. *)
Lemma ended_auction_rejects_placement_witness :
  Timer.ofApp (Sample.stateWith Sample.endedAuction) 5000 = Some Timer.Ended
  /\ Context.result
       (Context.placeBid Sample.world (Sample.stateWith Sample.endedAuction) Sample.store
          151%Q buy (Some 10%Z))
     = Throw "Auction is not active".
Proof.
  destruct (ended_auction_rejects_placement Sample.world
              (Sample.stateWith Sample.endedAuction) Sample.store Sample.endedAuction
              151%Q buy (Some 10%Z) eq_refl)
    as (H1 & _ & _ & _ & H4 & _).
  - reflexivity.
  - split; [exact H1|exact H4].
Defined.

(** ** Placement *)

Lemma includes_append (needle before hay : string) :
  Js.includes needle hay = true -> Js.includes needle (before +:+ hay) = true.
Proof.
  intros H. induction before as [|c before IH]; simpl; [exact H|].
  rewrite IH. apply orb_true_r.
Qed.

Lemma sendWhatsAppInvoice_shape (w : Context.World) (state : Context.AppState)
    (savedBid : Bid.t) (amount : Q) (type : BidType) (pl : Q) (quantity : Z) :
  exists actions rest,
    Context.sendWhatsAppInvoice w state savedBid amount type pl quantity
    = (actions,
       Context.InvoiceCreated (Context.invoiceFor w state savedBid amount type pl quantity)
         :: rest)
    /\ (actions = []
        \/ actions = [Context.SET_INVOICE_MODAL true
                        (Some (Context.invoiceFor w state savedBid amount type pl quantity))]).
Proof.
  unfold Context.sendWhatsAppInvoice.
  destruct (match Context.user state with
            | Some u => Js.truthy_str (User.phoneNumber u)
            | None => false
            end).
  - destruct (WhatsApp.sendInvoice _ _ _ _ _) as [events response].
    eexists; eexists; split; [reflexivity|left; reflexivity].
  - eexists; eexists; split; [reflexivity|right; reflexivity].
Qed.

(** The actions of the invoice step leave the bids and the profit/loss of
    the state alone. *)
Lemma dispatch_invoice_actions (b : bool) (st : Context.AppState)
    (actions : list Context.AppAction) (inv : Invoice.t) :
  actions = [] \/ actions = [Context.SET_INVOICE_MODAL true (Some inv)] ->
  Context.bids (Context.auctionReducer b (Context.dispatchAll b st actions)
                  (Context.SET_LOADING false))
  = Context.bids st
  /\ Context.userProfitLoss (Context.auctionReducer b (Context.dispatchAll b st actions)
                               (Context.SET_LOADING false))
     = Context.userProfitLoss st.
Proof.
  intros [->| ->]; split; reflexivity.
Qed.

Lemma profitLossOf_users (s1 s2 : Firestore.Store) (uid : string) :
  Firestore.users s1 !! uid = Firestore.users s2 !! uid ->
  Firestore.profitLossOf s1 uid = Firestore.profitLossOf s2 uid.
Proof.
  unfold Firestore.profitLossOf. intros ->. reflexivity.
Qed.

Lemma updateUserBidCount_profitLossOf (s : Firestore.Store) (uid uid' : string) :
  Firestore.profitLossOf (Firestore.updateUserBidCount s uid) uid'
  = Firestore.profitLossOf s uid'.
Proof.
  unfold Firestore.updateUserBidCount, Firestore.profitLossOf.
  destruct (Firestore.users s !! uid) as [u|] eqn:Hu; [|reflexivity].
  cbn [Firestore.users]. destruct (decide (uid = uid')) as [<-|Hne].
  - rewrite lookup_insert_eq, Hu. reflexivity.
  - rewrite lookup_insert_ne by exact Hne. reflexivity.
Qed.

Lemma updateUserStats_profitLossOf (s : Firestore.Store) (uid uid' : string) (v : Z) :
  Firestore.profitLossOf (Firestore.updateUserStats_activeBids s uid v) uid'
  = Firestore.profitLossOf s uid'.
Proof.
  unfold Firestore.updateUserStats_activeBids, Firestore.profitLossOf.
  destruct (Firestore.users s !! uid) as [u|] eqn:Hu; [|reflexivity].
  cbn [Firestore.users]. destruct (decide (uid = uid')) as [<-|Hne].
  - rewrite lookup_insert_eq, Hu. reflexivity.
  - rewrite lookup_insert_ne by exact Hne. reflexivity.
Qed.

Lemma updateAuctionStats_users (s : Firestore.Store) (symbol : string) (amount : Q) :
  Firestore.users (Firestore.updateAuctionStats s symbol amount) = Firestore.users s.
Proof.
  unfold Firestore.updateAuctionStats.
  destruct (Firestore.auctions s !! symbol); reflexivity.
Qed.

(** An accepted insert returns the bid under the issued id and does not
    touch the cumulative profit/loss of any profile. *)
Lemma addBid_accepted (be : Firestore.Backend) (s : Firestore.Store) (bid : Bid.t)
    (docId : string) :
  Firestore.addDoc be = inl docId ->
  exists s1,
    Firestore.addBid be s bid
    = (s1, Ok (Bid.mk docId (Bid.userId bid) (Bid.userName bid) (Bid.amount bid)
                      (Bid.quantity bid) (Bid.type bid) (Firestore.now be)
                      (Bid.stockSymbol bid) (Some active) (Bid.profitLoss bid)))
    /\ (forall uid, Firestore.profitLossOf s1 uid = Firestore.profitLossOf s uid)
    /\ (exists d, Firestore.bids s1 !! docId = Some d
                  /\ Firestore.quantity d = Bid.quantity bid
                  /\ Firestore.status d = Some active).
Proof.
  intros Hadd. unfold Firestore.addBid. rewrite Hadd.
  eexists. split; [reflexivity|]. split.
  - intros uid.
    erewrite profitLossOf_users by apply (f_equal (fun m => m !! uid)), updateAuctionStats_users.
    destruct (negb (String.eqb (Bid.userId bid) "") && negb (String.eqb (Bid.userId bid) "bot")).
    + rewrite updateUserStats_profitLossOf, updateUserBidCount_profitLossOf. reflexivity.
    + reflexivity.
  - exists (Firestore.mkBidDoc (Bid.userId bid) (Bid.userName bid) (Bid.amount bid)
              (Bid.quantity bid) (Bid.type bid) (Some (Firestore.serverTime be))
              (Bid.stockSymbol bid) (Some active)).
    split; [|split; reflexivity].
    unfold Firestore.updateAuctionStats.
    match goal with |- context [Firestore.auctions ?s !! ?k] =>
      destruct (Firestore.auctions s !! k) end; cbn [Firestore.bids];
    destruct (negb (String.eqb (Bid.userId bid) "") && negb (String.eqb (Bid.userId bid) "bot"));
    rewrite ?updateUserStats_bids; unfold Firestore.updateUserBidCount;
    try match goal with |- context [Firestore.users ?s !! ?k] =>
      destruct (Firestore.users s !! k) end; cbn [Firestore.bids];
    apply lookup_insert_eq.
Qed.

Lemma updateUserProfitLoss_applied (be : Firestore.Backend) (s : Firestore.Store)
    (uid : string) (delta : Q) :
  Firestore.profitWrite be = None ->
  snd (Firestore.updateUserProfitLoss be s uid delta) = Ok tt
  /\ Firestore.profitLossOf (fst (Firestore.updateUserProfitLoss be s uid delta)) uid
     = match Firestore.profitLossField s uid with
       | Some x => Double.plus x delta
       | None => delta
       end.
Proof.
  intros Hw.
  unfold Firestore.updateUserProfitLoss, Firestore.profitLossOf, Firestore.profitLossField.
  rewrite Hw.
  destruct (Firestore.users s !! uid) as [u|] eqn:Hu; cbn [fst snd Firestore.users];
    rewrite lookup_insert_eq; (split; [reflexivity|]); [|reflexivity].
  cbn [Firestore.profitLoss]. destruct (Firestore.profitLoss u); reflexivity.
Qed.

Lemma updateUserProfitLoss_failed (be : Firestore.Backend) (s : Firestore.Store)
    (uid : string) (delta : Q) (msg : string) :
  Firestore.profitWrite be = Some msg ->
  Firestore.updateUserProfitLoss be s uid delta
  = (s, Throw ("Failed to update profit/loss: " +:+ msg)).
Proof.
  intros Hw. unfold Firestore.updateUserProfitLoss. rewrite Hw. reflexivity.
Qed.

Lemma updateUserBidCount_profitLossField (s : Firestore.Store) (uid uid' : string) :
  Firestore.profitLossField (Firestore.updateUserBidCount s uid) uid'
  = Firestore.profitLossField s uid'.
Proof.
  unfold Firestore.updateUserBidCount, Firestore.profitLossField.
  destruct (Firestore.users s !! uid) as [u|] eqn:Hu; [|reflexivity].
  cbn [Firestore.users]. destruct (decide (uid = uid')) as [<-|Hne].
  - rewrite lookup_insert_eq, Hu. reflexivity.
  - rewrite lookup_insert_ne by exact Hne. reflexivity.
Qed.

Lemma updateUserStats_profitLossField (s : Firestore.Store) (uid uid' : string) (v : Z) :
  Firestore.profitLossField (Firestore.updateUserStats_activeBids s uid v) uid'
  = Firestore.profitLossField s uid'.
Proof.
  unfold Firestore.updateUserStats_activeBids, Firestore.profitLossField.
  destruct (Firestore.users s !! uid) as [u|] eqn:Hu; [|reflexivity].
  cbn [Firestore.users]. destruct (decide (uid = uid')) as [<-|Hne].
  - rewrite lookup_insert_eq, Hu. reflexivity.
  - rewrite lookup_insert_ne by exact Hne. reflexivity.
Qed.

(** [addBid] leaves the profit/loss field of every profile as it is. *)
Lemma addBid_profitLossField (be : Firestore.Backend) (s : Firestore.Store) (bid : Bid.t)
    (uid : string) :
  Firestore.profitLossField (fst (Firestore.addBid be s bid)) uid
  = Firestore.profitLossField s uid.
Proof.
  unfold Firestore.addBid. destruct (Firestore.addDoc be) as [docId|msg]; [|reflexivity].
  cbn [fst].
  assert (Hauc : forall s0 symbol amount,
            Firestore.profitLossField (Firestore.updateAuctionStats s0 symbol amount) uid
            = Firestore.profitLossField s0 uid).
  { intros s0 symbol amount. unfold Firestore.profitLossField.
    rewrite updateAuctionStats_users. reflexivity. }
  rewrite Hauc.
  destruct (negb (String.eqb (Bid.userId bid) "") && negb (String.eqb (Bid.userId bid) "bot")).
  - rewrite updateUserStats_profitLossField, updateUserBidCount_profitLossField. reflexivity.
  - reflexivity.
Qed.

(** What [sendWhatsAppInvoice] does for a signed-in user: with a phone
    number the invoice goes to [sendInvoice] and nothing is dispatched;
    without one the invoice is put into the invoice modal. *)
Lemma sendWhatsAppInvoice_sent (w : Context.World) (state : Context.AppState) (u : User.t)
    (savedBid : Bid.t) (amount : Q) (type : BidType) (pl : Q) (quantity : Z) :
  Context.user state = Some u ->
  let inv :=
    Invoice.mk (Stock.name (Context.stock state)) quantity amount pl
               (Firestore.now (Context.backend w)) (Context.traderName u) type
               (Stock.symbol (Context.stock state)) (Some (Bid.id savedBid)) in
  Context.sendWhatsAppInvoice w state savedBid amount type pl quantity
  = match User.phoneNumber u with
    | Some (String c rest) =>
        let sent :=
          WhatsApp.sendInvoice (Context.whatsappService w) (Context.network w)
                               (Firestore.now (Context.backend w)) (String c rest) inv in
        ([],
         Context.InvoiceCreated inv :: List.map Context.Delivery (fst sent)
           ++ [Context.ToastSuccess (if WhatsApp.success (snd sent)
                                     then "📱 Invoice sent to WhatsApp!"
                                     else "📱 Invoice simulated (check console)")])
    | _ =>
        ([Context.SET_INVOICE_MODAL true (Some inv)],
         [Context.InvoiceCreated inv;
          Context.ToastSuccess "📱 Invoice created (add phone number for WhatsApp)"])
    end.
Proof.
  intros Hu inv. unfold Context.sendWhatsAppInvoice, Context.invoiceFor. rewrite Hu.
  fold inv. destruct (User.phoneNumber u) as [[|c rest]|]; cbn [Js.truthy_str default from_option id];
    try reflexivity.
  destruct (WhatsApp.sendInvoice _ _ _ _ _) as [events response]. reflexivity.
Qed.

(** For a number that [formatPhoneNumber] accepts, [sendInvoice] starts
    with an attempt to reach that number and reports success. *)
Lemma sendInvoice_attempts (svc : WhatsApp.Service) (net : WhatsApp.Network) (nowMs : Z)
    (phone dest : string) (inv : Invoice.t) :
  WhatsApp.formatPhoneNumber phone = Some dest ->
  (exists strategy rest,
     fst (WhatsApp.sendInvoice svc net nowMs phone inv) = WhatsApp.Attempt strategy dest :: rest)
  /\ WhatsApp.success (snd (WhatsApp.sendInvoice svc net nowMs phone inv)) = true.
Proof.
  intros Hd. unfold WhatsApp.sendInvoice. rewrite Hd.
  unfold WhatsApp.sendViaBackendAPI, WhatsApp.sendTwilioMessage, WhatsApp.simulateMessage.
  destruct (WhatsApp.useBackendApi svc); [destruct (WhatsApp.relay net)|
    destruct (WhatsApp.isConfigured svc); [destruct (WhatsApp.twilio net)|]];
    (split; [eexists; eexists; reflexivity|reflexivity]).
Qed.

(** C3 (as amended).  For every placement that the store accepts, with
    price [amount], quantity [q] and reference price [currentPrice], the
    profit/loss is the binary64 number [(currentPrice - amount) * q] for a
    buy and [(amount - currentPrice) * q] for a sell, the difference and
    the product each rounded to the nearest number.  When it is finite it
    is the figure on the invoice, and the figure added, again in binary64,
    to the user's cumulative profit/loss in the state and in the profile
    when the profile write goes through (when it does not, the bid stands
    and neither total changes).  A buy at 151 of 10 units against 150
    gives -10; a sell at 152 of 5 units against 150 gives +10. *)
Theorem placed_bid_profit_loss (w : Context.World) (state : Context.AppState)
    (store : Firestore.Store) (u : User.t) (amount : Q) (type : BidType)
    (quantityArg : option Z) (docId : string) :
  Context.user state = Some u ->
  Context.isAuctionActive state (Firestore.now (Context.backend w)) = true ->
  Firestore.addDoc (Context.backend w) = inl docId ->
  let q := default 10 quantityArg in
  let currentPrice := Stock.currentPrice (Context.stock state) in
  let figure :=
    match type with
    | buy =>
        Double.mul (Double.sub (Double.ofQ currentPrice) (Double.ofQ amount))
                   (Double.ofQ (inject_Z q))
    | sell =>
        Double.mul (Double.sub (Double.ofQ amount) (Double.ofQ currentPrice))
                   (Double.ofQ (inject_Z q))
    end in
  Double.isFinite figure = true ->
  let pl := Double.value figure in
  let total := Double.add (Double.ofQ (Context.userProfitLoss state)) figure in
  let o := Context.placeBid w state store amount type quantityArg in
  Context.result o = Ok tt
  /\ (exists inv, In (Context.InvoiceCreated inv) (Context.effects o)
                  /\ Invoice.profitLoss inv = pl
                  /\ Invoice.bidId inv = Some docId)
  /\ match Firestore.profitWrite (Context.backend w) with
     | None =>
         (Double.isFinite total = true ->
          Context.userProfitLoss (Context.state' o) = Double.value total)
         /\ match Firestore.profitLossField store (User.uid u) with
            | Some before =>
                Double.isFinite (Double.add (Double.ofQ before) (Double.ofQ pl)) = true ->
                Firestore.profitLossOf (Context.store' o) (User.uid u)
                = Double.plus before pl
            | None => Firestore.profitLossOf (Context.store' o) (User.uid u) = pl
            end
     | Some _ =>
         Context.userProfitLoss (Context.state' o) = Context.userProfitLoss state
         /\ Firestore.profitLossOf (Context.store' o) (User.uid u)
            = Firestore.profitLossOf store (User.uid u)
     end
  /\ Context.profitLoss buy 150 151 10 = (-10)%Q
  /\ Context.profitLoss sell 150 152 5 = 10%Q.
Proof.
  intros Hu Hact Hadd q currentPrice figure Hfin pl total o.
  assert (Hfig : Context.profitLossNumber type currentPrice amount q = figure)
    by (destruct type; reflexivity).
  subst o. unfold Context.placeBid. rewrite Hu, Hact. cbn [negb].
  pose proof (addBid_profitLossField (Context.backend w) store
                (Bid.mk "" (User.uid u) (Context.traderName u) amount None type
                        (Firestore.now (Context.backend w))
                        (Stock.symbol (Context.stock state)) None None)
                (User.uid u)) as Hfield.
  destruct (addBid_accepted (Context.backend w) store
              (Bid.mk "" (User.uid u) (Context.traderName u) amount None type
                      (Firestore.now (Context.backend w))
                      (Stock.symbol (Context.stock state)) None None)
              docId Hadd) as (s1 & E & Hkeep & _).
  rewrite E in Hfield |- *. cbn [fst] in Hfield.
  cbn [Bid.userId Bid.userName Bid.amount Bid.quantity Bid.type Bid.stockSymbol Bid.profitLoss].
  fold q. fold currentPrice. rewrite Hfig. fold pl.
  unfold Context.newProfitLoss. fold total.
  match goal with |- context [Context.sendWhatsAppInvoice w state ?sb amount type pl q] =>
    destruct (sendWhatsAppInvoice_shape w state sb amount type pl q)
      as (actions & rest & ES & Hactions); rewrite ES
  end.
  destruct (Firestore.profitWrite (Context.backend w)) as [msg|] eqn:Hw.
  - rewrite (updateUserProfitLoss_failed _ _ _ _ msg Hw).
    cbn [Context.result Context.effects Context.state' Context.store'].
    split; [reflexivity|]. split.
    { eexists. split; [left; reflexivity|]. split; reflexivity. }
    split; [|split; vm_compute; reflexivity].
    split.
    + erewrite (proj2 (dispatch_invoice_actions _ _ _ _ Hactions)). reflexivity.
    + apply Hkeep.
  - destruct (updateUserProfitLoss_applied (Context.backend w) s1 (User.uid u) pl Hw)
      as [Hok Hsum].
    destruct (Firestore.updateUserProfitLoss (Context.backend w) s1 (User.uid u) pl)
      as [s2 r]. cbn [fst snd] in Hok, Hsum. subst r.
    cbn [Context.result Context.effects Context.state' Context.store'].
    split; [reflexivity|]. split.
    { eexists. split; [left; reflexivity|]. split; reflexivity. }
    split; [|split; vm_compute; reflexivity].
    split.
    + intros _. erewrite (proj2 (dispatch_invoice_actions _ _ _ _ Hactions)). reflexivity.
    + rewrite Hsum, Hfield.
      destruct (Firestore.profitLossField store (User.uid u)); [intros _|]; reflexivity.
Qed.

(** The first scenario: a buy at 151 of 10 units against 150. *)
Lemma placed_bid_profit_loss_witness :
  Context.result
    (Context.placeBid Sample.world (Sample.stateWith Sample.liveAuction) Sample.store
       151%Q buy (Some 10%Z))
  = Ok tt
  /\ Context.userProfitLoss
       (Context.state'
          (Context.placeBid Sample.world (Sample.stateWith Sample.liveAuction) Sample.store
             151%Q buy (Some 10%Z)))
     = (-10)%Q.
Proof.
  destruct (placed_bid_profit_loss Sample.world (Sample.stateWith Sample.liveAuction)
              Sample.store Sample.user 151%Q buy (Some 10%Z) "b2" eq_refl eq_refl eq_refl
              eq_refl)
    as (H1 & _ & H3 & _).
  split; [exact H1|].
  change (Firestore.profitWrite (Context.backend Sample.world)) with (@None string) in H3.
  destruct H3 as [H3 _]. rewrite H3; reflexivity.
Defined.

(** C3 (as stated) fails.  A buy at 152.08 of 1000 units against 150 is
    booked at -2080.0000000000127 (the number
    -1143492092887047 / 2^39), not at -2080: the product of the computed
    difference and the quantity is not a binary64 number and is rounded. *)
Lemma profit_loss_is_rounded :
  let amount := Double.number (15208 # 100) in
  let o := Context.placeBid Sample.world (Sample.stateWith Sample.liveAuction) Sample.store
             amount buy (Some 1000) in
  Context.result o = Ok tt
  /\ List.map Invoice.profitLoss (Context.invoices (Context.effects o))
     = [(-1143492092887047 # 549755813888)%Q]
  /\ Context.userProfitLoss (Context.state' o) = (-1143492092887047 # 549755813888)%Q
  /\ ~ (-1143492092887047 # 549755813888 == (150 - amount) * 1000)%Q
  /\ ~ (-1143492092887047 # 549755813888 == (150 - (15208 # 100)) * 1000)%Q.
Proof.
  repeat split; try (vm_compute; reflexivity); vm_compute; discriminate.
Qed.

(** C6.  When the store refuses the insert with a permission error
    (the message contains 'permissions'), placement returns without
    raising: nothing is written to the store, a bid with the locally
    generated id ['local-' + Date.now()] and status 'active' joins the bids
    of the state, the profit/loss of the normal path is added to the
    user's total, and the invoice for the local bid is dispatched: for a
    user with a phone number it is handed to [sendInvoice], whose events
    and report are all that is shown besides the closing toast, and a
    number that [formatPhoneNumber] accepts is attempted; for a user
    without one it is put into the invoice modal, which opens. *)
Theorem permission_error_places_local_bid (w : Context.World) (state : Context.AppState)
    (store : Firestore.Store) (u : User.t) (amount : Q) (type : BidType)
    (quantityArg : option Z) (msg : string) :
  Context.user state = Some u ->
  Context.isAuctionActive state (Firestore.now (Context.backend w)) = true ->
  Firestore.addDoc (Context.backend w) = inr msg ->
  Js.includes "permissions" msg = true ->
  let nowMs := Firestore.now (Context.backend w) in
  let q := default 10 quantityArg in
  let figure :=
    Context.profitLossNumber type (Stock.currentPrice (Context.stock state)) amount q in
  Double.isFinite figure = true ->
  let pl := Double.value figure in
  let total := Double.add (Double.ofQ (Context.userProfitLoss state)) figure in
  let localBid :=
    Bid.mk ("local-" +:+ pretty nowMs) (User.uid u) (Context.traderName u) amount None type
           nowMs (Stock.symbol (Context.stock state)) (Some active) None in
  let inv :=
    Invoice.mk (Stock.name (Context.stock state)) q amount pl nowMs (Context.traderName u)
               type (Stock.symbol (Context.stock state)) (Some ("local-" +:+ pretty nowMs)) in
  let closing := Context.ToastSuccess (Context.toUpperCase type +:+ " bid placed (demo mode)!") in
  let o := Context.placeBid w state store amount type quantityArg in
  Context.result o = Ok tt
  /\ Context.store' o = store
  /\ In localBid (Context.bids (Context.state' o))
  /\ (Double.isFinite total = true ->
      Context.userProfitLoss (Context.state' o) = Double.value total)
  /\ match User.phoneNumber u with
     | Some (String c rest) =>
         let sent :=
           WhatsApp.sendInvoice (Context.whatsappService w) (Context.network w) nowMs
                                (String c rest) inv in
         Context.effects o
         = Context.InvoiceCreated inv :: List.map Context.Delivery (fst sent)
             ++ [Context.ToastSuccess (if WhatsApp.success (snd sent)
                                       then "📱 Invoice sent to WhatsApp!"
                                       else "📱 Invoice simulated (check console)");
                 closing]
         /\ Context.invoiceModal (Context.state' o) = Context.invoiceModal state
         /\ (forall dest, WhatsApp.formatPhoneNumber (String c rest) = Some dest ->
               WhatsApp.success (snd sent) = true
               /\ exists strategy,
                    In (Context.Delivery (WhatsApp.Attempt strategy dest)) (Context.effects o))
     | _ =>
         Context.effects o
         = [Context.InvoiceCreated inv;
            Context.ToastSuccess "📱 Invoice created (add phone number for WhatsApp)";
            closing]
         /\ Context.invoiceModal (Context.state' o) = Context.mkInvoiceModal true (Some inv)
     end.
Proof.
  intros Hu Hact Hadd Hperm nowMs q figure Hfin pl total localBid inv closing o.
  subst o. unfold Context.placeBid. rewrite Hu, Hact. cbn [negb].
  unfold Firestore.addBid. rewrite Hadd.
  rewrite (includes_append "permissions" "Failed to place bid: " msg Hperm).
  fold nowMs. fold q. fold figure. fold pl. fold localBid.
  unfold Context.newProfitLoss. fold total.
  rewrite (sendWhatsAppInvoice_sent w state u localBid amount type pl q Hu).
  cbn [Bid.id localBid]. fold nowMs. fold inv.
  split; [|split; [|split; [|split]]].
  - destruct (User.phoneNumber u) as [[|c rest]|]; reflexivity.
  - destruct (User.phoneNumber u) as [[|c rest]|]; reflexivity.
  - assert (Hin : In localBid
                    (Js.sort Context.byTimestampDesc (localBid :: Context.bids state))).
    { apply (Permutation_in _ (Permutation_sym (sort_perm _ _))). left. reflexivity. }
    destruct (User.phoneNumber u) as [[|c rest]|]; exact Hin.
  - intros _. destruct (User.phoneNumber u) as [[|c rest]|]; reflexivity.
  - destruct (User.phoneNumber u) as [[|c rest]|];
      try (split; reflexivity).
    cbv zeta. cbn [Context.effects Context.state' fst snd].
    split; [|split].
    + rewrite <- List.app_comm_cons, <- List.app_assoc. reflexivity.
    + reflexivity.
    + intros dest Hdest.
      destruct (sendInvoice_attempts (Context.whatsappService w) (Context.network w) nowMs
                  (String c rest) dest inv Hdest) as [(strategy & others & Hev) Hok].
      split; [exact Hok|]. exists strategy. right. apply in_or_app. left.
      rewrite Hev. left. reflexivity.
Qed.

(** The store answers 'Missing or insufficient permissions.'; the sample
    user has no phone number, so the invoice opens in the modal. *)
Lemma permission_error_places_local_bid_witness :
  Context.result
    (Context.placeBid Sample.deniedWorld (Sample.stateWith Sample.liveAuction) Sample.store
       151%Q buy None)
  = Ok tt
  /\ In (Bid.mk "local-5000" "u1" "Avi" 151%Q None buy 5000 "AAPL" (Some active) None)
        (Context.bids
           (Context.state'
              (Context.placeBid Sample.deniedWorld (Sample.stateWith Sample.liveAuction)
                 Sample.store 151%Q buy None)))
  /\ Context.isOpen
       (Context.invoiceModal
          (Context.state'
             (Context.placeBid Sample.deniedWorld (Sample.stateWith Sample.liveAuction)
                Sample.store 151%Q buy None)))
     = true.
Proof.
  destruct (permission_error_places_local_bid Sample.deniedWorld
              (Sample.stateWith Sample.liveAuction) Sample.store Sample.user 151%Q buy None
              "Missing or insufficient permissions." eq_refl eq_refl eq_refl eq_refl eq_refl)
    as (H1 & _ & H3 & _ & H5).
  split; [exact H1|]. split; [exact H3|].
  change (User.phoneNumber Sample.user) with (@None string) in H5.
  destruct H5 as [_ H5]. rewrite H5. reflexivity.
Defined.

(** ** Quantity *)

Lemma invoices_deliveries (events : list WhatsApp.Event) (rest : list Context.Effect) :
  Context.invoices (List.map Context.Delivery events ++ rest) = Context.invoices rest.
Proof.
  induction events as [|e events IH]; simpl; auto.
Qed.

Lemma sendWhatsAppInvoice_invoices (w : Context.World) (state : Context.AppState)
    (savedBid : Bid.t) (amount : Q) (type : BidType) (pl : Q) (quantity : Z)
    (rest : list Context.Effect) :
  Context.invoices
    (snd (Context.sendWhatsAppInvoice w state savedBid amount type pl quantity) ++ rest)
  = Context.invoiceFor w state savedBid amount type pl quantity :: Context.invoices rest.
Proof.
  unfold Context.sendWhatsAppInvoice.
  destruct (match Context.user state with
            | Some u => Js.truthy_str (User.phoneNumber u)
            | None => false
            end).
  - destruct (WhatsApp.sendInvoice _ _ _ _ _) as [events response].
    cbn [snd]. cbn [app Context.invoices]. rewrite <- app_assoc, invoices_deliveries.
    reflexivity.
  - reflexivity.
Qed.

Lemma handleSubmit_quantity (bidAmount : BidForm.Field Q) (quantity : BidForm.Field Z)
    (bidType : BidType) (minimum : Q) (isActive : bool) (a : Q) (t : BidType) (qty : Z) :
  BidForm.handleSubmit bidAmount quantity bidType minimum isActive = Some (a, t, qty) ->
  1 <= qty <= 10000.
Proof.
  unfold BidForm.handleSubmit, BidForm.validateBid.
  destruct bidAmount as [| |amount]; try discriminate;
    destruct quantity as [| |q]; try discriminate.
  - destruct (negb (BidForm.lt 0 amount)); discriminate.
  - destruct (negb (BidForm.lt 0 amount)); [discriminate|].
    destruct (q <=? 0) eqn:E1; [discriminate|].
    destruct (10000 <? q) eqn:E2; [discriminate|].
    destruct (BidForm.lt amount minimum); [discriminate|].
    destruct (BidForm.lt 1000000 amount); [discriminate|].
    destruct (BidForm.lt 50000000 (Double.times amount (inject_Z q))); [discriminate|].
    destruct isActive; [|discriminate].
    intros [= _ _ <-]. lia.
Qed.

(** C9 (as amended).  Every placement that the store accepts uses the
    caller's quantity, or 10 when the caller gives none, for the
    profit/loss and on the one invoice it dispatches; the quantities the
    bid form submits are integers from 1 to 10000.  A bid read back from
    the store has the quantity of its document when that is a number
    other than 0, and 1 otherwise. *)
Theorem placement_quantity (w : Context.World) (state : Context.AppState)
    (store : Firestore.Store) (u : User.t) (amount : Q) (type : BidType)
    (quantityArg : option Z) (docId : string) :
  Context.user state = Some u ->
  Context.isAuctionActive state (Firestore.now (Context.backend w)) = true ->
  Firestore.addDoc (Context.backend w) = inl docId ->
  let q := match quantityArg with Some n => n | None => 10 end in
  let o := Context.placeBid w state store amount type quantityArg in
  List.map (fun inv => (Invoice.quantity inv, Invoice.profitLoss inv))
           (Context.invoices (Context.effects o))
  = [(q, Context.profitLoss type (Stock.currentPrice (Context.stock state)) amount q)]
  /\ (forall bidAmount quantity bidType minimum isActive a t qty,
        BidForm.handleSubmit bidAmount quantity bidType minimum isActive = Some (a, t, qty) ->
        1 <= qty <= 10000)
  /\ (forall be symbol docKey doc,
        Bid.quantity (Firestore.bidOfDoc be symbol (docKey, doc))
        = Some (match Firestore.quantity doc with
                | Some n => if n =? 0 then 1 else n
                | None => 1
                end)).
Proof.
  intros Hu Hact Hadd q o. split; [|split].
  - subst o. unfold Context.placeBid. rewrite Hu, Hact. cbn [negb].
    destruct (addBid_accepted (Context.backend w) store
                (Bid.mk "" (User.uid u) (Context.traderName u) amount None type
                        (Firestore.now (Context.backend w))
                        (Stock.symbol (Context.stock state)) None None)
                docId Hadd) as (s1 & E & _ & _).
    rewrite E.
    change (default 10 quantityArg) with q.
    destruct (Firestore.updateUserProfitLoss _ _ _ _) as [s2 [[]|msg]];
      match goal with |- context [Context.sendWhatsAppInvoice w state ?sb amount type ?pl q] =>
        pose proof (sendWhatsAppInvoice_invoices w state sb amount type pl q
                      [Context.ToastSuccess (Context.toUpperCase type +:+ " bid placed successfully!")]) as Hinv;
        destruct (Context.sendWhatsAppInvoice w state sb amount type pl q) as [actions shown]
      end;
      cbn [snd] in Hinv; cbn [Context.effects]; rewrite Hinv; reflexivity.
  - intros. eapply handleSubmit_quantity. eassumption.
  - intros. reflexivity.
Qed.

(** A placement without a quantity. *)
Lemma placement_quantity_witness :
  List.map (fun inv => (Invoice.quantity inv, Invoice.profitLoss inv))
           (Context.invoices
              (Context.effects
                 (Context.placeBid Sample.world (Sample.stateWith Sample.liveAuction)
                    Sample.store 151%Q buy None)))
  = [(10, Context.profitLoss buy 150%Q 151%Q 10)].
Proof.
  exact (proj1 (placement_quantity Sample.world (Sample.stateWith Sample.liveAuction)
                  Sample.store Sample.user 151%Q buy None "b2" eq_refl eq_refl eq_refl)).
Defined.

(** C9 (as stated) fails.  A placement without a quantity uses 10, not 1;
    the bid that is created, in the state and in the store, has no
    quantity field; read back from the store its quantity is 1, not the
    10 that were used. *)
Lemma placed_bid_has_no_quantity :
  let o := Context.placeBid Sample.world (Sample.stateWith Sample.liveAuction)
             Sample.store 151%Q buy None in
  List.map Invoice.quantity (Context.invoices (Context.effects o)) = [10]
  /\ List.map (fun b => (Bid.id b, Bid.quantity b)) (Context.bids (Context.state' o))
     = [("b2", None)]
  /\ Firestore.quantity <$> (Firestore.bids (Context.store' o) !! "b2") = Some None
  /\ List.map (fun b => (Bid.id b, Bid.quantity b))
       (Firestore.subscribeToBids Sample.backend (Context.store' o) "AAPL" 50)
     = [("b2", Some 1); ("b1", Some 1)].
Proof.
  repeat split; vm_compute; reflexivity.
Qed.

(** ** Validation of the bid form *)

Lemma lt_true (a b : Q) : BidForm.lt a b = true <-> (a < b)%Q.
Proof.
  unfold BidForm.lt. rewrite Qlt_alt. destruct (a ?= b)%Q; split; congruence.
Qed.

Lemma lt_false (a b : Q) : BidForm.lt a b = false <-> (b <= a)%Q.
Proof.
  rewrite <- not_true_iff_false, lt_true. split.
  - apply Qnot_lt_le.
  - apply Qle_not_lt.
Qed.

(** The reducer changes the highest bid of the state only on
    [SET_HIGHEST_BID] and on [RESET_STATE], which clears it. *)
Lemma reducer_highestBid (botEnv : bool) (state : Context.AppState)
    (action : Context.AppAction) :
  Context.highestBid (Context.auctionReducer botEnv state action)
  = match action with
    | Context.SET_HIGHEST_BID p => p
    | Context.RESET_STATE => None
    | _ => Context.highestBid state
    end.
Proof.
  destruct action; reflexivity.
Qed.

(** No placement sets the highest bid of the state. *)
Lemma placeBid_highestBid (w : Context.World) (state : Context.AppState)
    (store : Firestore.Store) (amount : Q) (type : BidType) (quantityArg : option Z) :
  Context.highestBid (Context.state' (Context.placeBid w state store amount type quantityArg))
  = Context.highestBid state.
Proof.
  unfold Context.placeBid.
  destruct (Context.user state) as [u|]; [|reflexivity].
  destruct (negb (Context.isAuctionActive state (Firestore.now (Context.backend w))));
    [reflexivity|].
  destruct (Firestore.addBid _ _ _) as [store1 [savedBid|message]].
  - destruct (Firestore.updateUserProfitLoss _ _ _ _) as [s2 [[]|m]];
      match goal with |- context [Context.sendWhatsAppInvoice ?w ?st ?sb ?a ?t ?pl ?q] =>
        destruct (sendWhatsAppInvoice_shape w st sb a t pl q)
          as (actions & rest & ES & [-> | ->]); rewrite ES
      end; reflexivity.
  - destruct (Js.includes "permissions" message); [|reflexivity].
    match goal with |- context [Context.sendWhatsAppInvoice ?w ?st ?sb ?a ?t ?pl ?q] =>
      destruct (sendWhatsAppInvoice_shape w st sb a t pl q)
        as (actions & rest & ES & [-> | ->]); rewrite ES
    end; reflexivity.
Qed.




(** ** Invoice delivery *)

(** C7 (as amended).  For a valid phone number, delivery starts with the
    one transport that the configuration selects, in the fixed priority
    relay endpoint (when the back-end switch is on), otherwise the direct
    provider API (when the service is configured), otherwise the
    simulation.  When the relay or the provider call fails, delivery falls
    through to the simulation: the provider API is never tried after the
    relay.  The simulation waits 800 ms and returns a synthetic success,
    so every delivery to a valid number reports success.  An invalid
    number is refused before any transport is tried. *)
Theorem delivery_strategy_selection (svc : WhatsApp.Service) (net : WhatsApp.Network)
    (nowMs : Z) (phoneNumber : string) (invoice : Invoice.t) :
  let events := fst (WhatsApp.sendInvoice svc net nowMs phoneNumber invoice) in
  let response := snd (WhatsApp.sendInvoice svc net nowMs phoneNumber invoice) in
  match WhatsApp.formatPhoneNumber phoneNumber with
  | None => events = [] /\ WhatsApp.success response = false
  | Some to =>
      let simulated := [WhatsApp.Attempt WhatsApp.Simulation to; WhatsApp.Wait 800] in
      events
      = (if WhatsApp.useBackendApi svc
         then WhatsApp.Attempt WhatsApp.BackendAPI to
                :: match WhatsApp.relay net with
                   | inl _ => []
                   | inr _ => simulated
                   end
         else if WhatsApp.isConfigured svc
         then WhatsApp.Attempt WhatsApp.DirectTwilio to
                :: match WhatsApp.twilio net with
                   | inl _ => []
                   | inr _ => simulated
                   end
         else simulated)
      /\ WhatsApp.success response = true
      /\ (WhatsApp.useBackendApi svc = true ->
          ~ In WhatsApp.DirectTwilio (WhatsApp.attempts events))
      /\ (In WhatsApp.Simulation (WhatsApp.attempts events) ->
          WhatsApp.messageId response = Some ("simulated_" +:+ pretty nowMs)
          /\ exists before, events = before ++ simulated)
  end.
Proof.
  intros events response. subst events response. unfold WhatsApp.sendInvoice.
  destruct (WhatsApp.formatPhoneNumber phoneNumber) as [to|]; [|split; reflexivity].
  unfold WhatsApp.sendViaBackendAPI, WhatsApp.sendTwilioMessage, WhatsApp.simulateMessage.
  destruct (WhatsApp.useBackendApi svc).
  - destruct (WhatsApp.relay net); cbn [fst snd WhatsApp.attempts WhatsApp.success WhatsApp.messageId].
    + repeat split; try reflexivity.
      * intros _ [H|[]]. discriminate.
      * destruct H as [H|[]]. discriminate.
      * destruct H as [H|[]]. discriminate.
    + repeat split; try reflexivity.
      * intros _ [H|[H|[]]]; discriminate.
      * exists [WhatsApp.Attempt WhatsApp.BackendAPI to]. reflexivity.
  - destruct (WhatsApp.isConfigured svc).
    + destruct (WhatsApp.twilio net); cbn [fst snd WhatsApp.attempts WhatsApp.success WhatsApp.messageId].
      * repeat split; try reflexivity; try discriminate.
        { destruct H as [H|[]]. discriminate. }
        { destruct H as [H|[]]. discriminate. }
      * repeat split; try reflexivity; try discriminate.
        exists [WhatsApp.Attempt WhatsApp.DirectTwilio to]. reflexivity.
    + cbn [fst snd WhatsApp.attempts WhatsApp.success WhatsApp.messageId].
      repeat split; try reflexivity; try discriminate.
      exists []. reflexivity.
Qed.

(** Relay enabled, credentials set, no network. *)
Lemma delivery_strategy_selection_witness :
  ~ In WhatsApp.DirectTwilio
      (WhatsApp.attempts
         (fst (WhatsApp.sendInvoice Sample.bothConfigured Sample.offline 5000
                 "+91 98765 43210" Sample.invoice)))
  /\ WhatsApp.messageId
       (snd (WhatsApp.sendInvoice Sample.bothConfigured Sample.offline 5000
               "+91 98765 43210" Sample.invoice))
     = Some "simulated_5000".
Proof.
  pose proof (delivery_strategy_selection Sample.bothConfigured Sample.offline 5000
                "+91 98765 43210" Sample.invoice) as H.
  change (WhatsApp.formatPhoneNumber "+91 98765 43210")
    with (Some "whatsapp:+919876543210") in H.
  destruct H as (_ & _ & H3 & H4). split.
  - apply H3. reflexivity.
  - apply H4. vm_compute. right. left. reflexivity.
Defined.

(** C7 (as stated) fails.  With the relay enabled and the provider
    credentials set, a relay failure is followed by the simulation; the
    provider API, second in the stated order, is not tried. *)
Lemma relay_failure_skips_provider :
  WhatsApp.attempts
    (fst (WhatsApp.sendInvoice Sample.bothConfigured Sample.offline 5000 "+91 98765 43210"
            Sample.invoice))
  = [WhatsApp.BackendAPI; WhatsApp.Simulation]
  /\ WhatsApp.attempts_in_priority_order Sample.offline
     = [WhatsApp.BackendAPI; WhatsApp.DirectTwilio; WhatsApp.Simulation]
  /\ WhatsApp.attempts
       (fst (WhatsApp.sendInvoice Sample.bothConfigured Sample.offline 5000 "+91 98765 43210"
               Sample.invoice))
     <> WhatsApp.attempts_in_priority_order Sample.offline.
Proof.
  split; [vm_compute; reflexivity|]. split; [reflexivity|].
  vm_compute. discriminate.
Qed.

(** * Further properties *)

(** ** The sides of the order book *)

Lemma in_slice0 {A} (n : nat) (l : list A) (x : A) : In x (Js.slice0 n l) -> In x l.
Proof.
  unfold Js.slice0. revert n. induction l as [|y l IH]; intros [|n]; simpl; try tauto.
  intros [H|H]; [left; exact H|right; apply (IH n), H].
Qed.

Lemma length_slice0 {A} (n : nat) (l : list A) :
  length (Js.slice0 n l) = Nat.min n (length l).
Proof.
  unfold Js.slice0. revert n. induction l as [|y l IH]; intros [|n]; simpl; auto.
Qed.

Lemma in_sort {A} (cmp : A -> A -> Q) (l : list A) (x : A) :
  In x (Js.sort cmp l) <-> In x l.
Proof.
  split; apply Permutation_in; [|symmetry]; apply sort_perm.
Qed.

Lemma in_sortedBuy (bids : list Bid.t) (b : Bid.t) :
  In b (OrderBook.sortedBuy bids)
  <-> In b bids /\ OrderBook.isActiveBid b = true /\ Bid.type b = buy.
Proof.
  unfold OrderBook.sortedBuy, OrderBook.activeBids.
  rewrite in_sort, !List.filter_In. unfold OrderBook.isType.
  destruct (Bid.type b); simpl; intuition congruence.
Qed.

Lemma in_sortedSell (bids : list Bid.t) (b : Bid.t) :
  In b (OrderBook.sortedSell bids)
  <-> In b bids /\ OrderBook.isActiveBid b = true /\ Bid.type b = sell.
Proof.
  unfold OrderBook.sortedSell, OrderBook.activeBids.
  rewrite in_sort, !List.filter_In. unfold OrderBook.isType.
  destruct (Bid.type b); simpl; intuition congruence.
Qed.

(** X1.  Each side of the order book shows at most five bids; every bid on
    the buy side is a buy bid of the input that is active (status unset or
    'active'), every bid on the sell side an active sell bid; no bid is on
    both sides, and a side is empty only when the input has no active bid
    of that type. *)
Theorem order_book_sides_sound (bids : list Bid.t) :
  (length (OrderBook.buyBids bids) <= 5)%nat
  /\ (length (OrderBook.sellBids bids) <= 5)%nat
  /\ (forall b, In b (OrderBook.buyBids bids) ->
                In b bids /\ Bid.type b = buy
                /\ (Bid.status b = None \/ Bid.status b = Some active))
  /\ (forall b, In b (OrderBook.sellBids bids) ->
                In b bids /\ Bid.type b = sell
                /\ (Bid.status b = None \/ Bid.status b = Some active))
  /\ (forall b, In b (OrderBook.buyBids bids) -> ~ In b (OrderBook.sellBids bids))
  /\ (forall b, In b bids -> Bid.type b = buy -> OrderBook.isActiveBid b = true ->
                OrderBook.buyBids bids <> [])
  /\ (forall b, In b bids -> Bid.type b = sell -> OrderBook.isActiveBid b = true ->
                OrderBook.sellBids bids <> []).
Proof.
  assert (Hstatus : forall b, OrderBook.isActiveBid b = true ->
                              Bid.status b = None \/ Bid.status b = Some active).
  { intros b. unfold OrderBook.isActiveBid.
    destruct (Bid.status b) as [[| |]|]; simpl; auto; discriminate. }
  assert (Hne : forall (l : list Bid.t) b, In b l -> Js.slice0 5 l <> []).
  { intros [|x l] b Hb; [destruct Hb|discriminate]. }
  split; [|split; [|split; [|split; [|split; [|split]]]]].
  - unfold OrderBook.buyBids. rewrite length_slice0. apply Nat.le_min_l.
  - unfold OrderBook.sellBids. rewrite length_slice0. apply Nat.le_min_l.
  - intros b Hb. apply in_slice0, in_sortedBuy in Hb. destruct Hb as (H1 & H2 & H3). auto.
  - intros b Hb. apply in_slice0, in_sortedSell in Hb. destruct Hb as (H1 & H2 & H3). auto.
  - intros b Hb Hs. apply in_slice0, in_sortedBuy in Hb. apply in_slice0, in_sortedSell in Hs.
    destruct Hb as (_ & _ & Hb). destruct Hs as (_ & _ & Hs). congruence.
  - intros b Hb Ht Ha. apply (Hne _ b). apply in_sortedBuy. auto.
  - intros b Hb Ht Ha. apply (Hne _ b). apply in_sortedSell. auto.
Qed.

(** The five bids of the sample book: the cancelled bid is on no side. *)
Lemma order_book_sides_sound_witness :
  In Scenario.buyHigh Scenario.book
  /\ Bid.type Scenario.buyHigh = buy
  /\ ~ In Scenario.buyHigh (OrderBook.sellBids Scenario.book)
  /\ OrderBook.buyBids Scenario.book <> [].
Proof.
  destruct (order_book_sides_sound Scenario.book) as (_ & _ & H3 & _ & H5 & H6 & _).
  assert (Hin : In Scenario.buyHigh (OrderBook.buyBids Scenario.book))
    by (vm_compute; left; reflexivity).
  destruct (H3 _ Hin) as (H1 & H2 & _).
  split; [exact H1|]. split; [exact H2|]. split; [exact (H5 _ Hin)|].
  apply (H6 Scenario.buyHigh H1 H2). reflexivity.
Defined.

Lemma head_of_sorted {A} (R : A -> A -> Prop) (x y : A) (l : list A) :
  StronglySorted R (x :: l) -> In y l -> R x y.
Proof.
  intros H Hy. inversion H as [|? ? _ Hall]; subst.
  rewrite List.Forall_forall in Hall. apply Hall, Hy.
Qed.

(** X2.  The first bid of the buy side carries the highest amount of all
    active buy bids of the input, also of those beyond the five that are
    shown, and the first bid of the sell side the lowest amount of all
    active sell bids. *)
Theorem order_book_best_prices (bids : list Bid.t) (best : Bid.t) (rest : list Bid.t) :
  (OrderBook.buyBids bids = best :: rest ->
   forall b, In b bids -> Bid.type b = buy -> OrderBook.isActiveBid b = true ->
             (Bid.amount b <= Bid.amount best)%Q)
  /\ (OrderBook.sellBids bids = best :: rest ->
      forall b, In b bids -> Bid.type b = sell -> OrderBook.isActiveBid b = true ->
                (Bid.amount best <= Bid.amount b)%Q).
Proof.
  split.
  - intros E b Hb Ht Ha.
    assert (Hin : In b (OrderBook.sortedBuy bids)) by (apply in_sortedBuy; auto).
    pose proof (sortedBuy_sorted bids) as Hs.
    unfold OrderBook.buyBids, Js.slice0 in E.
    destruct (OrderBook.sortedBuy bids) as [|x l]; [discriminate|].
    simpl in E. injection E as -> _.
    destruct Hin as [<-|Hin]; [apply Qle_refl|].
    apply (head_of_sorted _ _ _ _ Hs Hin).
  - intros E b Hb Ht Ha.
    assert (Hin : In b (OrderBook.sortedSell bids)) by (apply in_sortedSell; auto).
    pose proof (sortedSell_sorted bids) as Hs.
    unfold OrderBook.sellBids, Js.slice0 in E.
    destruct (OrderBook.sortedSell bids) as [|x l]; [discriminate|].
    simpl in E. injection E as -> _.
    destruct Hin as [<-|Hin]; [apply Qle_refl|].
    apply (head_of_sorted _ _ _ _ Hs Hin).
Qed.

(** In the sample book the best bid is 153 and the best ask 155. *)
Lemma order_book_best_prices_witness :
  (Bid.amount Scenario.buyLow <= Bid.amount Scenario.buyHigh)%Q
  /\ (Bid.amount Scenario.sellLow <= Bid.amount Scenario.sellHigh)%Q.
Proof.
  split.
  - apply (proj1 (order_book_best_prices Scenario.book Scenario.buyHigh [Scenario.buyLow])
             eq_refl Scenario.buyLow); [left; reflexivity|reflexivity|reflexivity].
  - apply (proj2 (order_book_best_prices Scenario.book Scenario.sellLow [Scenario.sellHigh])
             eq_refl Scenario.sellHigh); [right; left; reflexivity|reflexivity|reflexivity].
Defined.

(** X3.  The spread of the depth view is the binary64 difference of the
    lowest active ask and the highest active bid of the input: of all
    pairs of an active sell bid and an active buy bid that pair has the
    smallest gap, which may be negative.  When one side has no active bid
    the spread is the number 0.  The difference is rounded: the spread
    between 154.89 and 1560.46 is 1405.5700000000002, not 1405.57. *)
Theorem spread_is_best_ask_minus_best_bid (bids : list Bid.t) :
  (forall b s,
     In b bids -> Bid.type b = buy -> OrderBook.isActiveBid b = true ->
     In s bids -> Bid.type s = sell -> OrderBook.isActiveBid s = true ->
     exists b0 s0,
       In b0 bids /\ Bid.type b0 = buy /\ OrderBook.isActiveBid b0 = true
       /\ In s0 bids /\ Bid.type s0 = sell /\ OrderBook.isActiveBid s0 = true
       /\ OrderBookDepth.spread bids
          = Double.sub (Double.ofQ (Bid.amount s0)) (Double.ofQ (Bid.amount b0))
       /\ (Bid.amount b <= Bid.amount b0)%Q
       /\ (Bid.amount s0 <= Bid.amount s)%Q)
  /\ ((forall b, In b bids -> OrderBook.isActiveBid b = true -> Bid.type b = sell)
      \/ (forall b, In b bids -> OrderBook.isActiveBid b = true -> Bid.type b = buy) ->
      OrderBookDepth.spread bids = S754_zero false)
  /\ Double.value (OrderBookDepth.spread [Scenario.askHigh; Scenario.bidLow])
     = (3090881117306225 # 2199023255552)%Q
  /\ ~ (Double.value (OrderBookDepth.spread [Scenario.askHigh; Scenario.bidLow])
        == Double.number (140557 # 100))%Q.
Proof.
  split; [|split; [|split; [vm_compute; reflexivity|vm_compute; discriminate]]];
    unfold OrderBookDepth.spread, OrderBookDepth.buyBids, OrderBookDepth.sellBids, Js.slice0;
    pose proof (sortedBuy_sorted bids) as Hsb; pose proof (sortedSell_sorted bids) as Hss;
    pose proof (in_sortedBuy bids) as Hib; pose proof (in_sortedSell bids) as His.
  - intros b s Hb Htb Hab Hs Hts Has.
    assert (Inb : In b (OrderBook.sortedBuy bids)) by (apply Hib; auto).
    assert (Ins : In s (OrderBook.sortedSell bids)) by (apply His; auto).
    destruct (OrderBook.sortedBuy bids) as [|b0 lb]; [destruct Inb|].
    destruct (OrderBook.sortedSell bids) as [|s0 ls]; [destruct Ins|].
    simpl. exists b0, s0.
    destruct (proj1 (Hib b0) (or_introl eq_refl)) as (? & ? & ?).
    destruct (proj1 (His s0) (or_introl eq_refl)) as (? & ? & ?).
    repeat split; auto.
    + destruct Inb as [<-|Inb]; [apply Qle_refl|apply (head_of_sorted _ _ _ _ Hsb Inb)].
    + destruct Ins as [<-|Ins]; [apply Qle_refl|apply (head_of_sorted _ _ _ _ Hss Ins)].
  - intros [Hall|Hall].
    + destruct (OrderBook.sortedBuy bids) as [|b0 lb]; [reflexivity|].
      destruct (proj1 (Hib b0) (or_introl eq_refl)) as (H1 & H2 & H3).
      specialize (Hall b0 H1 H2). congruence.
    + destruct (OrderBook.sortedBuy bids) as [|b0 lb]; [reflexivity|].
      destruct (OrderBook.sortedSell bids) as [|s0 ls]; [reflexivity|].
      destruct (proj1 (His s0) (or_introl eq_refl)) as (H1 & H2 & H3).
      specialize (Hall s0 H1 H2). congruence.
Qed.

(** The sample book: best ask 155, best bid 153, spread 2. *)
Lemma spread_is_best_ask_minus_best_bid_witness :
  (exists b0 s0,
     OrderBookDepth.spread Scenario.book
     = Double.sub (Double.ofQ (Bid.amount s0)) (Double.ofQ (Bid.amount b0))
     /\ (Bid.amount Scenario.buyLow <= Bid.amount b0)%Q
     /\ (Bid.amount s0 <= Bid.amount Scenario.sellHigh)%Q)
  /\ OrderBookDepth.spread [Scenario.buyLow; Scenario.withdrawn] = S754_zero false.
Proof.
  split.
  - destruct (proj1 (spread_is_best_ask_minus_best_bid Scenario.book)
                Scenario.buyLow Scenario.sellHigh) as (b0 & s0 & H);
      try reflexivity; [vm_compute; tauto|vm_compute; tauto|].
    exists b0, s0. tauto.
  - apply (proj1 (proj2 (spread_is_best_ask_minus_best_bid [Scenario.buyLow; Scenario.withdrawn]))).
    right. intros b [<-|[<-|[]]]; [reflexivity|discriminate].
Defined.

(** ** Leaderboard and history *)

Lemma size_list_to_set_le (l : list string) :
  (size (list_to_set l : gset string) <= length l)%nat.
Proof.
  induction l as [|x l IH].
  - rewrite list_to_set_nil, size_empty. reflexivity.
  - rewrite list_to_set_cons, size_union_alt, size_singleton. simpl.
    assert (Hle : (size ((list_to_set l : gset string) ∖ {[x]})
                   <= size (list_to_set l : gset string))%nat).
    { apply subseteq_size. apply subseteq_difference_l. reflexivity. }
    lia.
Qed.

Lemma in_topBids (bids : list Bid.t) (b : Bid.t) :
  In b (Js.sort TopBids.compare (TopBids.activeBids bids))
  <-> In b bids /\ Bid.status b <> Some cancelled.
Proof.
  unfold TopBids.activeBids. rewrite in_sort, List.filter_In. unfold TopBids.notCancelled.
  destruct (Bid.status b) as [[| |]|]; intuition congruence.
Qed.

(** X4.  The leaderboard has at most fifteen entries, each a bid of the
    input that is not cancelled (executed bids stay on it); its first entry
    has the highest amount of all bids that are not cancelled; and the
    number of distinct bidders it reports is at most the number of its
    entries and at least one when there is an entry. *)
Theorem leaderboard_bounds (bids : list Bid.t) :
  (length (TopBids.topBids bids) <= 15)%nat
  /\ (forall b, In b (TopBids.topBids bids) -> In b bids /\ Bid.status b <> Some cancelled)
  /\ (forall first rest b,
        TopBids.topBids bids = first :: rest ->
        In b bids -> Bid.status b <> Some cancelled ->
        (Bid.amount b <= Bid.amount first)%Q)
  /\ (TopBidsStats.uniqueBidders bids <= length (TopBids.topBids bids))%nat
  /\ (TopBids.topBids bids <> [] -> (1 <= TopBidsStats.uniqueBidders bids)%nat).
Proof.
  split; [|split; [|split; [|split]]].
  - unfold TopBids.topBids. rewrite length_slice0. apply Nat.le_min_l.
  - intros b Hb. apply in_slice0, in_topBids in Hb. exact Hb.
  - intros first rest b E Hb Hs.
    assert (Hin : In b (Js.sort TopBids.compare (TopBids.activeBids bids)))
      by (apply in_topBids; auto).
    assert (Hsorted : StronglySorted TopBids.priceTimePriority
                        (Js.sort TopBids.compare (TopBids.activeBids bids))).
    { apply sorted_by; [apply compare_keeps|apply priceTimePriority_total
                       |apply priceTimePriority_trans]. }
    unfold TopBids.topBids, Js.slice0 in E.
    destruct (Js.sort TopBids.compare (TopBids.activeBids bids)) as [|x l]; [discriminate|].
    simpl in E. injection E as -> _.
    destruct Hin as [<-|Hin]; [apply Qle_refl|].
    destruct (head_of_sorted _ _ _ _ Hsorted Hin) as [H|[H _]]; lra.
  - unfold TopBidsStats.uniqueBidders.
    etransitivity; [apply size_list_to_set_le|]. rewrite length_map. reflexivity.
  - unfold TopBidsStats.uniqueBidders.
    destruct (TopBids.topBids bids) as [|x l]; [congruence|]. intros _.
    change (List.map Bid.userId (x :: l)) with (Bid.userId x :: List.map Bid.userId l).
    rewrite list_to_set_cons, size_union_alt, size_singleton. lia.
Qed.

(** The sample book: four entries by three bidders, 158 on top. *)
Lemma leaderboard_bounds_witness :
  (Bid.amount Scenario.buyHigh <= Bid.amount Scenario.sellHigh)%Q
  /\ Bid.status Scenario.sellLow <> Some cancelled
  /\ (1 <= TopBidsStats.uniqueBidders Scenario.book)%nat.
Proof.
  destruct (leaderboard_bounds Scenario.book) as (_ & H2 & H3 & _ & H5).
  split; [|split].
  - apply (H3 Scenario.sellHigh [Scenario.sellLow; Scenario.buyHigh; Scenario.buyLow]).
    + reflexivity.
    + vm_compute. tauto.
    + discriminate.
  - apply (H2 Scenario.sellLow). vm_compute. tauto.
  - apply H5. discriminate.
Defined.

Lemma byTimeDesc_keeps (a b : Bid.t) :
  Js.keeps BidHistory.byTimeDesc a b <-> Bid.timestamp b <= Bid.timestamp a.
Proof.
  rewrite keeps_le. unfold BidHistory.byTimeDesc. apply inject_Z_sub_le.
Qed.

Lemma sorted_split {A} (R : A -> A -> Prop) (n : nat) (l : list A) (x y : A) :
  StronglySorted R l -> In x (firstn n l) -> In y (skipn n l) -> R x y.
Proof.
  intros H. revert n. induction H as [|z l Hl IH Hz]; intros n Hx Hy.
  - destruct n; destruct Hx.
  - destruct n as [|n]; [destruct Hx|]. simpl in Hx, Hy.
    destruct Hx as [<-|Hx].
    + rewrite List.Forall_forall in Hz. apply Hz.
      rewrite <- (firstn_skipn n l). apply in_or_app. right. exact Hy.
    + apply (IH n); assumption.
Qed.

(** X5.  The history lists at most twenty bids, latest first, all of them
    bids of the input that pass the selected filter; it never filters on
    status, so cancelled bids are listed.  A bid that passes the filter
    and is left out is no later than any bid that is listed: the list is
    cut to the twenty latest. *)
Theorem history_lists_latest_twenty (showUserOnly : bool) (currentUserId : option string)
    (f : BidHistory.FilterType) (bids : list Bid.t) :
  let shown := BidHistory.filteredBids showUserOnly currentUserId f bids in
  (length shown <= 20)%nat
  /\ StronglySorted (fun a b => Bid.timestamp b <= Bid.timestamp a) shown
  /\ (forall b, In b shown ->
                In b bids /\ BidHistory.keep showUserOnly currentUserId f b = true)
  /\ (forall b s, In b bids -> BidHistory.keep showUserOnly currentUserId f b = true ->
                  ~ In b shown -> In s shown -> Bid.timestamp b <= Bid.timestamp s)
  /\ (forall b s, BidHistory.keep showUserOnly currentUserId f b
                  = BidHistory.keep showUserOnly currentUserId f (Bid.with_status b s)).
Proof.
  intros shown. subst shown. unfold BidHistory.filteredBids.
  set (kept := List.filter (BidHistory.keep showUserOnly currentUserId f) bids).
  assert (Hsorted : StronglySorted (fun a b => Bid.timestamp b <= Bid.timestamp a)
                      (Js.sort BidHistory.byTimeDesc kept)).
  { apply sorted_by; [apply byTimeDesc_keeps|intros; lia|intros; lia]. }
  split; [|split; [|split; [|split]]].
  - rewrite length_slice0. apply Nat.le_min_l.
  - apply StronglySorted_slice0, Hsorted.
  - intros b Hb. apply in_slice0, in_sort in Hb. apply List.filter_In in Hb. exact Hb.
  - intros b s Hb Hk Hout Hs.
    assert (Hin : In b (Js.sort BidHistory.byTimeDesc kept))
      by (apply in_sort, List.filter_In; auto).
    rewrite <- (firstn_skipn 20 (Js.sort BidHistory.byTimeDesc kept)) in Hin.
    apply in_app_or in Hin. destruct Hin as [Hin|Hin]; [contradiction|].
    apply (sorted_split _ 20 _ s b Hsorted Hs Hin).
  - intros b s. reflexivity.
Qed.

(** The sample book, all bids: the cancelled bid, the latest, heads the
    list. *)
Lemma history_lists_latest_twenty_witness :
  In Scenario.withdrawn Scenario.book
  /\ Bid.timestamp Scenario.buyLow <= Bid.timestamp Scenario.withdrawn.
Proof.
  destruct (history_lists_latest_twenty false None BidHistory.all Scenario.book)
    as (_ & H2 & H3 & _).
  assert (Hin : In Scenario.withdrawn
                  (BidHistory.filteredBids false None BidHistory.all Scenario.book))
    by (vm_compute; tauto).
  split; [exact (proj1 (H3 _ Hin))|].
  change (BidHistory.filteredBids false None BidHistory.all Scenario.book)
    with [Scenario.withdrawn; Scenario.sellHigh; Scenario.sellLow; Scenario.buyHigh;
          Scenario.buyLow] in H2.
  apply (head_of_sorted _ _ _ _ H2). vm_compute. tauto.
Defined.

(** ** Ages and the clock face *)

(** X6.  For a bid that is not from the future the age label shows the
    age rounded down in the largest of hours, minutes and seconds that
    gives a number above zero: the label stands for an interval of one
    unit that contains the true age, minutes and seconds stay below 60,
    and an age under one second reads 0 seconds.  A timestamp in the
    future is labelled with a negative number of seconds. *)
Theorem time_ago_rounds_down (nowMs timestamp : Z) :
  let value := fst (TimeAgo.parts nowMs timestamp) in
  let unit := snd (TimeAgo.parts nowMs timestamp) in
  (timestamp <= nowMs ->
   value * TimeAgo.millis unit <= nowMs - timestamp < (value + 1) * TimeAgo.millis unit
   /\ 0 <= value
   /\ match unit with
      | TimeAgo.Seconds => value < 60
      | TimeAgo.Minutes => 1 <= value < 60
      | TimeAgo.Hours => 1 <= value
      | TimeAgo.Days => False
      end)
  /\ (nowMs < timestamp -> unit = TimeAgo.Seconds /\ value < 0).
Proof.
  unfold TimeAgo.parts. cbv zeta.
  destruct (0 <? (nowMs - timestamp) / 1000 / 60 / 60) eqn:Eh;
    [|destruct (0 <? (nowMs - timestamp) / 1000 / 60) eqn:Em];
    cbn [fst snd TimeAgo.millis];
    rewrite ?Z.ltb_lt, ?Z.ltb_ge in *;
    (split; [intros Hle|intros Hlt]); try (split; [reflexivity|]);
    Z.div_mod_to_equations; lia.
Qed.

(** A bid placed 125 seconds ago reads 2 minutes. *)
Lemma time_ago_rounds_down_witness :
  TimeAgo.getTimeAgo 200000 75000 = "2m ago"
  /\ 2 * 60000 <= 200000 - 75000 < 3 * 60000.
Proof.
  split; [reflexivity|].
  exact (proj1 (proj1 (time_ago_rounds_down 200000 75000) ltac:(lia))).
Defined.

Lemma remaining_thresholds (nowMs endTime k : Z) :
  0 <= k -> (Timer.remaining nowMs endTime <= k <-> endTime - nowMs < (k + 1) * 1000).
Proof.
  intros Hk. unfold Timer.remaining. Z.div_mod_to_equations. lia.
Qed.

Lemma running_timer_state (nowMs endTime : Z) :
  Timer.state true nowMs endTime
  = if endTime - nowMs <? 61000 then Timer.Critical
    else if endTime - nowMs <? 301000 then Timer.Warning
    else Timer.Normal.
Proof.
  pose proof (remaining_thresholds nowMs endTime 60 ltac:(lia)) as H60.
  pose proof (remaining_thresholds nowMs endTime 300 ltac:(lia)) as H300.
  unfold Timer.state, Timer.isCritical, Timer.isWarning. cbn [negb].
  destruct (Z.ltb_spec (endTime - nowMs) 61000);
    destruct (Z.ltb_spec (endTime - nowMs) 301000);
    destruct (Z.leb_spec (Timer.remaining nowMs endTime) 60);
    destruct (Z.leb_spec (Timer.remaining nowMs endTime) 300);
    destruct (Z.ltb_spec 60 (Timer.remaining nowMs endTime));
    cbn [andb]; try reflexivity; lia.
Qed.

(** X7.  A running timer is in its final-minute state exactly while less
    than 61 seconds are left on the clock, in its warning state exactly
    from 61 seconds to less than 301 seconds, and in its normal state from
    301 seconds on; the warning and critical flags are never set together.
    A timer that is not active is in the ended state whatever the clock. *)
Theorem timer_state_thresholds (nowMs endTime : Z) :
  (Timer.state true nowMs endTime = Timer.Critical <-> endTime - nowMs < 61000)
  /\ (Timer.state true nowMs endTime = Timer.Warning
      <-> 61000 <= endTime - nowMs < 301000)
  /\ (Timer.state true nowMs endTime = Timer.Normal <-> 301000 <= endTime - nowMs)
  /\ Timer.state true nowMs endTime <> Timer.Ended
  /\ Timer.state false nowMs endTime = Timer.Ended
  /\ Timer.isWarning (Timer.remaining nowMs endTime)
     && Timer.isCritical (Timer.remaining nowMs endTime) = false.
Proof.
  pose proof (remaining_thresholds nowMs endTime 60 ltac:(lia)) as H60.
  pose proof (remaining_thresholds nowMs endTime 300 ltac:(lia)) as H300.
  unfold Timer.state, Timer.isCritical, Timer.isWarning. cbn [negb].
  destruct (Timer.remaining nowMs endTime <=? 60) eqn:E60;
    destruct (Timer.remaining nowMs endTime <=? 300) eqn:E300;
    destruct (60 <? Timer.remaining nowMs endTime) eqn:E61;
    rewrite ?Z.leb_le, ?Z.leb_gt, ?Z.ltb_lt, ?Z.ltb_ge in *; cbn [andb];
    repeat split; try discriminate; try reflexivity; try lia; intros; try discriminate; lia.
Qed.

(** With exactly 61 seconds on the clock a running timer is in its
    warning state. *)
Lemma timer_state_thresholds_witness : Timer.state true 0 61000 = Timer.Warning.
Proof.
  apply (proj1 (proj2 (timer_state_thresholds 0 61000))). lia.
Defined.

Lemma isAuctionActive_iff (state : Context.AppState) (nowMs : Z) :
  Context.isAuctionActive state nowMs = true
  <-> exists a, Context.auction state = Some a
                /\ Auction.isActive a = true
                /\ 1000 <= Auction.endTime a - nowMs.
Proof.
  unfold Context.isAuctionActive, Context.getTimeRemaining.
  destruct (Context.auction state) as [a|]; [|split; [discriminate|intros (a & H & _); discriminate]].
  destruct (Auction.isActive a) eqn:Eflag; cbn [negb andb].
  - rewrite Z.ltb_lt. split.
    + intros H. exists a. split; [reflexivity|]. split; [exact Eflag|].
      Z.div_mod_to_equations. lia.
    + intros (a' & [= <-] & _ & H). Z.div_mod_to_equations. lia.
  - split; [discriminate|]. intros (a' & [= <-] & H & _). congruence.
Qed.

(** X8.  As [App] mounts it, the timer never steps back: as the clock
    advances it passes from normal to warning to critical to ended and
    never returns to an earlier state. *)
Theorem timer_never_steps_back (state : Context.AppState) (a : Auction.t)
    (earlier later : Z) :
  Context.auction state = Some a ->
  earlier <= later ->
  (TimerDisplay.urgency
     (Timer.state (Context.isAuctionActive state earlier) earlier (Auction.endTime a))
   <= TimerDisplay.urgency
        (Timer.state (Context.isAuctionActive state later) later (Auction.endTime a)))%nat.
Proof.
  intros Ha Hle.
  destruct (Context.isAuctionActive state later) eqn:El.
  - assert (Ee : Context.isAuctionActive state earlier = true).
    { apply isAuctionActive_iff. apply isAuctionActive_iff in El.
      destruct El as (a' & H1 & H2 & H3). exists a'. repeat split; auto.
      rewrite Ha in H1. injection H1 as <-. lia. }
    rewrite Ee.
    rewrite !running_timer_state.
    destruct (Z.ltb_spec (Auction.endTime a - earlier) 61000);
      destruct (Z.ltb_spec (Auction.endTime a - earlier) 301000);
      destruct (Z.ltb_spec (Auction.endTime a - later) 61000);
      destruct (Z.ltb_spec (Auction.endTime a - later) 301000);
      cbn [TimerDisplay.urgency]; lia.
  - cbn [Timer.state negb TimerDisplay.urgency].
    destruct (Timer.state _ earlier _); simpl; lia.
Qed.

(** The live sample auction, four minutes and one second before its end. *)
Lemma timer_never_steps_back_witness :
  (TimerDisplay.urgency
     (Timer.state (Context.isAuctionActive (Sample.stateWith Sample.liveAuction) 5000) 5000 300000)
   <= TimerDisplay.urgency
        (Timer.state (Context.isAuctionActive (Sample.stateWith Sample.liveAuction) 299500)
           299500 300000))%nat.
Proof.
  apply (timer_never_steps_back (Sample.stateWith Sample.liveAuction) Sample.liveAuction
           5000 299500 eq_refl).
  lia.
Defined.

(** Read at one instant, the badge of the auction card and the timer
    have the same colour. *)
Lemma card_colour_at_instant (state : Context.AppState) (a : Auction.t) (nowMs : Z) :
  Context.auction state = Some a ->
  TimerDisplay.cardStatus (Context.isAuctionActive state nowMs)
    (Context.getTimeRemaining state nowMs)
  = TimerDisplay.timerColor
      (Timer.state (Context.isAuctionActive state nowMs) nowMs (Auction.endTime a)).
Proof.
  intros Ha. destruct (Context.isAuctionActive state nowMs) eqn:E; [|reflexivity].
  apply isAuctionActive_iff in E. destruct E as (a' & H1 & H2 & _).
  rewrite Ha in H1. injection H1 as <-.
  unfold Context.getTimeRemaining. rewrite Ha, H2. cbn [negb].
  fold (Timer.remaining nowMs (Auction.endTime a)).
  unfold TimerDisplay.cardStatus, Timer.state, Timer.isCritical, Timer.isWarning. cbn [negb].
  destruct (Timer.remaining nowMs (Auction.endTime a) <=? 60) eqn:E60; [reflexivity|].
  destruct (Timer.remaining nowMs (Auction.endTime a) <=? 300) eqn:E300; simpl.
  - apply Z.leb_gt in E60. apply Z.ltb_lt in E60. rewrite E60. reflexivity.
  - reflexivity.
Qed.

(** X9.  The badge of the auction card shows a colour of the moment at
    which [App] rendered it.  [App] reads the clock for [timeRemaining]
    and then again for [isActive]; the badge has the colour that the
    timer has when its flag and its clock are read at the first of these
    instants while the auction is still active at the second, and at the
    second otherwise.  The card does not follow the clock afterwards,
    while the timer reads it again every second: a card rendered with 301
    seconds left is green and stays so when the timer, one second later,
    turns yellow. *)
Theorem card_badge_shows_render_time (state : Context.AppState) (a : Auction.t)
    (first second : Z) :
  Context.auction state = Some a ->
  first <= second ->
  let live t :=
    TimerDisplay.timerColor
      (Timer.state (Context.isAuctionActive state t) t (Auction.endTime a)) in
  TimerDisplay.cardStatus (Context.isAuctionActive state second)
    (Context.getTimeRemaining state first)
  = (if Context.isAuctionActive state second then live first else live second)
  /\ TimerDisplay.cardStatus
       (Context.isAuctionActive (Sample.stateWith Scenario.longAuction) 299000)
       (Context.getTimeRemaining (Sample.stateWith Scenario.longAuction) 299000)
     = TimerDisplay.Green
  /\ TimerDisplay.timerColor
       (Timer.state (Context.isAuctionActive (Sample.stateWith Scenario.longAuction) 299000)
          300000 (Auction.endTime Scenario.longAuction))
     = TimerDisplay.Yellow.
Proof.
  intros Ha Hle live. split; [|split; reflexivity].
  destruct (Context.isAuctionActive state second) eqn:E2;
    [|subst live; cbv beta; rewrite E2; reflexivity].
  assert (E1 : Context.isAuctionActive state first = true).
  { apply isAuctionActive_iff. apply isAuctionActive_iff in E2.
    destruct E2 as (a' & H1 & H2 & H3). exists a'. repeat split; auto. lia. }
  subst live. cbv beta. rewrite <- (card_colour_at_instant state a first Ha), E1. reflexivity.
Qed.

(** The live sample auction rendered at its start: the badge is yellow,
    as the timer is then. *)
Lemma card_badge_shows_render_time_witness :
  TimerDisplay.cardStatus (Context.isAuctionActive (Sample.stateWith Sample.liveAuction) 5)
    (Context.getTimeRemaining (Sample.stateWith Sample.liveAuction) 0)
  = TimerDisplay.Yellow.
Proof.
  rewrite (proj1 (card_badge_shows_render_time (Sample.stateWith Sample.liveAuction)
                    Sample.liveAuction 0 5 eq_refl ltac:(lia))).
  reflexivity.
Defined.

Lemma pretty_N_go_leading (x : N) (s : string) :
  (0 < x)%N -> exists c r, pretty_N_go x s = String c r /\ c <> "0"%char.
Proof.
  revert s. induction (N.lt_wf_0 x) as [x _ IH]; intros s Hx.
  rewrite pretty_N_go_step by exact Hx.
  destruct (decide (x < 10)%N) as [Hsmall|Hbig].
  - rewrite N.div_small, pretty_N_go_0 by exact Hsmall.
    rewrite N.mod_small by exact Hsmall.
    eexists; eexists; split; [reflexivity|].
    assert (x = 1 \/ x = 2 \/ x = 3 \/ x = 4 \/ x = 5 \/ x = 6 \/ x = 7 \/ x = 8 \/ x = 9)%N
      as Hcases by lia.
    destruct Hcases as [->|[->|[->|[->|[->|[->|[->|[->| ->]]]]]]]]; discriminate.
  - apply IH.
    + apply N.div_lt; lia.
    + apply N.div_str_pos. lia.
Qed.

Lemma pretty_Z_leading (z : Z) :
  0 < z -> exists c r, pretty z = String c r /\ c <> "0"%char.
Proof.
  intros Hz. destruct z as [|p|p]; try lia.
  unfold pretty, pretty_Z, pretty, pretty_positive, pretty, pretty_N.
  destruct (decide (N.pos p = 0%N)) as [E|_]; [discriminate E|].
  apply pretty_N_go_leading. lia.
Qed.

(** X10.  For a number of seconds that is not negative, the three fields
    of the clock face recompose to it: hours times 3600 plus minutes times
    60 plus seconds, with minutes and seconds below 60; the hours field
    reads '00' exactly when less than an hour is left. *)
Theorem clock_face_recomposes (seconds : Z) :
  0 <= seconds ->
  let '(h, m, s) := TimerDisplay.timeParts seconds in
  h * 3600 + m * 60 + s = seconds
  /\ 0 <= h /\ 0 <= m < 60 /\ 0 <= s < 60
  /\ (TimerDisplay.hours (TimerDisplay.formatTime seconds) = "00" <-> seconds < 3600).
Proof.
  intros Hs. unfold TimerDisplay.formatTime, TimerDisplay.timeParts.
  cbn [TimerDisplay.hours].
  rewrite !Z.rem_mod_nonneg by lia.
  split; [Z.div_mod_to_equations; lia|].
  split; [Z.div_mod_to_equations; lia|].
  split; [Z.div_mod_to_equations; lia|].
  split; [Z.div_mod_to_equations; lia|].
  assert (Hh : 0 <= seconds / 3600) by (Z.div_mod_to_equations; lia).
  split.
  - intros H.
    destruct (decide (seconds / 3600 = 0)) as [E|E]; [Z.div_mod_to_equations; lia|].
    exfalso.
    destruct (pretty_Z_leading (seconds / 3600) ltac:(lia)) as (c & r & Hp & Hc).
    rewrite Hp in H. unfold TimerDisplay.padStart2 in H.
    destruct r; injection H; congruence.
  - intros H. rewrite Z.div_small by lia. reflexivity.
Qed.

(** One hour, one minute and five seconds. *)
Lemma clock_face_recomposes_witness :
  1 * 3600 + 1 * 60 + 5 = 3665
  /\ TimerDisplay.formatTime 3665 = TimerDisplay.mkTime "01" "01" "05".
Proof.
  split; [|reflexivity].
  exact (proj1 (clock_face_recomposes 3665 ltac:(lia))).
Defined.

(** ** The reducer *)

Lemma map_update_status (bidId : string) (s : BidStatus) (l : list Bid.t) :
  List.map (fun b => Bid.with_status b None)
    (List.map (fun bid => if String.eqb (Bid.id bid) bidId
                          then Context.applyUpdates bid (Context.mkBidUpdates (Some s))
                          else bid) l)
  = List.map (fun b => Bid.with_status b None) l.
Proof.
  induction l as [|b l IH]; simpl; [reflexivity|].
  rewrite IH. destruct (String.eqb (Bid.id b) bidId); reflexivity.
Qed.

Lemma map_update_absent (bidId : string) (u : Context.BidUpdates) (l : list Bid.t) :
  (forall b, In b l -> Bid.id b <> bidId) ->
  List.map (fun bid => if String.eqb (Bid.id bid) bidId
                       then Context.applyUpdates bid u else bid) l
  = l.
Proof.
  induction l as [|b l IH]; simpl; intros H; [reflexivity|].
  rewrite IH by (intros b' Hb'; apply H; right; exact Hb').
  destruct (String.eqb (Bid.id b) bidId) eqn:E; [|reflexivity].
  apply String.eqb_eq in E. exfalso. apply (H b); [left; reflexivity|exact E].
Qed.

Lemma sorted_map {A} (R : A -> A -> Prop) (f : A -> A) (l : list A) :
  (forall x y, R x y -> R (f x) (f y)) ->
  StronglySorted R l -> StronglySorted R (List.map f l).
Proof.
  intros Hf H. induction H as [|x l Hl IH Hx]; simpl; constructor; auto.
  rewrite List.Forall_forall in *. intros y Hy.
  apply List.in_map_iff in Hy. destruct Hy as (y0 & <- & Hy0). apply Hf, Hx, Hy0.
Qed.

(** X11.  [UPDATE_BID] with a status changes nothing but the status of
    the bids that carry the given id: the list keeps its length and order
    and every other field of every bid, bids with another id stay as they
    are, a list sorted latest first stays so, and when no bid carries the
    id the state is unchanged. *)
Theorem update_bid_changes_status_only (botEnv : bool) (state : Context.AppState)
    (bidId : string) (s : BidStatus) :
  let state1 :=
    Context.auctionReducer botEnv state
      (Context.UPDATE_BID bidId (Context.mkBidUpdates (Some s))) in
  List.map (fun b => Bid.with_status b None) (Context.bids state1)
  = List.map (fun b => Bid.with_status b None) (Context.bids state)
  /\ (forall b, In b (Context.bids state1) -> Bid.id b = bidId -> Bid.status b = Some s)
  /\ (forall b, In b (Context.bids state) -> Bid.id b <> bidId -> In b (Context.bids state1))
  /\ (StronglySorted (fun a b => Bid.timestamp b <= Bid.timestamp a) (Context.bids state) ->
      StronglySorted (fun a b => Bid.timestamp b <= Bid.timestamp a) (Context.bids state1))
  /\ ((forall b, In b (Context.bids state) -> Bid.id b <> bidId) -> state1 = state)
  /\ Context.set_bids state1 (Context.bids state) = state.
Proof.
  cbn [Context.auctionReducer Context.set_bids Context.bids].
  split; [apply map_update_status|].
  split; [|split; [|split; [|split]]].
  - intros b Hb Hid. apply List.in_map_iff in Hb. destruct Hb as (b0 & E & _).
    destruct (String.eqb (Bid.id b0) bidId) eqn:Eid.
    + subst b. reflexivity.
    + subst b. apply String.eqb_neq in Eid. contradiction.
  - intros b Hb Hid. apply List.in_map_iff. exists b. split; [|exact Hb].
    apply String.eqb_neq in Hid. rewrite Hid. reflexivity.
  - apply sorted_map. intros x y Hxy.
    destruct (String.eqb (Bid.id x) bidId); destruct (String.eqb (Bid.id y) bidId); exact Hxy.
  - intros Habsent. rewrite map_update_absent by exact Habsent. destruct state; reflexivity.
  - destruct state; reflexivity.
Qed.

(** Cancelling [b1] in the list of the sample state. *)
Lemma update_bid_changes_status_only_witness :
  In Scenario.buyHigh
     (Context.bids
        (Context.auctionReducer false Scenario.stateWithBids
           (Context.UPDATE_BID "b1" (Context.mkBidUpdates (Some cancelled)))))
  /\ Context.auctionReducer false Scenario.stateWithBids
       (Context.UPDATE_BID "b9" (Context.mkBidUpdates (Some cancelled)))
     = Scenario.stateWithBids.
Proof.
  split.
  - apply (proj1 (proj2 (proj2 (update_bid_changes_status_only false Scenario.stateWithBids
                                  "b1" cancelled))) Scenario.buyHigh).
    + left. reflexivity.
    + discriminate.
  - apply (proj1 (proj2 (proj2 (proj2 (proj2
             (update_bid_changes_status_only false Scenario.stateWithBids "b9" cancelled)))))).
    intros b [<-|[<-|[]]]; discriminate.
Defined.

(** X12.  [ADD_BID] loses and duplicates nothing: the new list holds the
    added bid and every previous bid exactly as often as before, in one
    more place. *)
Theorem add_bid_adds_exactly_one (botEnv : bool) (state : Context.AppState) (bid : Bid.t) :
  let state1 := Context.auctionReducer botEnv state (Context.ADD_BID bid) in
  Permutation (Context.bids state1) (bid :: Context.bids state)
  /\ length (Context.bids state1) = S (length (Context.bids state))
  /\ (forall b, In b (Context.bids state1) <-> b = bid \/ In b (Context.bids state))
  /\ Context.set_bids state1 (Context.bids state) = state.
Proof.
  cbn [Context.auctionReducer Context.set_bids Context.bids].
  pose proof (sort_perm Context.byTimestampDesc (bid :: Context.bids state)) as Hperm.
  split; [exact Hperm|]. split; [|split].
  - rewrite (Permutation_length Hperm). reflexivity.
  - intros b. rewrite in_sort. simpl. intuition congruence.
  - destruct state; reflexivity.
Qed.

(** Adding the late sample bid to the list of the sample state. *)
Lemma add_bid_adds_exactly_one_witness :
  In Scenario.buyLow
     (Context.bids
        (Context.auctionReducer false Scenario.stateWithBids (Context.ADD_BID Scenario.withdrawn))).
Proof.
  apply (proj1 (proj2 (proj2 (add_bid_adds_exactly_one false Scenario.stateWithBids
                                Scenario.withdrawn)))).
  right. right. left. reflexivity.
Defined.

(** ** The entry checks and the paths of [placeBid] *)

(** X13.  Bidding is open exactly while the auction is flagged active and
    at least one full second is left before its end time: during the last
    second the auction already counts as closed.  The seconds remaining
    are never negative and never grow as the clock advances, and a closed
    auction does not reopen. *)
Theorem bidding_closes_in_last_second (state : Context.AppState) (a : Auction.t)
    (earlier later : Z) :
  Context.auction state = Some a ->
  (Context.isAuctionActive state earlier = true
   <-> Auction.isActive a = true /\ 1000 <= Auction.endTime a - earlier)
  /\ 0 <= Context.getTimeRemaining state earlier
  /\ (earlier <= later ->
      Context.getTimeRemaining state later <= Context.getTimeRemaining state earlier)
  /\ (earlier <= later -> Context.isAuctionActive state earlier = false ->
      Context.isAuctionActive state later = false).
Proof.
  intros Ha.
  assert (Hiff : forall t, Context.isAuctionActive state t = true
                           <-> Auction.isActive a = true /\ 1000 <= Auction.endTime a - t).
  { intros t. rewrite isAuctionActive_iff. split.
    - intros (a' & H1 & H2 & H3). rewrite Ha in H1. injection H1 as <-. auto.
    - intros [H2 H3]. exists a. auto. }
  split; [apply Hiff|]. split; [|split].
  - unfold Context.getTimeRemaining. rewrite Ha.
    destruct (negb (Auction.isActive a)); lia.
  - intros Hle. unfold Context.getTimeRemaining. rewrite Ha.
    destruct (negb (Auction.isActive a)); [lia|]. Z.div_mod_to_equations. lia.
  - intros Hle Hclosed. apply not_true_is_false. intros Hopen.
    apply Hiff in Hopen. destruct Hopen as [H1 H2].
    assert (Context.isAuctionActive state earlier = true) by (apply Hiff; split; [exact H1|lia]).
    congruence.
Qed.

(** The live sample auction (end time 300000) half a second before its
    end. *)
Lemma bidding_closes_in_last_second_witness :
  Context.isAuctionActive (Sample.stateWith Sample.liveAuction) 299500 = false
  /\ Context.isAuctionActive (Sample.stateWith Sample.liveAuction) 299900 = false.
Proof.
  destruct (bidding_closes_in_last_second (Sample.stateWith Sample.liveAuction)
              Sample.liveAuction 299500 299900 eq_refl) as (_ & _ & _ & H).
  split; [reflexivity|]. apply H; [lia|reflexivity].
Defined.

Ltac placeBid_paths Hu Hact Hadd Hperm :=
  unfold Context.placeBid;
  match goal with |- context [Context.user ?st] =>
    destruct (Context.user st) as [?u|] eqn:Hu;
    [match goal with |- context [Context.isAuctionActive ?s ?t] =>
       destruct (Context.isAuctionActive s t) eqn:Hact; cbn [negb];
       [unfold Firestore.addBid;
        match goal with |- context [Firestore.addDoc ?b] =>
          destruct (Firestore.addDoc b) as [?docId|?msg] eqn:Hadd;
          [|match goal with |- context [Js.includes ?n ?h] =>
              destruct (Js.includes n h) eqn:Hperm end]
        end
       |]
     end
    |]
  end.

Ltac invoice_step :=
  match goal with |- context [Context.sendWhatsAppInvoice ?w ?st ?sb ?a ?t ?pl ?q] =>
    let actions := fresh "actions" in
    let rest := fresh "rest" in
    let ES := fresh "ES" in
    let Hactions := fresh "Hactions" in
    destruct (sendWhatsAppInvoice_shape w st sb a t pl q) as (actions & rest & ES & Hactions);
    pose proof (sendWhatsAppInvoice_invoices w st sb a t pl q) as Hinvoices;
    rewrite ES in *; cbn [snd] in Hinvoices
  end.

Lemma deliveries_events (events : list WhatsApp.Event) (rest : list Context.Effect) :
  Context.deliveries (List.map Context.Delivery events ++ rest)
  = events ++ Context.deliveries rest.
Proof.
  induction events as [|e events IH]; simpl; [reflexivity|]. rewrite IH. reflexivity.
Qed.

(** The invoice step of a placement for a signed-in user: one invoice;
    with a phone number it is what [sendInvoice] is called with, and the
    modal stays as it is; without one it opens in the modal. *)
Lemma invoice_step_delivers (w : Context.World) (state st : Context.AppState) (u : User.t)
    (savedBid : Bid.t) (amount : Q) (type : BidType) (pl : Q) (quantity : Z)
    (message : string) :
  Context.user state = Some u ->
  Context.invoiceModal st = Context.invoiceModal state ->
  let inv :=
    Invoice.mk (Stock.name (Context.stock state)) quantity amount pl
               (Firestore.now (Context.backend w)) (Context.traderName u) type
               (Stock.symbol (Context.stock state)) (Some (Bid.id savedBid)) in
  let step := Context.sendWhatsAppInvoice w state savedBid amount type pl quantity in
  let shown := snd step ++ [Context.ToastSuccess message] in
  let final :=
    Context.auctionReducer (Context.botEnv w)
      (Context.dispatchAll (Context.botEnv w) st (fst step)) (Context.SET_LOADING false) in
  Context.invoices shown = [inv]
  /\ match User.phoneNumber u with
     | Some (String c rest) =>
         Context.deliveries shown
         = fst (WhatsApp.sendInvoice (Context.whatsappService w) (Context.network w)
                  (Firestore.now (Context.backend w)) (String c rest) inv)
         /\ Context.invoiceModal final = Context.invoiceModal state
     | _ =>
         Context.deliveries shown = []
         /\ Context.invoiceModal final = Context.mkInvoiceModal true (Some inv)
     end.
Proof.
  intros Hu Hmodal inv step shown final. subst shown final step.
  rewrite (sendWhatsAppInvoice_sent w state u savedBid amount type pl quantity Hu).
  fold inv. destruct (User.phoneNumber u) as [[|c rest]|]; cbv zeta; cbn [fst snd].
  - split; [reflexivity|]. split; reflexivity.
  - split; [|split].
    + cbn [app Context.invoices]. rewrite <- List.app_assoc, invoices_deliveries.
      reflexivity.
    + cbn [app Context.deliveries]. rewrite <- List.app_assoc, deliveries_events.
      apply List.app_nil_r.
    + exact Hmodal.
  - split; [reflexivity|]. split; reflexivity.
Qed.

(** X14.  A placement dispatches its invoice exactly once when it returns
    normally (store insert accepted, or local bid after a permission
    error) and never when it is rejected.  The one invoice carries the
    price, side and quantity of the call; for a user with a phone number
    it is handed to [sendInvoice], whose events are all that the call
    sends, and for a user without one it is put into the invoice modal,
    which opens.  A rejected placement shows exactly one error toast,
    sends nothing and leaves the modal alone. *)
Theorem invoice_iff_placed (w : Context.World) (state : Context.AppState)
    (store : Firestore.Store) (amount : Q) (type : BidType) (quantityArg : option Z) :
  let o := Context.placeBid w state store amount type quantityArg in
  length (Context.invoices (Context.effects o))
  = (if succeeded (Context.result o) then 1%nat else 0%nat)
  /\ match Context.result o with
     | Ok _ =>
         exists u inv,
           Context.user state = Some u
           /\ Context.invoices (Context.effects o) = [inv]
           /\ Invoice.price inv = amount
           /\ Invoice.bidType inv = type
           /\ Invoice.quantity inv = default 10 quantityArg
           /\ match User.phoneNumber u with
              | Some (String c rest) =>
                  Context.deliveries (Context.effects o)
                  = fst (WhatsApp.sendInvoice (Context.whatsappService w) (Context.network w)
                           (Firestore.now (Context.backend w)) (String c rest) inv)
                  /\ Context.invoiceModal (Context.state' o) = Context.invoiceModal state
              | _ =>
                  Context.deliveries (Context.effects o) = []
                  /\ Context.invoiceModal (Context.state' o)
                     = Context.mkInvoiceModal true (Some inv)
              end
     | Throw _ =>
         (exists message, Context.effects o = [Context.ToastError message])
         /\ Context.deliveries (Context.effects o) = []
         /\ Context.invoiceModal (Context.state' o) = Context.invoiceModal state
     end.
Proof.
  cbv zeta. placeBid_paths Hu Hact Hadd Hperm.
  - destruct (Firestore.updateUserProfitLoss _ _ _ _) as [s2 [[]|m]];
      match goal with |- context [Context.sendWhatsAppInvoice ?w ?state ?sb ?a ?t ?pl ?q] =>
        pose proof (fun st H =>
                      invoice_step_delivers w state st u sb a t pl q
                        (Context.toUpperCase t +:+ " bid placed successfully!") Hu H) as Hstep;
        cbv zeta in Hstep;
        destruct (Context.sendWhatsAppInvoice w state sb a t pl q) as [actions shown]
      end;
      cbn [fst snd] in Hstep;
      match goal with |- context [Context.dispatchAll _ ?st ?acts] =>
        destruct (Hstep st eq_refl) as [Hinv Hsent]
      end;
      cbn [Context.effects Context.result Context.state' succeeded];
      (split; [rewrite Hinv; reflexivity|]);
      eexists; eexists; (split; [reflexivity|]); (split; [exact Hinv|]);
      (split; [reflexivity|]); (split; [reflexivity|]); (split; [reflexivity|]);
      exact Hsent.
  - match goal with |- context [Context.sendWhatsAppInvoice ?w ?state ?sb ?a ?t ?pl ?q] =>
      pose proof (fun st H =>
                    invoice_step_delivers w state st u sb a t pl q
                      (Context.toUpperCase t +:+ " bid placed (demo mode)!") Hu H) as Hstep;
      cbv zeta in Hstep;
      destruct (Context.sendWhatsAppInvoice w state sb a t pl q) as [actions shown]
    end.
    cbn [fst snd] in Hstep.
    match goal with |- context [Context.dispatchAll _ ?st ?acts] =>
      destruct (Hstep st eq_refl) as [Hinv Hsent]
    end.
    cbn [Context.effects Context.result Context.state' succeeded].
    split; [rewrite Hinv; reflexivity|].
    eexists; eexists. split; [reflexivity|]. split; [exact Hinv|].
    split; [reflexivity|]. split; [reflexivity|]. split; [reflexivity|].
    exact Hsent.
  - split; [reflexivity|]. split; [eexists; reflexivity|]. split; reflexivity.
  - split; [reflexivity|]. split; [eexists; reflexivity|]. split; reflexivity.
  - split; [reflexivity|]. split; [eexists; reflexivity|]. split; reflexivity.
Qed.

(** X15.  Once a placement has passed its checks (signed-in user, active
    auction) the loading flag is off again when it ends, whatever
    happened; the error field then holds the message of the failure, or
    nothing after a normal return.  A placement stopped by the checks leaves
    the whole state as it was. *)
Theorem placement_resets_loading (w : Context.World) (state : Context.AppState)
    (store : Firestore.Store) (amount : Q) (type : BidType) (quantityArg : option Z) :
  let o := Context.placeBid w state store amount type quantityArg in
  let passed :=
    match Context.user state with
    | Some _ => Context.isAuctionActive state (Firestore.now (Context.backend w))
    | None => false
    end in
  if passed
  then Context.loading (Context.state' o) = false
       /\ Context.error (Context.state' o)
          = match Context.result o with
            | Ok _ => None
            | Throw message => Some message
            end
  else Context.state' o = state /\ Context.store' o = store /\ succeeded (Context.result o) = false.
Proof.
  cbv zeta. placeBid_paths Hu Hact Hadd Hperm; try (repeat split; reflexivity).
  - destruct (Firestore.updateUserProfitLoss _ _ _ _) as [s2 [[]|m]];
      invoice_step; cbn [Context.state' Context.result];
      destruct Hactions as [-> | ->]; split; reflexivity.
  - invoice_step. cbn [Context.state' Context.result].
    destruct Hactions as [-> | ->]; split; reflexivity.
Qed.

(** X16.  When the store refuses the insert for any reason but
    permissions, the placement is abandoned: it throws the store's
    message (wrapped by [addBid]), writes nothing, adds no bid, leaves the
    profit/loss alone, and the only thing shown is one error toast, in
    which the wrapped message is prefixed a second time. *)
Theorem other_store_error_aborts (w : Context.World) (state : Context.AppState)
    (store : Firestore.Store) (u : User.t) (amount : Q) (type : BidType)
    (quantityArg : option Z) (msg : string) :
  Context.user state = Some u ->
  Context.isAuctionActive state (Firestore.now (Context.backend w)) = true ->
  Firestore.addDoc (Context.backend w) = inr msg ->
  Js.includes "permissions" msg = false ->
  let o := Context.placeBid w state store amount type quantityArg in
  Context.result o = Throw ("Failed to place bid: " +:+ msg)
  /\ Context.store' o = store
  /\ Context.bids (Context.state' o) = Context.bids state
  /\ Context.userProfitLoss (Context.state' o) = Context.userProfitLoss state
  /\ Context.error (Context.state' o) = Some ("Failed to place bid: " +:+ msg)
  /\ Context.effects o
     = [Context.ToastError ("Failed to place bid: Failed to place bid: " +:+ msg)].
Proof.
  intros Hu Hact Hadd Hperm. cbv zeta.
  assert (Hwrapped : Js.includes "permissions" ("Failed to place bid: " +:+ msg) = false).
  { vm_compute in Hperm |- *. exact Hperm. }
  unfold Context.placeBid. rewrite Hu, Hact. cbn [negb].
  unfold Firestore.addBid. rewrite Hadd, Hwrapped.
  repeat split; reflexivity.
Qed.

(** The store cannot be reached. *)
Lemma other_store_error_aborts_witness :
  Context.result
    (Context.placeBid Scenario.unreachableWorld (Sample.stateWith Sample.liveAuction)
       Sample.store 151%Q buy None)
  = Throw "Failed to place bid: The service is unavailable.".
Proof.
  exact (proj1 (other_store_error_aborts Scenario.unreachableWorld
                  (Sample.stateWith Sample.liveAuction) Sample.store Sample.user 151%Q buy
                  None "The service is unavailable." eq_refl eq_refl eq_refl eq_refl)).
Defined.

Lemma updateUserProfitLoss_bids (be : Firestore.Backend) (s : Firestore.Store)
    (uid : string) (delta : Q) :
  Firestore.bids (fst (Firestore.updateUserProfitLoss be s uid delta)) = Firestore.bids s.
Proof.
  unfold Firestore.updateUserProfitLoss.
  destruct (Firestore.profitWrite be); [reflexivity|].
  destruct (Firestore.users s !! uid); reflexivity.
Qed.

Lemma addBid_bids (be : Firestore.Backend) (s : Firestore.Store) (bid : Bid.t)
    (docId : string) :
  Firestore.addDoc be = inl docId ->
  Firestore.bids (fst (Firestore.addBid be s bid))
  = <[docId := Firestore.mkBidDoc (Bid.userId bid) (Bid.userName bid) (Bid.amount bid)
                 (Bid.quantity bid) (Bid.type bid) (Some (Firestore.serverTime be))
                 (Bid.stockSymbol bid) (Some active)]> (Firestore.bids s).
Proof.
  intros Hadd. unfold Firestore.addBid. rewrite Hadd. cbn [fst].
  unfold Firestore.updateAuctionStats.
  match goal with |- context [Firestore.auctions ?s !! ?k] =>
    destruct (Firestore.auctions s !! k) end; cbn [Firestore.bids];
  destruct (negb (String.eqb (Bid.userId bid) "") && negb (String.eqb (Bid.userId bid) "bot"));
  rewrite ?updateUserStats_bids; unfold Firestore.updateUserBidCount;
  try match goal with |- context [Firestore.users ?s !! ?k] =>
    destruct (Firestore.users s !! k) end; reflexivity.
Qed.

(** X17.  A placement that the store accepts is recorded on both sides.
    The store holds a document under the issued id with the user, price,
    side and symbol of the bid, status 'active' and the server's
    timestamp, and every other bid document is as before.  The state
    holds the same bid under that id, stamped with the client's clock,
    next to all bids it held before. *)
Theorem placed_bid_is_recorded (w : Context.World) (state : Context.AppState)
    (store : Firestore.Store) (u : User.t) (amount : Q) (type : BidType)
    (quantityArg : option Z) (docId : string) :
  Context.user state = Some u ->
  Context.isAuctionActive state (Firestore.now (Context.backend w)) = true ->
  Firestore.addDoc (Context.backend w) = inl docId ->
  let o := Context.placeBid w state store amount type quantityArg in
  let saved :=
    Bid.mk docId (User.uid u) (Context.traderName u) amount None type
           (Firestore.now (Context.backend w)) (Stock.symbol (Context.stock state))
           (Some active) None in
  (exists d, Firestore.bids (Context.store' o) !! docId = Some d
             /\ Firestore.userId d = User.uid u
             /\ Firestore.amount d = amount
             /\ Firestore.type d = type
             /\ Firestore.stockSymbol d = Stock.symbol (Context.stock state)
             /\ Firestore.status d = Some active
             /\ Firestore.timestamp d = Some (Firestore.serverTime (Context.backend w)))
  /\ (forall other, other <> docId ->
                    Firestore.bids (Context.store' o) !! other = Firestore.bids store !! other)
  /\ Permutation (Context.bids (Context.state' o)) (saved :: Context.bids state).
Proof.
  intros Hu Hact Hadd. cbv zeta.
  pose proof (addBid_bids (Context.backend w) store
                (Bid.mk "" (User.uid u) (Context.traderName u) amount None type
                        (Firestore.now (Context.backend w))
                        (Stock.symbol (Context.stock state)) None None) docId Hadd) as Hbids.
  unfold Context.placeBid. rewrite Hu, Hact. cbn [negb].
  destruct (addBid_accepted (Context.backend w) store
              (Bid.mk "" (User.uid u) (Context.traderName u) amount None type
                      (Firestore.now (Context.backend w))
                      (Stock.symbol (Context.stock state)) None None)
              docId Hadd) as (s1 & E & _ & _).
  rewrite E in Hbids |- *. cbn [fst] in Hbids.
  cbn [Bid.userId Bid.userName Bid.amount Bid.quantity Bid.type Bid.stockSymbol Bid.profitLoss]
    in Hbids |- *.
  match goal with |- context [Firestore.updateUserProfitLoss ?be ?s ?uid ?d] =>
    pose proof (updateUserProfitLoss_bids be s uid d) as Hkeep;
    destruct (Firestore.updateUserProfitLoss be s uid d) as [s2 [[]|m]]
  end; cbn [fst] in Hkeep; invoice_step;
    cbn [Context.store' Context.state']; rewrite Hkeep, Hbids.
  all: split; [eexists; split; [apply lookup_insert_eq|repeat split; reflexivity]|].
  all: split; [intros other Hother; apply lookup_insert_ne; congruence|].
  all: destruct Hactions as [-> | ->];
    cbn [Context.dispatchAll fold_left Context.auctionReducer Context.set_bids
         Context.set_loading Context.set_error Context.set_userProfitLoss
         Context.set_invoiceModal Context.bids];
    apply sort_perm.
Qed.

(** The first scenario: the store issues [b2]. *)
Lemma placed_bid_is_recorded_witness :
  Firestore.bids
    (Context.store'
       (Context.placeBid Sample.world (Sample.stateWith Sample.liveAuction) Sample.store
          151%Q buy None)) !! "b1"
  = Some Sample.bidDoc.
Proof.
  destruct (placed_bid_is_recorded Sample.world (Sample.stateWith Sample.liveAuction)
              Sample.store Sample.user 151%Q buy None "b2" eq_refl eq_refl eq_refl)
    as (_ & H & _).
  rewrite (H "b1") by discriminate. reflexivity.
Defined.

(** X18.  The provider's [cancelBid] has three outcomes.  Without a
    signed-in user it throws and touches nothing.  When the store refuses
    (not found, not the owner, not active) it throws the store's message,
    shows it in one error toast, and state and store stay as they were.
    When the store accepts, the bid leaves the active bids of the state,
    remains in the list marked 'cancelled', and the document in the store
    is 'cancelled'. *)
Theorem provider_cancel_outcomes (w : Context.World) (state : Context.AppState)
    (store : Firestore.Store) (bidId : string) :
  let o := Context.cancelBid w state store bidId in
  match Context.user state, Context.result o with
  | None, r =>
      r = Throw "User not authenticated"
      /\ Context.state' o = state /\ Context.store' o = store /\ Context.effects o = []
  | Some u, Throw message =>
      Firestore.cancelBid store bidId (User.uid u) = (store, Throw message)
      /\ Context.state' o = state /\ Context.store' o = store
      /\ Context.effects o = [Context.ToastError message]
  | Some u, Ok _ =>
      (forall b, In b (OrderBook.activeBids (Context.bids (Context.state' o))) ->
                 Bid.id b <> bidId)
      /\ (forall b, In b (Context.bids state) -> Bid.id b = bidId ->
                    In (Bid.with_status b (Some cancelled)) (Context.bids (Context.state' o)))
      /\ (exists d, Firestore.bids (Context.store' o) !! bidId = Some d
                    /\ Firestore.status d = Some cancelled
                    /\ Firestore.userId d = User.uid u)
  end.
Proof.
  cbv zeta. unfold Context.cancelBid.
  destruct (Context.user state) as [u|]; [|repeat split; reflexivity].
  pose proof (cancelBid_inv store bidId (User.uid u)) as Hinv.
  destruct (Firestore.cancelBid store bidId (User.uid u)) as [store1 [[]|message]] eqn:E;
    cbn [Context.result Context.state' Context.store' Context.effects].
  - destruct Hinv as [(d & H1 & H2 & H3 & E')|(msg & E' & _)]; [|discriminate E'].
    injection E' as ->.
    destruct (update_bid_cancelled (Context.botEnv w) state bidId) as [Hhidden Hlisted].
    split; [exact Hhidden|]. split; [exact Hlisted|].
    exists (Firestore.set_status d cancelled).
    rewrite updateUserStats_bids. cbn [Firestore.bids]. rewrite lookup_insert_eq. auto.
  - destruct Hinv as [(d & _ & _ & _ & E')|(msg & E' & _)]; [discriminate E'|].
    injection E' as -> ->. repeat split; reflexivity.
Qed.

(** The sample user cancels his bid [b1]; without a user nothing happens. *)
Lemma provider_cancel_outcomes_witness :
  Bid.id Scenario.buyHigh <> "b1"
  /\ In (Bid.with_status Scenario.buyLow (Some cancelled))
        (Context.bids
           (Context.state' (Context.cancelBid Sample.world Scenario.stateWithBids Sample.store "b1"))).
Proof.
  pose proof (provider_cancel_outcomes Sample.world Scenario.stateWithBids Sample.store "b1")
    as H.
  cbv zeta in H.
  change (Context.user Scenario.stateWithBids) with (Some Sample.user) in H.
  change (Context.result (Context.cancelBid Sample.world Scenario.stateWithBids Sample.store "b1"))
    with (@Ok unit tt) in H.
  destruct H as (H1 & H2 & _). split.
  - apply H1. vm_compute. left. reflexivity.
  - apply (H2 Scenario.buyLow); [right; left; reflexivity|reflexivity].
Defined.

Lemma handleSubmit_valid (bidAmount : BidForm.Field Q) (quantity : BidForm.Field Z)
    (bidType : BidType) (minimum : Q) (isActive : bool) (a : Q) (t : BidType) (q : Z) :
  BidForm.handleSubmit bidAmount quantity bidType minimum isActive = Some (a, t, q) ->
  t = bidType /\ isActive = true /\ bidAmount = BidForm.Parsed a
  /\ quantity = BidForm.Parsed q
  /\ (0 < a)%Q /\ (minimum <= a)%Q /\ (a <= 1000000)%Q /\ 1 <= q <= 10000
  /\ (Double.times a (inject_Z q) <= 50000000)%Q.
Proof.
  unfold BidForm.handleSubmit, BidForm.validateBid.
  destruct bidAmount as [| |amount]; try discriminate;
    destruct quantity as [| |qty]; try discriminate.
  - destruct (negb (BidForm.lt 0 amount)); discriminate.
  - destruct (BidForm.lt 0 amount) eqn:E0; cbn [negb]; [|discriminate].
    destruct (qty <=? 0) eqn:E1; [discriminate|].
    destruct (10000 <? qty) eqn:E2; [discriminate|].
    destruct (BidForm.lt amount minimum) eqn:E3; [discriminate|].
    destruct (BidForm.lt 1000000 amount) eqn:E4; [discriminate|].
    destruct (BidForm.lt 50000000 (Double.times amount (inject_Z qty))) eqn:E5; [discriminate|].
    destruct isActive; [|discriminate].
    intros [= <- <- <-].
    apply lt_true in E0. apply lt_false in E3, E4, E5.
    repeat split; auto; lia.
Qed.

(** X19.  When the threshold and the booked figure are computed without
    rounding, what the form submits with no highest bid and an increment
    [i] that is not negative is booked at a loss of at least [i * q] when
    it is a buy of [q] units, and at a gain of at least [i * q] when it is
    a sell.  With rounding the bound can fail: against 127.01 with
    increment 1 the form accepts a buy of 10 units at 128.01, which is
    booked at -9.999999999999858. *)
Theorem form_bids_pay_the_increment (bidAmount : BidForm.Field Q) (quantity : BidForm.Field Z)
    (bidType : BidType) (currentPrice minIncrement : Q) (isActive : bool)
    (a : Q) (t : BidType) (q : Z) :
  (0 <= minIncrement)%Q ->
  BidForm.handleSubmit bidAmount quantity bidType
    (BidForm.minBid None currentPrice minIncrement) isActive = Some (a, t, q) ->
  (BidForm.minBid None currentPrice minIncrement == currentPrice + minIncrement)%Q ->
  (Context.profitLoss t currentPrice a q
   == match t with
      | buy => (currentPrice - a) * inject_Z q
      | sell => (a - currentPrice) * inject_Z q
      end)%Q ->
  match t with
  | buy => (Context.profitLoss buy currentPrice a q <= - (minIncrement * inject_Z q))%Q
           /\ (Context.profitLoss buy currentPrice a q <= 0)%Q
  | sell => (minIncrement * inject_Z q <= Context.profitLoss sell currentPrice a q)%Q
            /\ (0 <= Context.profitLoss sell currentPrice a q)%Q
  end
  /\ BidForm.handleSubmit (BidForm.Parsed (Double.number (12801 # 100))) (BidForm.Parsed 10) buy
       (BidForm.minBid None (Double.number (12701 # 100)) 1) true
     = Some (Double.number (12801 # 100), buy, 10)
  /\ (- (1 * inject_Z 10)
      < Context.profitLoss buy (Double.number (12701 # 100)) (Double.number (12801 # 100)) 10)%Q.
Proof.
  intros Hinc Hsubmit Hthreshold Hfigure.
  split; [|split; vm_compute; reflexivity].
  apply handleSubmit_valid in Hsubmit.
  destruct Hsubmit as (_ & _ & _ & _ & _ & Hmin & _ & Hq & _).
  rewrite Hthreshold in Hmin.
  assert (Hq1 : (1 <= inject_Z q)%Q) by (unfold Qle; simpl; lia).
  destruct t; rewrite Hfigure; split; nra.
Qed.

(** The form as [App] mounts it (increment 1, no highest bid): a buy of
    10 at 151 against 150 is computed without rounding. *)
Lemma form_bids_pay_the_increment_witness :
  (Context.profitLoss buy 150 151 10 <= - (1 * inject_Z 10))%Q.
Proof.
  exact (proj1 (proj1 (form_bids_pay_the_increment (BidForm.Parsed 151%Q) (BidForm.Parsed 10)
                         buy 150%Q 1%Q true 151%Q buy 10 ltac:(discriminate) eq_refl
                         ltac:(vm_compute; reflexivity) ltac:(vm_compute; reflexivity)))).
Defined.

(** ** The store *)

Lemma updateUserStats_users_other (s : Firestore.Store) (uid other : string) (v : Z) :
  other <> uid ->
  Firestore.users (Firestore.updateUserStats_activeBids s uid v) !! other
  = Firestore.users s !! other.
Proof.
  intros Hne. unfold Firestore.updateUserStats_activeBids.
  destruct (Firestore.users s !! uid); [|reflexivity].
  cbn [Firestore.users]. apply lookup_insert_ne. congruence.
Qed.

(** X20.  A cancellation is final and touches one bid.  After a bid has
    been cancelled, every further request to cancel it, by the owner or by
    anyone else, is rejected and changes nothing; the owner is told 'Bid
    cannot be cancelled'.  The cancellation itself leaves every other bid
    document, every other user's profile and all auction documents as
    they were. *)
Theorem cancellation_is_final (s : Firestore.Store) (bidId owner : string) :
  succeeded (snd (Firestore.cancelBid s bidId owner)) = true ->
  let s1 := fst (Firestore.cancelBid s bidId owner) in
  Firestore.cancelBid s1 bidId owner = (s1, Throw "Bid cannot be cancelled")
  /\ (forall anyone, succeeded (snd (Firestore.cancelBid s1 bidId anyone)) = false
                     /\ fst (Firestore.cancelBid s1 bidId anyone) = s1)
  /\ (forall other, other <> bidId -> Firestore.bids s1 !! other = Firestore.bids s !! other)
  /\ (forall other, other <> owner -> Firestore.users s1 !! other = Firestore.users s !! other)
  /\ Firestore.auctions s1 = Firestore.auctions s.
Proof.
  intros Hok. cbv zeta.
  destruct (cancelBid_inv s bidId owner) as [(d & H1 & H2 & H3 & E)|(msg & E & _)];
    [|rewrite E in Hok; discriminate].
  rewrite E. cbn [fst].
  set (s0 := Firestore.mkStore (<[bidId := Firestore.set_status d cancelled]> (Firestore.bids s))
                               (Firestore.users s) (Firestore.auctions s)).
  assert (Hlook : Firestore.bids (Firestore.updateUserStats_activeBids s0 owner (-1)) !! bidId
                  = Some (Firestore.set_status d cancelled)).
  { rewrite updateUserStats_bids. apply lookup_insert_eq. }
  assert (Hagain : forall anyone,
             exists msg, Firestore.cancelBid (Firestore.updateUserStats_activeBids s0 owner (-1))
                           bidId anyone
                         = (Firestore.updateUserStats_activeBids s0 owner (-1), Throw msg)
                         /\ (anyone = owner -> msg = "Bid cannot be cancelled")).
  { intros anyone. unfold Firestore.cancelBid at 1. rewrite Hlook.
    cbn [Firestore.userId Firestore.status Firestore.set_status]. rewrite H2.
    destruct (String.eqb owner anyone) eqn:Eo; cbn [negb].
    - eexists. split; [reflexivity|]. reflexivity.
    - eexists. split; [reflexivity|]. intros ->. rewrite String.eqb_refl in Eo. discriminate. }
  split; [|split; [|split; [|split]]].
  - destruct (Hagain owner) as (msg & E1 & Hmsg). rewrite E1, (Hmsg eq_refl). reflexivity.
  - intros anyone. destruct (Hagain anyone) as (msg & E1 & _). rewrite E1. split; reflexivity.
  - intros other Hother. rewrite updateUserStats_bids. apply lookup_insert_ne. congruence.
  - intros other Hother.
    rewrite (updateUserStats_users_other s0 owner other (-1) Hother). reflexivity.
  - unfold Firestore.updateUserStats_activeBids.
    destruct (Firestore.users s0 !! owner); reflexivity.
Qed.

(** The owner cancels the bid of the sample store and tries again. *)
Lemma cancellation_is_final_witness :
  Firestore.cancelBid Sample.storeAfterCancel "b1" "u1"
  = (Sample.storeAfterCancel, Throw "Bid cannot be cancelled").
Proof.
  exact (proj1 (cancellation_is_final Sample.store "b1" "u1" eq_refl)).
Defined.

Lemma updateUserBidCount_counter (s : Firestore.Store) (uid : string) :
  Firestore.activeBidsCounter (Firestore.updateUserBidCount s uid) uid
  = Firestore.activeBidsCounter s uid.
Proof.
  unfold Firestore.activeBidsCounter, Firestore.updateUserBidCount.
  destruct (Firestore.users s !! uid) as [u|] eqn:Hu; [|rewrite Hu; reflexivity].
  cbn [Firestore.users]. rewrite lookup_insert_eq. reflexivity.
Qed.

Lemma counter_users (s1 s2 : Firestore.Store) (uid : string) :
  Firestore.users s1 = Firestore.users s2 ->
  Firestore.activeBidsCounter s1 uid = Firestore.activeBidsCounter s2 uid.
Proof.
  unfold Firestore.activeBidsCounter. intros ->. reflexivity.
Qed.

(** X21.  Placing and cancelling compose: for a user with a profile, an
    accepted [addBid] raises the active-bid counter by one, the owner can
    then cancel the bid under the id the store issued, and the counter is
    back at its value from before the bid. *)
Theorem add_then_cancel_restores_counter (be : Firestore.Backend) (s : Firestore.Store)
    (bid : Bid.t) (docId : string) (n : Z) :
  Firestore.addDoc be = inl docId ->
  Bid.userId bid <> "" -> Bid.userId bid <> "bot" ->
  Firestore.activeBidsCounter s (Bid.userId bid) = Some n ->
  let s1 := fst (Firestore.addBid be s bid) in
  let s2 := fst (Firestore.cancelBid s1 docId (Bid.userId bid)) in
  Firestore.activeBidsCounter s1 (Bid.userId bid) = Some (n + 1)
  /\ snd (Firestore.cancelBid s1 docId (Bid.userId bid)) = Ok tt
  /\ Firestore.activeBidsCounter s2 (Bid.userId bid) = Some n
  /\ (exists d, Firestore.bids s2 !! docId = Some d /\ Firestore.status d = Some cancelled).
Proof.
  intros Hadd Hne1 Hne2 Hn. cbv zeta.
  pose proof (addBid_bids be s bid docId Hadd) as Hbids.
  assert (Hc1 : Firestore.activeBidsCounter (fst (Firestore.addBid be s bid)) (Bid.userId bid)
                = Some (n + 1)).
  { unfold Firestore.addBid. rewrite Hadd. cbn [fst].
    apply String.eqb_neq in Hne1, Hne2. rewrite Hne1, Hne2. cbn [negb andb].
    erewrite counter_users by apply updateAuctionStats_users.
    apply updateUserStats_counter. rewrite updateUserBidCount_counter. exact Hn. }
  set (s1 := fst (Firestore.addBid be s bid)) in *.
  assert (Hcancel : Firestore.cancelBid s1 docId (Bid.userId bid)
                    = (Firestore.updateUserStats_activeBids
                         (Firestore.mkStore
                            (<[docId := Firestore.set_status
                                          (Firestore.mkBidDoc (Bid.userId bid) (Bid.userName bid)
                                             (Bid.amount bid) (Bid.quantity bid) (Bid.type bid)
                                             (Some (Firestore.serverTime be))
                                             (Bid.stockSymbol bid) (Some active))
                                          cancelled]> (Firestore.bids s1))
                            (Firestore.users s1) (Firestore.auctions s1))
                         (Bid.userId bid) (-1), Ok tt)).
  { unfold Firestore.cancelBid. rewrite Hbids, lookup_insert_eq.
    cbn [Firestore.userId Firestore.status]. rewrite String.eqb_refl. reflexivity. }
  rewrite Hcancel. cbn [fst snd].
  split; [exact Hc1|]. split; [reflexivity|]. split.
  - rewrite (updateUserStats_counter _ _ (-1) (n + 1)) by exact Hc1. f_equal. lia.
  - eexists. rewrite updateUserStats_bids. cbn [Firestore.bids].
    split; [apply lookup_insert_eq|reflexivity].
Qed.

(** The sample user (counter at 1) adds a second bid and cancels it. *)
Lemma add_then_cancel_restores_counter_witness :
  Firestore.activeBidsCounter
    (fst (Firestore.cancelBid (fst (Firestore.addBid Sample.backend Sample.store Scenario.buyLow))
            "b2" "u1")) "u1"
  = Some 1.
Proof.
  destruct (add_then_cancel_restores_counter Sample.backend Sample.store Scenario.buyLow "b2" 1
              eq_refl ltac:(discriminate) ltac:(discriminate) eq_refl) as (_ & _ & H & _).
  exact H.
Defined.

Lemma NoDup_map_filter {A B} (f : A -> B) (p : A -> bool) (l : list A) :
  NoDup (List.map f l) -> NoDup (List.map f (List.filter p l)).
Proof.
  induction l as [|x l IH]; simpl; intros H; [constructor|].
  apply NoDup_cons in H. destruct H as [Hx Hl].
  destruct (p x); simpl; [|apply IH, Hl].
  apply NoDup_cons. split; [|apply IH, Hl].
  intros Hin. apply Hx. apply list_elem_of_In in Hin. apply list_elem_of_In.
  apply List.in_map_iff in Hin. destruct Hin as (y & Hy & Hin).
  apply List.in_map_iff. exists y. split; [exact Hy|].
  apply List.filter_In in Hin. apply Hin.
Qed.

Lemma NoDup_map_firstn {A B} (f : A -> B) (n : nat) (l : list A) :
  NoDup (List.map f l) -> NoDup (List.map f (firstn n l)).
Proof.
  revert n. induction l as [|x l IH]; intros [|n] H; simpl; try constructor.
  - simpl in H. apply NoDup_cons in H. destruct H as [Hx Hl].
    intros Hin. apply Hx. apply list_elem_of_In in Hin. apply list_elem_of_In.
    apply List.in_map_iff in Hin. destruct Hin as (y & Hy & Hin).
    apply List.in_map_iff. exists y. split; [exact Hy|].
    rewrite <- (firstn_skipn n l). apply in_or_app. left. exact Hin.
  - simpl in H. apply NoDup_cons in H. apply IH, H.
Qed.

Lemma in_bidsQuery (s : Firestore.Store) (symbol : string) (limitCount : nat)
    (kd : string * Firestore.BidDoc) :
  In kd (Firestore.bidsQuery s symbol limitCount) ->
  Firestore.bids s !! fst kd = Some (snd kd) /\ Firestore.stockSymbol (snd kd) = symbol.
Proof.
  unfold Firestore.bidsQuery. intros H.
  apply (in_slice0 limitCount) in H. apply in_sort in H. apply List.filter_In in H.
  destruct H as [Hin Hsym]. unfold Firestore.matchesQuery in Hsym.
  apply andb_true_iff in Hsym. destruct Hsym as [Hsym _].
  apply String.eqb_eq in Hsym. split; [|exact Hsym].
  apply list_elem_of_In in Hin. apply elem_of_map_to_list' in Hin. exact Hin.
Qed.

(** X22.  The live subscription neither invents nor repeats bids.  It
    delivers at most [limit] bids; each carries the id of a stored
    document of the requested symbol and that document's user, price and
    side; no id occurs twice; every bid has the requested symbol, no
    status, and a quantity that is not 0.  When the store holds no more
    than [limit] bids, every stored bid of the symbol that has a
    timestamp is delivered. *)
Theorem live_stream_is_faithful (be : Firestore.Backend) (s : Firestore.Store)
    (symbol : string) (limitCount : nat) :
  let stream := Firestore.subscribeToBids be s symbol limitCount in
  (length stream <= limitCount)%nat
  /\ NoDup (List.map Bid.id stream)
  /\ (forall b, In b stream ->
        Bid.stockSymbol b = symbol
        /\ Bid.status b = None
        /\ (exists q, Bid.quantity b = Some q /\ q <> 0)
        /\ exists d, Firestore.bids s !! Bid.id b = Some d
                     /\ Firestore.stockSymbol d = symbol
                     /\ Firestore.userId d = Bid.userId b
                     /\ Firestore.amount d = Bid.amount b
                     /\ Firestore.type d = Bid.type b)
  /\ ((size (Firestore.bids s) <= limitCount)%nat ->
      forall k d, Firestore.bids s !! k = Some d -> Firestore.stockSymbol d = symbol ->
                  Firestore.timestamp d <> None ->
                  In k (List.map Bid.id stream)).
Proof.
  cbv zeta. unfold Firestore.subscribeToBids, Firestore.onSnapshot.
  assert (Hids : forall l, List.map Bid.id (List.map (Firestore.bidOfDoc be symbol) l)
                           = List.map fst l).
  { intros l. rewrite List.map_map. reflexivity. }
  split; [|split; [|split]].
  - rewrite length_map. unfold Firestore.bidsQuery.
    rewrite length_firstn. apply Nat.le_min_l.
  - rewrite Hids. unfold Firestore.bidsQuery.
    apply NoDup_map_firstn.
    rewrite (Permutation_map fst (sort_perm _ _)).
    apply NoDup_map_filter.
    apply (NoDup_fst_map_to_list (Firestore.bids s)).
  - intros b Hb. apply List.in_map_iff in Hb. destruct Hb as ([k d] & <- & Hin).
    apply in_bidsQuery in Hin. cbn [fst snd] in Hin. destruct Hin as [Hlook Hsym].
    unfold Firestore.bidOfDoc.
    cbn [fst snd Bid.stockSymbol Bid.status Bid.quantity Bid.id Bid.userId Bid.amount Bid.type].
    split; [|split; [reflexivity|split]].
    + rewrite Hsym. destruct symbol; reflexivity.
    + eexists. split; [reflexivity|]. unfold Js.or_num.
      destruct (Firestore.quantity d) as [q|]; [|discriminate].
      destruct (q =? 0) eqn:E; [discriminate|]. apply Z.eqb_neq, E.
    + exists d. auto.
  - intros Hsize k d Hlook Hsym Hstamp. rewrite Hids. unfold Firestore.bidsQuery.
    rewrite firstn_all2.
    + apply List.in_map_iff. exists (k, d). split; [reflexivity|].
      apply in_sort, List.filter_In. split.
      * apply list_elem_of_In, elem_of_map_to_list. exact Hlook.
      * unfold Firestore.matchesQuery. cbn [snd]. apply andb_true_iff. split.
        -- apply String.eqb_eq. exact Hsym.
        -- destruct (Firestore.timestamp d); [reflexivity|congruence].
    + rewrite (Permutation_length (sort_perm _ _)).
      etransitivity; [apply List.filter_length_le|].
      rewrite length_map_to_list. exact Hsize.
Qed.

(** The sample store after the cancellation: its one bid is delivered. *)
Lemma live_stream_is_faithful_witness :
  In "b1" (List.map Bid.id
             (Firestore.subscribeToBids Sample.backend Sample.storeAfterCancel "AAPL" 50)).
Proof.
  destruct (live_stream_is_faithful Sample.backend Sample.storeAfterCancel "AAPL" 50)
    as (_ & _ & _ & H).
  apply (H ltac:(vm_compute; lia) "b1" (Firestore.set_status Sample.bidDoc cancelled));
    [vm_compute; reflexivity|reflexivity|discriminate].
Defined.

Lemma last_cons_default {A : Type} (x : A) (l : list A) (d d' : A) :
  List.last (x :: l) d = List.last (x :: l) d'.
Proof.
  revert x. induction l as [|y l IH]; intros x; [reflexivity|].
  change (List.last (y :: l) d = List.last (y :: l) d'). apply IH.
Qed.

Lemma updateUserBidCount_auctions (s : Firestore.Store) (uid : string) :
  Firestore.auctions (Firestore.updateUserBidCount s uid) = Firestore.auctions s.
Proof.
  unfold Firestore.updateUserBidCount. destruct (Firestore.users s !! uid); reflexivity.
Qed.

Lemma updateUserStats_auctions (s : Firestore.Store) (uid : string) (value : Z) :
  Firestore.auctions (Firestore.updateUserStats_activeBids s uid value) = Firestore.auctions s.
Proof.
  unfold Firestore.updateUserStats_activeBids. destruct (Firestore.users s !! uid); reflexivity.
Qed.

Lemma updateAuctionStats_auctions (s : Firestore.Store) (symbol : string) (bidAmount : Q) :
  Firestore.auctions (Firestore.updateAuctionStats s symbol bidAmount)
  = match Firestore.auctions s !! symbol with
    | Some a =>
        <[symbol :=
            Firestore.mkAuctionDoc
              (Firestore.incrementZ (Firestore.auctionTotalBids a) 1)
              (match Firestore.highestBidAmount a with
               | None => bidAmount
               | Some h => if Qlt_le_dec h bidAmount then bidAmount
                           else Firestore.currentPrice a
               end)
              (Firestore.highestBidAmount a)]> (Firestore.auctions s)
    | None => Firestore.auctions s
    end.
Proof.
  unfold Firestore.updateAuctionStats.
  destruct (Firestore.auctions s !! symbol); reflexivity.
Qed.

Lemma addBid_auctions (be : Firestore.Backend) (s : Firestore.Store) (bid : Bid.t)
    (docId : string) :
  Firestore.addDoc be = inl docId ->
  Firestore.auctions (fst (Firestore.addBid be s bid))
  = Firestore.auctions (Firestore.updateAuctionStats s (Bid.stockSymbol bid) (Bid.amount bid)).
Proof.
  intros Hadd. unfold Firestore.addBid. rewrite Hadd. cbn [fst].
  rewrite !updateAuctionStats_auctions.
  destruct (negb (String.eqb (Bid.userId bid) "") && negb (String.eqb (Bid.userId bid) "bot"));
    [rewrite updateUserStats_auctions, updateUserBidCount_auctions|]; reflexivity.
Qed.

(** X23.  The store never records a highest bid, so the price it keeps
    for an auction follows the bids themselves: after any sequence of
    accepted bids for the symbol of an auction document without a highest
    bid, the document's current price is the price of the last bid,
    higher or lower than before, its bid count has grown by the number of
    bids, and it still has no highest bid. *)
Theorem auction_price_follows_last_bid
    (calls : list (Firestore.Backend * Bid.t)) (s : Firestore.Store) (symbol : string)
    (a : Firestore.AuctionDoc) :
  Firestore.auctions s !! symbol = Some a ->
  Firestore.highestBidAmount a = None ->
  (forall call, In call calls ->
     (exists docId, Firestore.addDoc (fst call) = inl docId)
     /\ Bid.stockSymbol (snd call) = symbol) ->
  Firestore.auctions (Replay.addBids s calls) !! symbol
  = Some (Firestore.mkAuctionDoc
            (match calls with
             | [] => Firestore.auctionTotalBids a
             | _ => Some (default 0 (Firestore.auctionTotalBids a) + Z.of_nat (length calls))
             end)
            (List.last (List.map (fun call => Bid.amount (snd call)) calls) (Firestore.currentPrice a))
            None).
Proof.
  revert s a. induction calls as [|call calls IH]; intros s a Hlook Hnone Hall.
  - simpl. rewrite Hlook. destruct a. simpl in Hnone. subst. reflexivity.
  - destruct (Hall call (or_introl eq_refl)) as ((docId & Hadd) & Hsym).
    unfold Replay.addBids. cbn [fold_left]. fold (Replay.addBids (fst (Firestore.addBid (fst call) s (snd call))) calls).
    pose proof (addBid_auctions (fst call) s (snd call) docId Hadd) as Hauc.
    rewrite updateAuctionStats_auctions, Hsym, Hlook, Hnone in Hauc.
    rewrite (IH _ (Firestore.mkAuctionDoc
                     (Firestore.incrementZ (Firestore.auctionTotalBids a) 1)
                     (Bid.amount (snd call)) None)).
    + f_equal. f_equal.
      * unfold Firestore.incrementZ. cbn [Firestore.auctionTotalBids].
        destruct (Firestore.auctionTotalBids a), calls;
          cbn [length]; rewrite ?Nat2Z.inj_succ; unfold default; cbn [from_option id];
          f_equal; simpl; lia.
      * destruct calls as [|call' calls]; [reflexivity|].
        cbn [List.map]. rewrite (last_cons_default _ _ _ (Firestore.currentPrice a)).
        reflexivity.
    + rewrite Hauc. apply lookup_insert_eq.
    + reflexivity.
    + intros c Hc. apply Hall. right. exact Hc.
Qed.

(** After an auction is created at 150 a bid at 153 and then one at 151
    arrive: the stored price is 151. *)
Lemma auction_price_follows_last_bid_witness :
  Firestore.currentPrice
  <$> (Firestore.auctions (Replay.addBids Scenario.storeWithAuction Scenario.calls) !! "AAPL")
  = Some 151%Q.
Proof.
  rewrite (auction_price_follows_last_bid Scenario.calls Scenario.storeWithAuction "AAPL"
             (Firestore.mkAuctionDoc (Some 0) 150%Q None)).
  - reflexivity.
  - vm_compute. reflexivity.
  - reflexivity.
  - intros call [<-|[<-|[]]]; (split; [eexists; reflexivity|reflexivity]).
Defined.

Lemma updateUserProfitLoss_other (be : Firestore.Backend) (s : Firestore.Store)
    (uid other : string) (delta : Q) :
  other <> uid ->
  Firestore.users (fst (Firestore.updateUserProfitLoss be s uid delta)) !! other
  = Firestore.users s !! other.
Proof.
  intros Hne. unfold Firestore.updateUserProfitLoss.
  destruct (Firestore.profitWrite be); [reflexivity|].
  destruct (Firestore.users s !! uid); cbn [fst Firestore.users];
    apply lookup_insert_ne; congruence.
Qed.

Lemma ofQ_Qeq (x y : Q) : (x == y)%Q -> Double.ofQ x = Double.ofQ y.
Proof.
  intros H. unfold Double.ofQ. rewrite (Qred_complete x y H). reflexivity.
Qed.

Lemma plus_Qeq (x x' y : Q) : (x == x')%Q -> Double.plus x y = Double.plus x' y.
Proof.
  intros H. unfold Double.plus. rewrite (ofQ_Qeq x x' H). reflexivity.
Qed.

Lemma profitLossOf_field (s : Firestore.Store) (uid : string) :
  Firestore.profitLossOf s uid = default 0%Q (Firestore.profitLossField s uid).
Proof.
  unfold Firestore.profitLossOf, Firestore.profitLossField.
  destruct (Firestore.users s !! uid); reflexivity.
Qed.

Lemma updateProfits_exact (be : Firestore.Backend) (uid : string) (deltas : list Q) :
  Firestore.profitWrite be = None ->
  forall (s : Firestore.Store) (start : Q),
    (Firestore.profitLossOf s uid == start)%Q ->
    Replay.exactSums start deltas = true ->
    (Firestore.profitLossOf (Replay.updateProfits be s uid deltas) uid
     == start + Replay.total deltas)%Q.
Proof.
  intros Hw. induction deltas as [|d deltas IH]; intros s start Hstart Hexact.
  - simpl. rewrite Hstart. lra.
  - cbn [Replay.exactSums] in Hexact. apply andb_true_iff in Hexact.
    destruct Hexact as [Hd Hrest]. apply Qeq_bool_iff in Hd.
    unfold Replay.updateProfits. cbn [fold_left].
    fold (Replay.updateProfits be (fst (Firestore.updateUserProfitLoss be s uid d)) uid deltas).
    rewrite (IH _ (start + d)%Q); [simpl; lra| |exact Hrest].
    destruct (updateUserProfitLoss_applied be s uid d Hw) as [_ Hstep].
    rewrite Hstep. rewrite profitLossOf_field in Hstart.
    destruct (Firestore.profitLossField s uid) as [x|]; cbn [default from_option id] in Hstart.
    + rewrite (plus_Qeq x start d Hstart). exact Hd.
    + rewrite <- Hstart. lra.
Qed.

(** X24.  Profit and loss accumulate in the profile in binary64, one
    update after the other.  After a sequence of updates that the store
    accepts and of which no sum on the way is rounded, the user's
    cumulative figure is the figure from before plus the sum of the
    updates (a profile that did not exist starts from 0); in any case no
    other profile has changed.  When the store does not accept the writes
    the store is unchanged.  With rounding the figure can differ from the
    sum: a profile at 0.1 updated by 0.2 and by 0.3 stands at
    0.6000000000000001. *)
Theorem profit_loss_accumulates (be : Firestore.Backend) (deltas : list Q)
    (s : Firestore.Store) (uid : string) :
  match Firestore.profitWrite be with
  | None =>
      (Replay.exactSums (Firestore.profitLossOf s uid) deltas = true ->
       (Firestore.profitLossOf (Replay.updateProfits be s uid deltas) uid
        == Firestore.profitLossOf s uid + Replay.total deltas)%Q)
      /\ (forall other, other <> uid ->
            Firestore.users (Replay.updateProfits be s uid deltas) !! other
            = Firestore.users s !! other)
  | Some _ => Replay.updateProfits be s uid deltas = s
  end
  /\ Firestore.profitLossOf
       (Replay.updateProfits Sample.backend Scenario.storeAtTenth "u1"
          [Double.number (2 # 10); Double.number (3 # 10)]) "u1"
     = (1351079888211149 # 2251799813685248)%Q
  /\ ~ (1351079888211149 # 2251799813685248
        == Double.number (1 # 10) + Double.number (2 # 10) + Double.number (3 # 10))%Q
  /\ ~ (1351079888211149 # 2251799813685248 == Double.number (6 # 10))%Q.
Proof.
  split; [|split; [vm_compute; reflexivity|split; vm_compute; discriminate]].
  destruct (Firestore.profitWrite be) as [msg|] eqn:Hw.
  - induction deltas as [|d deltas IH]; [reflexivity|].
    unfold Replay.updateProfits in *. cbn [fold_left].
    rewrite (updateUserProfitLoss_failed be s uid d msg Hw). exact IH.
  - split.
    + intros Hexact. apply (updateProfits_exact be uid deltas Hw s); [reflexivity|exact Hexact].
    + revert s. induction deltas as [|d deltas IH]; intros s other Hne; [reflexivity|].
      unfold Replay.updateProfits in *. cbn [fold_left].
      rewrite (IH _ other Hne). apply updateUserProfitLoss_other, Hne.
Qed.

(** Two results of the sample user, -10 and +10, cancel out without
    rounding; the profile of another user is created at 5. *)
Lemma profit_loss_accumulates_witness :
  (Firestore.profitLossOf
     (Replay.updateProfits Sample.backend Sample.store "u1" [(-10)%Q; 10%Q]) "u1"
   == 0)%Q
  /\ Firestore.users (Replay.updateProfits Sample.backend Sample.store "u2" [5%Q]) !! "u1"
     = Firestore.users Sample.store !! "u1".
Proof.
  pose proof (proj1 (profit_loss_accumulates Sample.backend [(-10)%Q; 10%Q] Sample.store "u1"))
    as H1.
  pose proof (proj1 (profit_loss_accumulates Sample.backend [5%Q] Sample.store "u2")) as H2.
  change (Firestore.profitWrite Sample.backend) with (@None string) in H1, H2.
  split.
  - rewrite (proj1 H1); [reflexivity|vm_compute; reflexivity].
  - apply (proj2 H2). discriminate.
Defined.

Lemma default_window_not_normal (st : Context.AppState) (a : Auction.t) (t0 d t : Z) :
  Context.auction st = Some a ->
  Auction.endTime a = t0 + d * 1000 ->
  t0 <= t -> d <= 300 ->
  Timer.ofApp st t <> Some Timer.Normal.
Proof.
  intros Ha Hend Ht Hd. unfold Timer.ofApp, Timer.state. rewrite Ha.
  destruct (Context.isAuctionActive st t); cbn [negb]; [|discriminate].
  assert (Hr : Timer.remaining t (Auction.endTime a) <= 300).
  { apply remaining_thresholds; lia. }
  unfold Timer.isCritical, Timer.isWarning.
  destruct (Z.leb_spec (Timer.remaining t (Auction.endTime a)) 60); [discriminate|].
  destruct (Z.leb_spec (Timer.remaining t (Auction.endTime a)) 300); [|lia].
  destruct (Z.ltb_spec 60 (Timer.remaining t (Auction.endTime a))); [discriminate|lia].
Qed.

(** X25.  An auction that the store lets the provider start accepts bids
    exactly until one second before its end: it is active at time [t]
    exactly when [t] is at most the start time plus the duration (300
    seconds when none is given) minus one second.  With a duration of at
    most 300 seconds its timer never shows the normal state once it has
    started.  When the store refuses the write the state is unchanged and
    the refusal is thrown. *)
Theorem started_auction_window (w : Context.World) (writeError : option string)
    (state : Context.AppState) (store : Firestore.Store) (stock : Stock.t)
    (durationArg : option Z) (t : Z) :
  let o := AuctionAdmin.startAuction w writeError state store stock durationArg in
  let t0 := Firestore.now (Context.backend w) in
  let d := default 300 durationArg in
  match writeError with
  | None =>
      Context.result o = Ok tt
      /\ (Context.isAuctionActive (Context.state' o) t = true <-> t <= t0 + (d - 1) * 1000)
      /\ (t0 <= t -> d <= 300 -> Timer.ofApp (Context.state' o) t <> Some Timer.Normal)
      /\ Context.bids (Context.state' o) = Context.bids state
  | Some msg =>
      Context.state' o = state /\ Context.store' o = store
      /\ Context.result o = Throw ("Failed to create auction: " +:+ msg)
  end.
Proof.
  intros o t0 d. subst o. unfold AuctionAdmin.startAuction, AuctionAdmin.createAuction.
  destruct writeError as [msg|]; [repeat split|].
  cbn [Context.result Context.state' Context.dispatchAll fold_left Context.auctionReducer].
  split; [reflexivity|]. split; [|split].
  - rewrite isAuctionActive_iff. cbn [Context.auction Context.set_stock Context.set_auction].
    split.
    + intros (a & [= <-] & _ & H). cbn [Auction.endTime] in H.
      change (default 300 (Some (default 300 durationArg))) with d in H. subst t0. lia.
    + intros H. eexists. split; [reflexivity|]. split; [reflexivity|].
      cbn [Auction.endTime].
      change (default 300 (Some (default 300 durationArg))) with d. subst t0. lia.
  - intros Ht Hd. eapply (default_window_not_normal _ _ t0 d t); [reflexivity| |exact Ht|exact Hd].
    reflexivity.
  - reflexivity.
Qed.

(** Started at time 1000 with the default duration, the auction is active
    at 300000 and its timer is not in the normal state at 1000. *)
Lemma started_auction_window_witness :
  Context.isAuctionActive
    (Context.state' (AuctionAdmin.startAuction Sample.world None
                       (Sample.stateWith Sample.endedAuction) Sample.store
                       AuctionAdmin.defaultStock None)) 300000 = true
  /\ Timer.ofApp
       (Context.state' (AuctionAdmin.startAuction Sample.world None
                          (Sample.stateWith Sample.endedAuction) Sample.store
                          AuctionAdmin.defaultStock None))
       (Firestore.now (Context.backend Sample.world)) <> Some Timer.Normal.
Proof.
  pose proof (started_auction_window Sample.world None (Sample.stateWith Sample.endedAuction)
                Sample.store AuctionAdmin.defaultStock None 300000) as H1.
  pose proof (started_auction_window Sample.world None (Sample.stateWith Sample.endedAuction)
                Sample.store AuctionAdmin.defaultStock None
                (Firestore.now (Context.backend Sample.world))) as H2.
  cbv zeta in H1, H2.
  destruct H1 as (_ & H1 & _). destruct H2 as (_ & _ & H2 & _).
  split.
  - apply H1. vm_compute. discriminate.
  - apply H2; vm_compute; discriminate.
Defined.

(** X26.  Once the provider has ended the auction it stays closed: at
    every later or earlier clock time the auction is not active, no time
    remains, the timer shows the ended state, and the provider's
    initialisation does not install a new auction over it.  The bids in
    the state are kept.  When the store refuses the update nothing changes
    and the refusal is thrown. *)
Theorem ended_auction_stays_closed (w : Context.World) (endError : option string)
    (state : Context.AppState) (store : Firestore.Store) (a : Auction.t) (t : Z) :
  Context.auction state = Some a ->
  let o := AuctionAdmin.endAuction w endError state store in
  Context.store' o = store
  /\ match endError with
     | None =>
         Context.isAuctionActive (Context.state' o) t = false
         /\ Context.getTimeRemaining (Context.state' o) t = 0
         /\ Timer.ofApp (Context.state' o) t = Some Timer.Ended
         /\ AuctionAdmin.initializeAuction (Context.botEnv w) (Context.state' o) t
            = Context.state' o
         /\ Context.bids (Context.state' o) = Context.bids state
     | Some msg => Context.state' o = state /\ Context.result o = Throw msg
     end.
Proof.
  intros Ha o. subst o. unfold AuctionAdmin.endAuction. rewrite Ha.
  destruct endError as [msg|]; [repeat split|].
  cbn [Context.store' Context.state' Context.auctionReducer].
  split; [reflexivity|].
  assert (Hact : Context.isAuctionActive
                   (Context.set_auction state (Some (Auction.with_isActive a false))) t = false).
  { reflexivity. }
  split; [exact Hact|]. split; [reflexivity|]. split; [|split; [|reflexivity]].
  - unfold Timer.ofApp. rewrite Hact. reflexivity.
  - unfold AuctionAdmin.initializeAuction.
    cbn [Context.auction Context.set_auction]. rewrite !andb_false_r. reflexivity.
Qed.

(** Ending the live sample auction closes it at time 0, long before its
    end time. *)
Lemma ended_auction_stays_closed_witness :
  Context.isAuctionActive
    (Context.state' (AuctionAdmin.endAuction Sample.world None
                       (Sample.stateWith Sample.liveAuction) Sample.store)) 0 = false.
Proof.
  pose proof (ended_auction_stays_closed Sample.world None (Sample.stateWith Sample.liveAuction)
                Sample.store Sample.liveAuction 0 eq_refl) as H.
  cbv zeta in H. exact (proj1 (proj2 H)).
Defined.

(** X27.  The provider installs its demonstration auction at most once:
    running the initialisation again, at any later time, changes nothing.
    When it does install the auction (connected, signed in, no auction
    yet) the auction is active exactly during the 299 seconds that follow,
    and the bids in the state are kept. *)
Theorem demo_auction_installed_once (botEnv : bool) (state : Context.AppState)
    (t1 t2 t : Z) :
  AuctionAdmin.initializeAuction botEnv (AuctionAdmin.initializeAuction botEnv state t1) t2
  = AuctionAdmin.initializeAuction botEnv state t1
  /\ Context.bids (AuctionAdmin.initializeAuction botEnv state t1) = Context.bids state
  /\ (Context.firebaseConnected state = true ->
      Context.authInitialized state = true ->
      Context.user state <> None ->
      Context.auction state = None ->
      (Context.isAuctionActive (AuctionAdmin.initializeAuction botEnv state t1) t = true
       <-> t <= t1 + 299000)).
Proof.
  split; [|split].
  - unfold AuctionAdmin.initializeAuction.
    destruct (Context.firebaseConnected state && Context.authInitialized state
              && match Context.user state with Some _ => true | None => false end
              && match Context.auction state with Some _ => false | None => true end) eqn:E.
    + cbn [Context.dispatchAll fold_left Context.auctionReducer Context.auction
           Context.set_stock Context.set_auction].
      rewrite andb_false_r. reflexivity.
    + rewrite E. reflexivity.
  - unfold AuctionAdmin.initializeAuction. destruct (_ && _); reflexivity.
  - intros Hc Hi Hu Ha. unfold AuctionAdmin.initializeAuction.
    rewrite Hc, Hi, Ha. destruct (Context.user state) as [u|]; [|congruence].
    cbn [andb Context.dispatchAll fold_left Context.auctionReducer].
    rewrite isAuctionActive_iff. cbn [Context.auction Context.set_stock Context.set_auction].
    split.
    + intros (a & [= <-] & _ & H). cbn [Auction.endTime AuctionAdmin.demoAuction] in H. lia.
    + intros H. eexists. split; [reflexivity|]. split; [reflexivity|].
      cbn [Auction.endTime AuctionAdmin.demoAuction]. lia.
Qed.

(** Installed at time 1000 for the signed-in sample user, the
    demonstration auction is still active 299 seconds later. *)
Lemma demo_auction_installed_once_witness :
  Context.isAuctionActive (AuctionAdmin.initializeAuction false Scenario.signedIn 1000) 300000
  = true.
Proof.
  apply (proj2 (proj2 (demo_auction_installed_once false Scenario.signedIn 1000 0 300000)));
    try reflexivity; try discriminate; lia.
Defined.

Lemma digitsOnly_all_digits (s : string) :
  WhatsApp.digitsOnly (WhatsApp.digitsOnly s) = WhatsApp.digitsOnly s.
Proof.
  induction s as [|c s IH]; [reflexivity|].
  cbn [WhatsApp.digitsOnly]. destruct (WhatsApp.isDigit c) eqn:E; [|exact IH].
  cbn [WhatsApp.digitsOnly]. rewrite E, IH. reflexivity.
Qed.

Lemma formatPhoneNumber_digits (digits : string) :
  WhatsApp.digitsOnly digits = digits ->
  (11 <= String.length digits <= 15)%nat ->
  WhatsApp.formatPhoneNumber ("whatsapp:+" +:+ digits) = Some ("whatsapp:+" +:+ digits).
Proof.
  intros Hd Hlen. unfold WhatsApp.formatPhoneNumber.
  change (WhatsApp.digitsOnly ("whatsapp:+" +:+ digits)) with (WhatsApp.digitsOnly digits).
  rewrite Hd.
  destruct (Nat.eqb_spec (String.length digits) 10); [lia|].
  destruct (Nat.ltb_spec (String.length digits) 10); [lia|].
  destruct (Nat.ltb_spec 15 (String.length digits)); [lia|]. reflexivity.
Qed.

Lemma formatPhoneNumber_cases (phone : string) :
  let cleaned := WhatsApp.digitsOnly phone in
  let n := String.length cleaned in
  WhatsApp.formatPhoneNumber phone
  = if (n =? 10)%nat then Some ("whatsapp:+1" +:+ cleaned)
    else if (n <? 10)%nat || (15 <? n)%nat then None
    else Some ("whatsapp:+" +:+ cleaned).
Proof.
  intros cleaned n. unfold WhatsApp.formatPhoneNumber. fold cleaned. fold n.
  destruct (Nat.eqb_spec n 10) as [E|E]; [|reflexivity].
  change (String.length ("1" +:+ cleaned)) with (S n). rewrite E. reflexivity.
Qed.

(** X28.  A formatted phone number is the prefix [whatsapp:+] followed by
    11 to 15 digits and nothing else: the digits of the input in their
    order, with a leading 1 when the input has exactly ten digits.
    Formatting a formatted number again returns it unchanged.  The input is
    refused exactly when it has fewer than 10 or more than 15 digits. *)
Theorem formatted_phone_shape (phone : string) :
  let n := String.length (WhatsApp.digitsOnly phone) in
  match WhatsApp.formatPhoneNumber phone with
  | Some out =>
      exists digits,
        out = "whatsapp:+" +:+ digits
        /\ WhatsApp.digitsOnly digits = digits
        /\ (11 <= String.length digits <= 15)%nat
        /\ digits = (if (n =? 10)%nat then "1" else "") +:+ WhatsApp.digitsOnly phone
        /\ WhatsApp.formatPhoneNumber out = Some out
  | None => (n < 10 \/ 15 < n)%nat
  end.
Proof.
  intros n. rewrite formatPhoneNumber_cases. fold n.
  destruct (Nat.eqb_spec n 10) as [E|E].
  - assert (Hd : WhatsApp.digitsOnly ("1" +:+ WhatsApp.digitsOnly phone)
                 = "1" +:+ WhatsApp.digitsOnly phone).
    { change (WhatsApp.digitsOnly ("1" +:+ WhatsApp.digitsOnly phone))
        with ("1" +:+ WhatsApp.digitsOnly (WhatsApp.digitsOnly phone)).
      rewrite digitsOnly_all_digits. reflexivity. }
    assert (Hl : (11 <= String.length ("1" +:+ WhatsApp.digitsOnly phone) <= 15)%nat).
    { change (String.length ("1" +:+ WhatsApp.digitsOnly phone)) with (S n). lia. }
    exists ("1" +:+ WhatsApp.digitsOnly phone).
    split; [reflexivity|]. split; [exact Hd|]. split; [exact Hl|]. split; [reflexivity|].
    apply (formatPhoneNumber_digits _ Hd Hl).
  - destruct (Nat.ltb_spec n 10) as [L|L]; [left; exact L|].
    destruct (Nat.ltb_spec 15 n) as [U|U]; [right; exact U|].
    cbn [orb].
    assert (Hl : (11 <= String.length (WhatsApp.digitsOnly phone) <= 15)%nat) by (fold n; lia).
    exists (WhatsApp.digitsOnly phone).
    split; [reflexivity|]. split; [apply digitsOnly_all_digits|]. split; [exact Hl|].
    split; [reflexivity|].
    apply (formatPhoneNumber_digits _ (digitsOnly_all_digits phone) Hl).
Qed.

Lemma formatted_phone_prefix (phone out : string) :
  WhatsApp.formatPhoneNumber phone = Some out -> Relay.startsWith out "whatsapp:" = true.
Proof.
  rewrite formatPhoneNumber_cases.
  destruct (_ =? 10)%nat; [intros [= <-]; reflexivity|].
  destruct (_ || _); [discriminate|intros [= <-]; reflexivity].
Qed.

(** X29.  The relay passes the client's destination on as it is: for a
    destination that the client's formatting produced and a message that
    is not empty, the relay calls the provider once, with that very
    destination, and answers 200 with the provider's message id, or 500
    when the provider rejects.  A request without destination or without
    message is answered 400 and the provider is not called.  On a raw
    number the relay's own formatting agrees with the client's exactly when
    the number has 11 to 15 digits: the relay adds no country code and
    checks no length. *)
Theorem relay_forwards_client_number
    (provider : string -> string -> string + Relay.TwilioError)
    (phone out body : string) (req : Relay.Request) :
  (WhatsApp.formatPhoneNumber phone = Some out ->
   body <> "" ->
   fst (Relay.sendWhatsapp provider (Relay.mkRequest (Some out) (Some body))) = [out]
   /\ match provider out body with
      | inl sid =>
          snd (Relay.sendWhatsapp provider (Relay.mkRequest (Some out) (Some body)))
          = Relay.mkReply 200 true (Some sid) None None (Some out)
      | inr e =>
          Relay.status (snd (Relay.sendWhatsapp provider
                               (Relay.mkRequest (Some out) (Some body)))) = 500
          /\ Relay.success (snd (Relay.sendWhatsapp provider
                                   (Relay.mkRequest (Some out) (Some body)))) = false
      end)
  /\ (Js.truthy_str (Relay.to req) = false \/ Js.truthy_str (Relay.body req) = false ->
      fst (Relay.sendWhatsapp provider req) = []
      /\ Relay.status (snd (Relay.sendWhatsapp provider req)) = 400)
  /\ (Relay.startsWith phone "whatsapp:" = false ->
      (WhatsApp.formatPhoneNumber phone = Some (Relay.formatTo phone)
       <-> (11 <= String.length (WhatsApp.digitsOnly phone) <= 15)%nat)).
Proof.
  split; [|split].
  - intros Hout Hbody.
    pose proof (formatted_phone_prefix phone out Hout) as Hpre.
    unfold Relay.sendWhatsapp. cbn [Relay.to Relay.body Js.truthy_str].
    destruct out as [|c out]; [discriminate|]. destruct body as [|b body]; [congruence|].
    cbn [negb orb default from_option id]. unfold Relay.formatTo. rewrite Hpre.
    destruct (provider (String c out) (String b body)); cbn [fst snd]; repeat split.
  - intros H. unfold Relay.sendWhatsapp.
    destruct H as [H|H]; rewrite H; cbn [negb orb]; rewrite ?orb_true_r; split; reflexivity.
  - intros Hraw. unfold Relay.formatTo. rewrite Hraw. rewrite formatPhoneNumber_cases.
    destruct (Nat.eqb_spec (String.length (WhatsApp.digitsOnly phone)) 10) as [E|E].
    + split; [|lia]. intros H. apply (f_equal (option_map String.length)) in H.
      simpl in H. injection H as H. lia.
    + destruct (Nat.ltb_spec (String.length (WhatsApp.digitsOnly phone)) 10) as [L|L];
        [split; [discriminate|lia]|].
      destruct (Nat.ltb_spec 15 (String.length (WhatsApp.digitsOnly phone))) as [U|U];
        [split; [discriminate|lia]|].
      cbn [orb]. split; [lia|reflexivity].
Qed.

(** A ten-digit number written with dashes reaches the provider as
    [whatsapp:+15551234567]. *)
Lemma relay_forwards_client_number_witness :
  fst (Relay.sendWhatsapp Scenario.accepting
         (Relay.mkRequest (Some "whatsapp:+15551234567") (Some "Invoice")))
  = ["whatsapp:+15551234567"].
Proof.
  apply (proj1 (relay_forwards_client_number Scenario.accepting "555-123-4567"
                  "whatsapp:+15551234567" "Invoice" (Relay.mkRequest None None)));
    [reflexivity|discriminate].
Defined.

(** X30.  A service whose settings enable the relay is always configured
    (the relay address is never empty), and a service that is not
    configured never touches the network: for a valid number it answers
    with a simulated success after the artificial delay, whatever the
    network would have said, and for an invalid number it fails without
    any attempt. *)
Theorem unconfigured_service_only_simulates (env : WhatsApp.Env) (net : WhatsApp.Network)
    (nowMs : Z) (phone : string) (invoice : Invoice.t) :
  let svc := WhatsApp.constructor env in
  WhatsApp.backendApiUrl svc <> ""
  /\ (WhatsApp.useBackendApi svc = true -> WhatsApp.isConfigured svc = true)
  /\ (WhatsApp.isConfigured svc = false ->
      WhatsApp.sendInvoice svc net nowMs phone invoice
      = match WhatsApp.formatPhoneNumber phone with
        | Some out =>
            ([WhatsApp.Attempt WhatsApp.Simulation out; WhatsApp.Wait 800],
             WhatsApp.mkResponse true (Some ("simulated_" +:+ pretty nowMs)) None)
        | None => ([], WhatsApp.mkResponse false None (Some "Invalid phone number format"))
        end).
Proof.
  intros svc.
  assert (Hurl : WhatsApp.backendApiUrl svc <> "").
  { subst svc. cbn [WhatsApp.constructor WhatsApp.backendApiUrl].
    destruct (default "" (WhatsApp.VITE_BACKEND_API_URL env)); discriminate. }
  assert (Hcfg : WhatsApp.useBackendApi svc = true -> WhatsApp.isConfigured svc = true).
  { subst svc. cbn [WhatsApp.constructor WhatsApp.backendApiUrl WhatsApp.useBackendApi
                    WhatsApp.isConfigured] in *.
    intros ->. cbn [andb].
    destruct (Js.or_str (default "" (WhatsApp.VITE_BACKEND_API_URL env)) "http://localhost:3001")
      eqn:E; [congruence|reflexivity]. }
  split; [exact Hurl|]. split; [exact Hcfg|].
  intros Hoff. unfold WhatsApp.sendInvoice.
  destruct (WhatsApp.formatPhoneNumber phone) as [out|]; [|reflexivity].
  destruct (WhatsApp.useBackendApi svc) eqn:Eb; [rewrite (Hcfg eq_refl) in Hoff; discriminate|].
  rewrite Hoff. reflexivity.
Qed.

(** With no settings at all the invoice for a ten-digit number is
    simulated although the network is down. *)
Lemma unconfigured_service_only_simulates_witness :
  WhatsApp.attempts
    (fst (WhatsApp.sendInvoice Sample.service Sample.offline 5000 "555-123-4567" Sample.invoice))
  = [WhatsApp.Simulation].
Proof.
  change Sample.service with (WhatsApp.constructor (WhatsApp.mkEnv None None None None None)).
  rewrite (proj2 (proj2 (unconfigured_service_only_simulates
                           (WhatsApp.mkEnv None None None None None) Sample.offline 5000
                           "555-123-4567" Sample.invoice)) eq_refl).
  reflexivity.
Defined.
